(** * AtoZ job bot: job extraction, classification, accept/reject actions,
      the polling cycle and the results tracker.

    Shallow embedding of
      - Bot/AtoZ-Bot/bot/results_tracker.py  (class ResultsTracker and the
        module-level wrappers around the global instance),
      - Bot/AtoZ-Bot/bot/data_processor.py   (extract_jobs, is_all_params_set,
        is_telephone_job, accept_from_board, get_interpreter_details_text,
        reject_on_detail),
      - Bot/AtoZ-Bot/bot/filter_handler.py   (navigate_to_job_board),
      - Bot/AtoZ-Bot/bot/login_handler.py    (perform_login),
      - Bot/AtoZ/persistent_bot.py           (persistent_bot_cycle),
      - Bot/AtoZ/atoz_bot.py                 (try_login, run_once).

    Conventions.
      - A Python [str] is a [string] (its UTF-8 bytes).  [lower] and [strip]
        act on the ASCII range; bytes above 127 are left alone.
      - A Python [float] holding a clock reading or an interval is a
        rational [Q]: comparisons and differences are exact.
      - A Python [int] is a [Z].
      - A Python [dict] with string keys is a [gmap string _].
      - Code that may raise returns a [result]; [try]/[except] is [try_except].
      - Every call of [time.time()] or [datetime.now()] is an explicit
        argument of the tracker methods, in the order the source makes them;
        the browser-driven code reads them from the world. *)

From Stdlib Require Import String Ascii List ZArith QArith Lia Lqa Bool.
From stdpp Require Import gmap strings list.

Open Scope string_scope.

(** ** Python strings *)

Module PyStr.

(** [c.isspace()] on the ASCII range: TAB..CR, FS..US and the blank. *)
Definition isspace (c : ascii) : bool :=
  let n := nat_of_ascii c in
  ((9 <=? n)%nat && (n <=? 13)%nat) || ((28 <=? n)%nat && (n <=? 32)%nat).

Definition lower_char (c : ascii) : ascii :=
  let n := nat_of_ascii c in
  if ((65 <=? n)%nat && (n <=? 90)%nat)%bool then ascii_of_nat (n + 32) else c.

(** [s.lower()] *)
Fixpoint lower (s : string) : string :=
  match s with
  | EmptyString => EmptyString
  | String c r => String (lower_char c) (lower r)
  end.

(** [bool(s)]: a string is truthy when it is not empty. *)
Definition truthy (s : string) : bool :=
  match s with EmptyString => false | String _ _ => true end.

(** [needle in hay] *)
Fixpoint contains (needle hay : string) : bool :=
  String.prefix needle hay ||
  match hay with
  | EmptyString => false
  | String _ r => contains needle r
  end.

(** [s.lstrip()] and [s.rstrip()], over the characters satisfying [p]. *)
Fixpoint lstrip_by (p : ascii -> bool) (s : string) : string :=
  match s with
  | EmptyString => EmptyString
  | String c r => if p c then lstrip_by p r else s
  end.

Fixpoint rstrip_by (p : ascii -> bool) (s : string) : string :=
  match s with
  | EmptyString => EmptyString
  | String c r =>
      match rstrip_by p r with
      | EmptyString => if p c then EmptyString else String c EmptyString
      | r' => String c r'
      end
  end.

(** [s.strip()] *)
Definition strip (s : string) : string := rstrip_by isspace (lstrip_by isspace s).

(** [s.rstrip('/')] *)
Definition rstrip_slash (s : string) : string :=
  rstrip_by (fun c => Ascii.eqb c "/"%char) s.

(** [s.split("/")[0]]: the text before the first slash (all of [s] when it
    has none); [split] never returns an empty list, so the index is safe. *)
Fixpoint split_slash_0 (s : string) : string :=
  match s with
  | EmptyString => EmptyString
  | String c r => if Ascii.eqb c "/"%char then EmptyString else String c (split_slash_0 r)
  end.

End PyStr.

(** ** Exceptions *)

(** The exceptions the modelled code can meet.  All of them derive from
    [Exception]; only [PlaywrightTimeoutError] is caught by name. *)
Inductive exn : Type :=
| PlaywrightTimeoutError
| PlaywrightError
| KeyError
| TypeError
| UnboundLocalError.

Inductive result (A : Type) : Type :=
| Ok (a : A)
| Raise (e : exn).
Arguments Ok {A} a.
Arguments Raise {A} e.

Definition is_ok {A} (r : result A) : bool :=
  match r with Ok _ => true | Raise _ => false end.

(** ** Results tracker (results_tracker.py) *)

(** Values stored in a tracked job dictionary: the strings of the job and
    the float time stamp the tracker adds. *)
Inductive pyval : Type :=
| VStr (s : string)
| VFloat (q : Q).

Module Tracker.

Record ResultsTracker : Type := {
  report_interval : Q;
  rejected_report_interval : Q;
  last_report_time : Q;
  last_rejected_report_time : Q;
  accepted_jobs : list (gmap string pyval);
  rejected_jobs : list (gmap string pyval);
  total_accepted : Z;
  total_rejected : Z;
  session_start_time : Q;
  check_cycles : Z;
  login_status : string;
  login_time : option Q;
  last_activity_time : option Q
}.

(** [ResultsTracker.__init__]; [t1], [t2], [t3] are its three clock
    readings, in source order. *)
Definition init (report_interval rejected_report_interval t1 t2 t3 : Q) : ResultsTracker :=
  {| report_interval := report_interval;
     rejected_report_interval := rejected_report_interval;
     last_report_time := t1;
     last_rejected_report_time := t2;
     accepted_jobs := [];
     rejected_jobs := [];
     total_accepted := 0;
     total_rejected := 0;
     session_start_time := t3;
     check_cycles := 0;
     login_status := "Not attempted";
     login_time := None;
     last_activity_time := None |}.

(** The defaults of [__init__]: 5 seconds and 12 hours. *)
Definition default_report_interval : Q := 5.
Definition default_rejected_report_interval : Q := 43200.

Definition add_accepted_job (self : ResultsTracker) (job : gmap string pyval)
    (now_iso : string) (now : Q) : ResultsTracker :=
  let job_with_timestamp :=
    <["accepted_timestamp" := VFloat now]> (<["accepted_at" := VStr now_iso]> job) in
  {| report_interval := report_interval self;
     rejected_report_interval := rejected_report_interval self;
     last_report_time := last_report_time self;
     last_rejected_report_time := last_rejected_report_time self;
     accepted_jobs := accepted_jobs self ++ [job_with_timestamp];
     rejected_jobs := rejected_jobs self;
     total_accepted := total_accepted self + 1;
     total_rejected := total_rejected self;
     session_start_time := session_start_time self;
     check_cycles := check_cycles self;
     login_status := login_status self;
     login_time := login_time self;
     last_activity_time := last_activity_time self |}.

Definition add_rejected_job (self : ResultsTracker) (job : gmap string pyval)
    (reason : string) (now_iso : string) (now : Q) : ResultsTracker :=
  let job_with_timestamp :=
    <["rejection_reason" := VStr reason]>
      (<["rejected_timestamp" := VFloat now]> (<["rejected_at" := VStr now_iso]> job)) in
  {| report_interval := report_interval self;
     rejected_report_interval := rejected_report_interval self;
     last_report_time := last_report_time self;
     last_rejected_report_time := last_rejected_report_time self;
     accepted_jobs := accepted_jobs self;
     rejected_jobs := rejected_jobs self ++ [job_with_timestamp];
     total_accepted := total_accepted self;
     total_rejected := total_rejected self + 1;
     session_start_time := session_start_time self;
     check_cycles := check_cycles self;
     login_status := login_status self;
     login_time := login_time self;
     last_activity_time := last_activity_time self |}.

Definition set_last_activity_time (self : ResultsTracker) (now : Q) : ResultsTracker :=
  {| report_interval := report_interval self;
     rejected_report_interval := rejected_report_interval self;
     last_report_time := last_report_time self;
     last_rejected_report_time := last_rejected_report_time self;
     accepted_jobs := accepted_jobs self;
     rejected_jobs := rejected_jobs self;
     total_accepted := total_accepted self;
     total_rejected := total_rejected self;
     session_start_time := session_start_time self;
     check_cycles := check_cycles self;
     login_status := login_status self;
     login_time := login_time self;
     last_activity_time := Some now |}.

Definition increment_check_cycle (self : ResultsTracker) (now : Q) : ResultsTracker :=
  {| report_interval := report_interval self;
     rejected_report_interval := rejected_report_interval self;
     last_report_time := last_report_time self;
     last_rejected_report_time := last_rejected_report_time self;
     accepted_jobs := accepted_jobs self;
     rejected_jobs := rejected_jobs self;
     total_accepted := total_accepted self;
     total_rejected := total_rejected self;
     session_start_time := session_start_time self;
     check_cycles := check_cycles self + 1;
     login_status := login_status self;
     login_time := login_time self;
     last_activity_time := Some now |}.

(** [set_login_status]: [t_login] is read only when [success] holds,
    [t_activity] always. *)
Definition set_login_status (self : ResultsTracker) (status : string) (success : bool)
    (t_login t_activity : Q) : ResultsTracker :=
  {| report_interval := report_interval self;
     rejected_report_interval := rejected_report_interval self;
     last_report_time := last_report_time self;
     last_rejected_report_time := last_rejected_report_time self;
     accepted_jobs := accepted_jobs self;
     rejected_jobs := rejected_jobs self;
     total_accepted := total_accepted self;
     total_rejected := total_rejected self;
     session_start_time := session_start_time self;
     check_cycles := check_cycles self;
     login_status := (if success then "✅" else "❌") ++ " " ++ status;
     login_time := if success then Some t_login else login_time self;
     last_activity_time := Some t_activity |}.

Definition update_activity (self : ResultsTracker) (now : Q) : ResultsTracker :=
  set_last_activity_time self now.

(** [(current_time - self.last_report_time) >= self.report_interval] *)
Definition should_report (self : ResultsTracker) (current_time : Q) : bool :=
  Qle_bool (report_interval self) (current_time - last_report_time self).

Definition should_report_rejected (self : ResultsTracker) (current_time : Q) : bool :=
  Qle_bool (rejected_report_interval self) (current_time - last_rejected_report_time self).

(** [job[key] > bound]: a missing key raises [KeyError], a string compared
    with a float raises [TypeError]. *)
Definition stamp_after (key : string) (bound : Q) (job : gmap string pyval) : result bool :=
  match job !! key with
  | None => Raise KeyError
  | Some (VFloat ts) => Ok (negb (Qle_bool ts bound))
  | Some (VStr _) => Raise TypeError
  end.

(** [[job for job in jobs if job[key] > bound]] *)
Fixpoint jobs_since (key : string) (bound : Q) (jobs : list (gmap string pyval))
    : result (list (gmap string pyval)) :=
  match jobs with
  | [] => Ok []
  | job :: rest =>
      match stamp_after key bound job with
      | Raise e => Raise e
      | Ok keep =>
          match jobs_since key bound rest with
          | Raise e => Raise e
          | Ok rest' => Ok (if keep then job :: rest' else rest')
          end
      end
  end.

(** The summary of [get_results_summary].  The rounded durations
    ([session_duration_*], [time_since_*]) and [report_time] are
    presentation only and are left out. *)
Record ResultsSummary : Type := {
  rs_check_cycles : Z;
  rs_login_status : string;
  rs_total_accepted : Z;
  rs_total_rejected : Z;
  accepted_since_last_report : Z;
  jobs_since_last_report : list (gmap string pyval)
}.

Definition get_results_summary (self : ResultsTracker) : result ResultsSummary :=
  match jobs_since "accepted_timestamp" (last_report_time self) (accepted_jobs self) with
  | Raise e => Raise e
  | Ok jobs_since_last_report =>
      Ok {| rs_check_cycles := check_cycles self;
            rs_login_status := login_status self;
            rs_total_accepted := total_accepted self;
            rs_total_rejected := total_rejected self;
            accepted_since_last_report := Z.of_nat (length jobs_since_last_report);
            jobs_since_last_report := jobs_since_last_report |}
  end.

Record RejectedSummary : Type := {
  rj_check_cycles : Z;
  rj_login_status : string;
  rj_total_rejected : Z;
  rejected_since_last_report : Z;
  jobs_since_last_rejected_report : list (gmap string pyval)
}.

Definition get_rejected_summary (self : ResultsTracker) : result RejectedSummary :=
  match jobs_since "rejected_timestamp" (last_rejected_report_time self) (rejected_jobs self) with
  | Raise e => Raise e
  | Ok jobs =>
      Ok {| rj_check_cycles := check_cycles self;
            rj_login_status := login_status self;
            rj_total_rejected := total_rejected self;
            rejected_since_last_report := Z.of_nat (length jobs);
            jobs_since_last_rejected_report := jobs |}
  end.

Record UnifiedSummary : Type := {
  us_check_cycles : Z;
  us_login_status : string;
  us_total_accepted : Z;
  us_total_rejected : Z;
  us_accepted_since_last_report : Z;
  us_rejected_since_last_report : Z;
  jobs_accepted_since_last : list (gmap string pyval);
  jobs_rejected_since_last : list (gmap string pyval)
}.

Definition get_unified_summary (self : ResultsTracker) : result UnifiedSummary :=
  match jobs_since "accepted_timestamp" (last_report_time self) (accepted_jobs self) with
  | Raise e => Raise e
  | Ok acc =>
      match jobs_since "rejected_timestamp" (last_report_time self) (rejected_jobs self) with
      | Raise e => Raise e
      | Ok rej =>
          Ok {| us_check_cycles := check_cycles self;
                us_login_status := login_status self;
                us_total_accepted := total_accepted self;
                us_total_rejected := total_rejected self;
                us_accepted_since_last_report := Z.of_nat (length acc);
                us_rejected_since_last_report := Z.of_nat (length rej);
                jobs_accepted_since_last := acc;
                jobs_rejected_since_last := rej |}
      end
  end.

Definition set_last_report_time (self : ResultsTracker) (now : Q) : ResultsTracker :=
  {| report_interval := report_interval self;
     rejected_report_interval := rejected_report_interval self;
     last_report_time := now;
     last_rejected_report_time := last_rejected_report_time self;
     accepted_jobs := accepted_jobs self;
     rejected_jobs := rejected_jobs self;
     total_accepted := total_accepted self;
     total_rejected := total_rejected self;
     session_start_time := session_start_time self;
     check_cycles := check_cycles self;
     login_status := login_status self;
     login_time := login_time self;
     last_activity_time := last_activity_time self |}.

Definition set_last_rejected_report_time (self : ResultsTracker) (now : Q) : ResultsTracker :=
  {| report_interval := report_interval self;
     rejected_report_interval := rejected_report_interval self;
     last_report_time := last_report_time self;
     last_rejected_report_time := now;
     accepted_jobs := accepted_jobs self;
     rejected_jobs := rejected_jobs self;
     total_accepted := total_accepted self;
     total_rejected := total_rejected self;
     session_start_time := session_start_time self;
     check_cycles := check_cycles self;
     login_status := login_status self;
     login_time := login_time self;
     last_activity_time := last_activity_time self |}.

(** [report_results]: [t_check] is the reading of [should_report],
    [t_update] the one stored in [last_report_time]; the reading of
    [get_unified_summary] only feeds the rounded durations.  The printing
    that follows reads the summary and changes nothing. *)
Definition report_results (self : ResultsTracker) (t_check t_update : Q)
    : result ResultsTracker :=
  if negb (should_report self t_check) then Ok self
  else
    match get_unified_summary self with
    | Raise e => Raise e
    | Ok _ => Ok (set_last_report_time self t_update)
    end.

Definition report_rejected_jobs (self : ResultsTracker) (t_check t_update : Q)
    : result ResultsTracker :=
  if negb (should_report_rejected self t_check) then Ok self
  else
    match get_rejected_summary self with
    | Raise e => Raise e
    | Ok _ => Ok (set_last_rejected_report_time self t_update)
    end.

(** The methods that assign to the tracker, as calls with their clock
    readings. *)
Inductive call : Type :=
| AddAcceptedJob (job : gmap string pyval) (now_iso : string) (now : Q)
| AddRejectedJob (job : gmap string pyval) (reason : string) (now_iso : string) (now : Q)
| IncrementCheckCycle (now : Q)
| SetLoginStatus (status : string) (success : bool) (t_login t_activity : Q)
| UpdateActivity (now : Q)
| ReportResults (t_check t_update : Q)
| ReportRejectedJobs (t_check t_update : Q).

Definition step (self : ResultsTracker) (c : call) : result ResultsTracker :=
  match c with
  | AddAcceptedJob job now_iso now => Ok (add_accepted_job self job now_iso now)
  | AddRejectedJob job reason now_iso now => Ok (add_rejected_job self job reason now_iso now)
  | IncrementCheckCycle now => Ok (increment_check_cycle self now)
  | SetLoginStatus status success t_login t_activity =>
      Ok (set_login_status self status success t_login t_activity)
  | UpdateActivity now => Ok (update_activity self now)
  | ReportResults t_check t_update => report_results self t_check t_update
  | ReportRejectedJobs t_check t_update => report_rejected_jobs self t_check t_update
  end.

(** A sequence of calls; the first one that raises stops the run. *)
Fixpoint run (self : ResultsTracker) (cs : list call) : result ResultsTracker :=
  match cs with
  | [] => Ok self
  | c :: rest =>
      match step self c with
      | Raise e => Raise e
      | Ok self' => run self' rest
      end
  end.

(** Calls restricted to the two that record jobs. *)
Definition is_add (c : call) : bool :=
  match c with
  | AddAcceptedJob _ _ _ | AddRejectedJob _ _ _ _ => true
  | _ => false
  end.

(** Every stored job carries its float time stamp: what the two [add]
    methods establish and the summaries rely on. *)
Definition has_stamp (key : string) (job : gmap string pyval) : Prop :=
  exists ts, job !! key = Some (VFloat ts).

Definition stamped (self : ResultsTracker) : Prop :=
  Forall (has_stamp "accepted_timestamp") (accepted_jobs self) /\
  Forall (has_stamp "rejected_timestamp") (rejected_jobs self).

End Tracker.

(** ** The browser page and the clock *)

(** What the code asks of Playwright, BeautifulSoup and the clock.  [W] is
    the state of the outside world (the page, the site behind it, the
    clock), [Elem] the type of element handles.  Queries observe the world;
    navigation, clicks, typing, waits and clock readings may change it. *)
Class Browser (W Elem : Type) : Type := {
  (** [page.goto(url, wait_until=...)] *)
  page_goto : string -> string -> W -> result unit * W;
  (** [page.content()] *)
  page_content : W -> result string;
  (** [page.wait_for_selector(selector, timeout=10000)] *)
  page_wait_for_selector : string -> W -> result unit * W;
  (** [page.wait_for_load_state("networkidle")] *)
  page_wait_for_load_state : W -> result unit * W;
  page_query_selector : string -> W -> result (option Elem);
  page_query_selector_all : string -> W -> result (list Elem);
  page_is_visible : string -> W -> result bool;
  page_click : string -> W -> result unit * W;
  page_fill : string -> string -> W -> result unit * W;
  elem_query_selector : Elem -> string -> W -> result (option Elem);
  elem_query_selector_all : Elem -> string -> W -> result (list Elem);
  elem_inner_text : Elem -> W -> result string;
  (** [link.get_attribute("href")] on a handle found through a selector
      that demands the attribute, hence a string. *)
  elem_get_attribute : Elem -> string -> W -> result string;
  elem_click : Elem -> W -> result unit * W;
  (** [time.sleep(random.uniform(min_s, max_s))] *)
  _human_pause : W -> W;
  (** [time.time()] and [datetime.now().isoformat()] *)
  time_time : W -> Q * W;
  datetime_now_isoformat : W -> string * W;
  (** BeautifulSoup's reading of a detail page: the text next to the
      "Interpreter details" label, or the empty string. *)
  _extract_interpreter_details_text : string -> result string
}.

(** Configuration (config.py): [BOT_CONFIG["accept_preconditions"]] and the
    module constants the cycle reads. *)
Record Config : Type := {
  job_type : string;
  exclude_types : list string;
  required_fields : list string;
  MAX_ACCEPT_PER_RUN : Z;
  ATOZ_BASE_URL : string;
  ATOZ_USERNAME : string;
  ATOZ_PASSWORD : string
}.

(** The defaults of config.py (credentials elided). *)
Definition default_config : Config :=
  {| job_type := "Telephone interpreting";
     exclude_types := ["Face-to-Face"; "Face to Face"; "In-Person"; "Onsite"];
     required_fields :=
       ["ref"; "submitted"; "appt_date"; "appt_time"; "duration"; "language"; "status"];
     MAX_ACCEPT_PER_RUN := 5;
     ATOZ_BASE_URL := "https://portal.atozinterpreting.com";
     ATOZ_USERNAME := "user";
     ATOZ_PASSWORD := "secret" |}.

(** Ghost record of the clicks that went through: the accept control of a
    job (with the numeric reference of its form) and the reject control of
    a detail page.  A click that raises is not recorded. *)
Inductive event : Type :=
| AcceptClicked (numeric_id : string)
| RejectClicked.

Definition is_accept (e : event) : bool :=
  match e with AcceptClicked _ => true | RejectClicked => false end.

Section Bot.

Context {W Elem : Type} `{Browser W Elem}.

(** Program state: the world, the module global [_tracker] of
    results_tracker.py, and the ghost trace. *)
Record State : Type := {
  world : W;
  tracker : option Tracker.ResultsTracker;
  trace : list event
}.

Definition set_world (s : State) (w : W) : State :=
  {| world := w; tracker := tracker s; trace := trace s |}.
Definition set_tracker (s : State) (t : Tracker.ResultsTracker) : State :=
  {| world := world s; tracker := Some t; trace := trace s |}.
Definition add_event (s : State) (e : event) : State :=
  {| world := world s; tracker := tracker s; trace := trace s ++ [e] |}.

(** State and exceptions. *)
Definition M (A : Type) : Type := State -> result A * State.

Definition ret {A} (a : A) : M A := fun s => (Ok a, s).
Definition raise {A} (e : exn) : M A := fun s => (Raise e, s).
Definition bind {A B} (m : M A) (k : A -> M B) : M B :=
  fun s => match m s with
           | (Ok a, s') => k a s'
           | (Raise e, s') => (Raise e, s')
           end.

(** [try: body except Exception: handler] *)
Definition try_except {A} (body : M A) (handler : M A) : M A :=
  fun s => match body s with
           | (Ok a, s') => (Ok a, s')
           | (Raise _, s') => handler s'
           end.

(** [try: body except PlaywrightTimeoutError: handler] *)
Definition try_except_timeout {A} (body : M A) (handler : M A) : M A :=
  fun s => match body s with
           | (Raise PlaywrightTimeoutError, s') => handler s'
           | other => other
           end.

(** A world action, a world query, a clock reading, a pure step. *)
Definition act {A} (f : W -> result A * W) : M A :=
  fun s => let (r, w) := f (world s) in (r, set_world s w).
Definition obs {A} (f : W -> result A) : M A :=
  fun s => (f (world s), s).
Definition tick {A} (f : W -> A * W) : M A :=
  fun s => let (a, w) := f (world s) in (Ok a, set_world s w).
Definition lift {A} (r : result A) : M A := fun s => (r, s).
Definition ghost (e : event) : M unit := fun s => (Ok tt, add_event s e).

End Bot.

Arguments State W : clear implicits.
Arguments M W A : clear implicits.

Declare Scope bot_scope.
Delimit Scope bot_scope with bot.
Notation "x <- m ;; k" := (bind m (fun x => k))
  (at level 100, m at next level, right associativity) : bot_scope.
Notation "m ;; k" := (bind m (fun _ => k))
  (at level 100, right associativity) : bot_scope.
Open Scope bot_scope.

(** [d[key]] on a job dictionary. *)
Definition getitem (job : gmap string string) (key : string) : result string :=
  match job !! key with Some v => Ok v | None => Raise KeyError end.

(** ** data_processor.py *)

(** [all(job.get(field) and str(job[field]).strip() for field in required_fields)] *)
Definition is_all_params_set (job : gmap string string) (required_fields : list string) : bool :=
  forallb (fun field =>
             match job !! field with
             | None => false
             | Some v => PyStr.truthy v && PyStr.truthy (PyStr.strip v)
             end) required_fields.

(** [any(ex.lower() in details_text for ex in exclude_types)] *)
Definition any_excluded (exclude_types : list string) (details_text : string) : bool :=
  existsb (fun ex => PyStr.contains (PyStr.lower ex) details_text) exclude_types.

Section DataProcessor.

Context {W Elem : Type} `{Browser W Elem}.

(** [cells[i].inner_text().strip() if cells[i] else <empty>]; an element handle
    is always truthy. *)
Definition cell_text (cell : Elem) : M W string :=
  text <- obs (elem_inner_text cell) ;;
  ret (PyStr.strip text).

(** The body of the [for row in rows] loop of [extract_jobs]: [None] for
    a row the loop skips, the job dictionary otherwise. *)
Definition extract_row (row : Elem) : M W (option (gmap string string)) :=
  colspan_cells <- obs (elem_query_selector_all row "td[colspan]") ;;
  match colspan_cells with
  | _ :: _ => ret None
  | [] =>
      cells <- obs (elem_query_selector_all row "td.table__data") ;;
      if (length cells <? 8)%nat then ret None
      else
        match cells with
        | c0 :: c1 :: c2 :: c3 :: c4 :: c5 :: c6 :: action_cell :: _ =>
            ref <- cell_text c0 ;;
            submitted <- cell_text c1 ;;
            appt_date <- cell_text c2 ;;
            appt_time <- cell_text c3 ;;
            duration <- cell_text c4 ;;
            language <- cell_text c5 ;;
            status <- cell_text c6 ;;
            view_link <- obs (elem_query_selector action_cell "a[href*='interpreter-jobs']") ;;
            view_url <- match view_link with
                        | Some link => obs (elem_get_attribute link "href")
                        | None => ret EmptyString
                        end ;;
            ret (Some (<["ref" := ref]> (<["submitted" := submitted]>
                      (<["appt_date" := appt_date]> (<["appt_time" := appt_time]>
                      (<["duration" := duration]> (<["language" := language]>
                      (<["status" := status]> (<["view_url" := view_url]> ∅)))))))))
        | _ => ret None
        end
  end.

Fixpoint extract_rows (rows : list Elem) (jobs : list (gmap string string))
    : M W (list (gmap string string)) :=
  match rows with
  | [] => ret jobs
  | row :: rest =>
      r <- extract_row row ;;
      extract_rows rest (match r with Some job => jobs ++ [job] | None => jobs end)
  end.

(** [extract_jobs(page)].  The [bool] of the first step tells whether the
    wait came back in time. *)
Definition extract_jobs : M W (list (gmap string string)) :=
  ready <- try_except_timeout
             (act (page_wait_for_selector "section.content__table table tbody") ;; ret true)
             (ret false) ;;
  if negb ready then ret []
  else
    rows <- obs (page_query_selector_all "tbody tr.table__row") ;;
    extract_rows rows [].

(** The body of the [try] of [is_telephone_job]. *)
Definition is_telephone_job_body (view_url job_type : string) (exclude_types : list string)
    : M W bool :=
  act (page_goto view_url "networkidle") ;;
  html <- obs page_content ;;
  details <- lift (_extract_interpreter_details_text html) ;;
  let details_text := PyStr.lower details in
  if negb (PyStr.truthy details_text) then ret false
  else if any_excluded exclude_types details_text then ret false
  else ret (PyStr.contains (PyStr.lower job_type) details_text).

Definition is_telephone_job (view_url job_type : string) (exclude_types : list string)
    : M W bool :=
  try_except (is_telephone_job_body view_url job_type exclude_types) (ret false).

(** [a or b] on two optional handles: [b] is evaluated only when [a] is
    [None]. *)
Definition or_else (a b : M W (option Elem)) : M W (option Elem) :=
  x <- a ;;
  match x with Some e => ret (Some e) | None => b end.

Definition accept_from_board_body (ref : string) : M W bool :=
  let numeric_id := PyStr.strip (PyStr.split_slash_0 ref) in
  form <- obs (page_query_selector
                 ("form[action*='/interpreter-jobs/" ++ numeric_id ++ "/matched']")) ;;
  match form with
  | None => ret false
  | Some form =>
      btn <- or_else (obs (elem_query_selector form "button.btn.btn--primary"))
                     (obs (elem_query_selector form "button[type='submit']")) ;;
      match btn with
      | None => ret false
      | Some btn =>
          act (elem_click btn) ;;
          ghost (AcceptClicked numeric_id) ;;
          ret true
      end
  end.

Definition accept_from_board (ref : string) : M W bool :=
  try_except (accept_from_board_body ref) (ret false).

Definition get_interpreter_details_text (view_url : string) : M W string :=
  try_except
    (act (page_goto view_url "networkidle") ;;
     html <- obs page_content ;;
     lift (_extract_interpreter_details_text html))
    (ret EmptyString).

Definition reject_on_detail_body : M W bool :=
  form <- obs (page_query_selector "form[action*='matched/reject']") ;;
  match form with
  | None =>
      btn <- obs (page_query_selector "input.btn.btn--reject, .btn.btn--reject") ;;
      match btn with
      | Some btn =>
          act (elem_click btn) ;;
          ghost RejectClicked ;;
          ret true
      | None => ret false
      end
  | Some form =>
      inner <- obs (elem_query_selector form "button, input[type='submit']") ;;
      let btn := match inner with Some b => b | None => form end in
      act (elem_click btn) ;;
      ghost RejectClicked ;;
      ret true
  end.

Definition reject_on_detail : M W bool :=
  try_except reject_on_detail_body (ret false).

End DataProcessor.

(** ** results_tracker.py: the global instance *)

Section GlobalTracker.

Context {W Elem : Type} `{Browser W Elem}.

(** [get_tracker()]: the global instance, created with the default
    intervals on first use. *)
Definition get_tracker : M W Tracker.ResultsTracker :=
  fun s =>
    match tracker s with
    | Some t => (Ok t, s)
    | None =>
        let (t1, w1) := time_time (world s) in
        let (t2, w2) := time_time w1 in
        let (t3, w3) := time_time w2 in
        let t := Tracker.init Tracker.default_report_interval
                   Tracker.default_rejected_report_interval t1 t2 t3 in
        (Ok t, set_tracker (set_world s w3) t)
    end.

(** Storing back the instance a method has assigned to. *)
Definition put_tracker (t : Tracker.ResultsTracker) : M W unit :=
  fun s => (Ok tt, set_tracker s t).

(** Module-level [add_accepted_job(job)]. *)
Definition add_accepted_job (job : gmap string string) : M W unit :=
  t <- get_tracker ;;
  now_iso <- tick datetime_now_isoformat ;;
  now <- tick time_time ;;
  put_tracker (Tracker.add_accepted_job t (VStr <$> job) now_iso now).

(** Module-level [add_rejected_job(job, reason)]. *)
Definition add_rejected_job (job : gmap string string) (reason : string) : M W unit :=
  t <- get_tracker ;;
  now_iso <- tick datetime_now_isoformat ;;
  now <- tick time_time ;;
  put_tracker (Tracker.add_rejected_job t (VStr <$> job) reason now_iso now).

End GlobalTracker.

(** ** filter_handler.py, login_handler.py *)

Section Navigation.

Context {W Elem : Type} `{Browser W Elem}.

Definition navigate_to_job_board (base_url : string) : M W unit :=
  act (page_goto (PyStr.rstrip_slash base_url ++ "/interpreter-jobs") "networkidle").

Definition human_pause : M W unit :=
  fun s => (Ok tt, set_world s (_human_pause (world s))).

Definition perform_login (base_url username password : string) : M W unit :=
  let login_url := PyStr.rstrip_slash base_url ++ "/login" in
  act (page_goto login_url "load") ;;
  human_pause ;;
  act (page_wait_for_selector "input[name='email']") ;;
  act (page_click "input[name='email']") ;;
  human_pause ;;
  act (page_fill "input[name='email']" username) ;;
  human_pause ;;
  act (page_click "input[name='password']") ;;
  human_pause ;;
  act (page_fill "input[name='password']" password) ;;
  human_pause ;;
  act (page_click "button[type='submit']") ;;
  act page_wait_for_load_state ;;
  try_except_timeout (act (page_wait_for_selector ".header__name")) (ret tt) ;;
  human_pause.

End Navigation.

(** ** persistent_bot.py and atoz_bot.py: one cycle *)

Section Cycle.

Context {W Elem : Type} `{Browser W Elem}.
Variable cfg : Config.

(** The two dialogs that may follow an accept click; each is handled
    inside its own [try ... except Exception: pass]. *)
Definition handle_24_hour_modal : M W unit :=
  try_except
    (visible <- obs (page_is_visible "#24HourModal") ;;
     if visible then act (page_click "#24HourModal #continueButton") else ret tt)
    (ret tt).

Definition handle_cancel_modal : M W unit :=
  try_except
    (visible <- obs (page_is_visible "#cancelModal") ;;
     if visible then
       act (page_fill "#cancelModal textarea[name='message']" "Accepting job via automation") ;;
       act (page_click "#cancelModal .modal-footer .btn.btn--primary")
     else ret tt)
    (ret tt).

(** [job.get("status", <empty>)] and [job.get("view_url")] *)
Definition job_get_default (job : gmap string string) (key : string) : string :=
  default EmptyString (job !! key).

(** The checks both cycles make before looking at the detail page:
    [true] when the job goes on, [false] for [continue]. *)
Definition is_candidate (job : gmap string string) : bool :=
  if negb (PyStr.contains "matched" (PyStr.lower (job_get_default job "status"))) then false
  else if (match required_fields cfg with [] => false | _ :: _ => true end)
          && negb (is_all_params_set job (required_fields cfg)) then false
  else PyStr.truthy (job_get_default job "view_url").

Definition rejection_reason : string := "Face-to-face job (not telephone translation)".

(** Body of the [for job in jobs] loop of [persistent_bot_cycle], after
    the cap check; the result is the new value of [accepted]. *)
Definition persistent_bot_job (job : gmap string string) (accepted : Z) : M W Z :=
  if negb (is_candidate job) then ret accepted
  else
    view_url <- lift (getitem job "view_url") ;;
    telephone <- is_telephone_job view_url (job_type cfg) (exclude_types cfg) ;;
    if negb telephone then
      view_url <- lift (getitem job "view_url") ;;
      details <- get_interpreter_details_text view_url ;;
      let details_text := PyStr.lower details in
      (if existsb (fun ex => PyStr.contains ex details_text)
            (map PyStr.lower (exclude_types cfg))
       then
         rejected <- reject_on_detail ;;
         (if rejected then
            add_rejected_job job rejection_reason ;;
            (* the log line reads job['ref'] *)
            lift (getitem job "ref") ;; ret tt
          else ret tt) ;;
         navigate_to_job_board (ATOZ_BASE_URL cfg)
       else ret tt) ;;
      ret accepted
    else
      navigate_to_job_board (ATOZ_BASE_URL cfg) ;;
      ref <- lift (getitem job "ref") ;;
      ok <- accept_from_board ref ;;
      if negb ok then ret accepted
      else
        handle_24_hour_modal ;;
        handle_cancel_modal ;;
        act page_wait_for_load_state ;;
        let accepted := (accepted + 1)%Z in
        add_accepted_job job ;;
        ret accepted.

(** The [for job in jobs] loop.  It returns the value of [accepted] when
    the loop ends, and the exception that ended it, if any.  Nothing can
    raise after [accepted += 1] (the tracker call does not raise and the
    log line reads [job['ref']], already read), so an iteration that
    raises leaves [accepted] as it was when the iteration began. *)
Fixpoint persistent_bot_loop (jobs : list (gmap string string)) (accepted : Z)
    (s : State W) : Z * option exn * State W :=
  match jobs with
  | [] => (accepted, None, s)
  | job :: rest =>
      if (MAX_ACCEPT_PER_RUN cfg <=? accepted)%Z then (accepted, None, s)
      else
        match persistent_bot_job job accepted s with
        | (Ok accepted', s') => persistent_bot_loop rest accepted' s'
        | (Raise e, s') => (accepted, Some e, s')
        end
  end.

(** [persistent_bot_cycle(page, jobs_url)].  [accepted] is first assigned
    after [extract_jobs] inside the [try]: when the navigation or the
    extraction raises, the handler logs and [return accepted] reads an
    unbound local. *)
Definition persistent_bot_cycle (jobs_url : string) : M W Z :=
  fun s =>
    match (act (page_goto jobs_url "networkidle") ;; extract_jobs) s with
    | (Raise _, s1) => (Raise UnboundLocalError, s1)
    | (Ok jobs, s1) =>
        let '(accepted, _, s2) := persistent_bot_loop jobs 0 s1 in
        (Ok accepted, s2)
    end.

(** [try_login(page)] of atoz_bot.py *)
Definition try_login : M W unit :=
  if negb (PyStr.truthy (ATOZ_USERNAME cfg) && PyStr.truthy (ATOZ_PASSWORD cfg)) then ret tt
  else
    try_except
      (perform_login (ATOZ_BASE_URL cfg) (ATOZ_USERNAME cfg) (ATOZ_PASSWORD cfg))
      (ret tt).

(** Body of the [for job in jobs] loop of [run_once], after the cap
    check: the same steps as [persistent_bot_job] without the tracker. *)
Definition run_once_job (job : gmap string string) (accepted : Z) : M W Z :=
  if negb (is_candidate job) then ret accepted
  else
    view_url <- lift (getitem job "view_url") ;;
    telephone <- is_telephone_job view_url (job_type cfg) (exclude_types cfg) ;;
    if negb telephone then
      view_url <- lift (getitem job "view_url") ;;
      details <- get_interpreter_details_text view_url ;;
      let details_text := PyStr.lower details in
      (if existsb (fun ex => PyStr.contains ex details_text)
            (map PyStr.lower (exclude_types cfg))
       then
         rejected <- reject_on_detail ;;
         (if rejected then
            (* the log line reads job['ref'] *)
            lift (getitem job "ref") ;; ret tt
          else ret tt) ;;
         navigate_to_job_board (ATOZ_BASE_URL cfg)
       else ret tt) ;;
      ret accepted
    else
      navigate_to_job_board (ATOZ_BASE_URL cfg) ;;
      ref <- lift (getitem job "ref") ;;
      ok <- accept_from_board ref ;;
      if negb ok then ret accepted
      else
        handle_24_hour_modal ;;
        handle_cancel_modal ;;
        act page_wait_for_load_state ;;
        ret (accepted + 1)%Z.

Fixpoint run_once_loop (jobs : list (gmap string string)) (accepted : Z) : M W Z :=
  match jobs with
  | [] => ret accepted
  | job :: rest =>
      if (MAX_ACCEPT_PER_RUN cfg <=? accepted)%Z then ret accepted
      else
        accepted' <- run_once_job job accepted ;;
        run_once_loop rest accepted'
  end.

(** [run_once()] on an open page.  [jobs_url] is
    [urljoin(ATOZ_BASE_URL, ATOZ_INTERPRETER_JOBS_PATH)]; starting and
    closing the browser is left to the caller.  Nothing here catches: an
    exception ends the run. *)
Definition run_once (jobs_url : string) : M W Z :=
  act (page_goto jobs_url "networkidle") ;;
  try_login ;;
  navigate_to_job_board (ATOZ_BASE_URL cfg) ;;
  jobs <- extract_jobs ;;
  run_once_loop jobs 0.

End Cycle.

(** ** A scripted site for worked examples *)

Module Scripted.

(** One table row: the number of spanning cells, the texts of its data
    cells and the link of its action cell. *)
Record RowSpec : Type := {
  colspan : nat;
  texts : list string;
  href : option string
}.

(** The site: the rows of the list view, whether the list container
    shows up in time, the details text every detail page carries,
    whether the board has accept forms and the detail page a reject form,
    whether clicks succeed, and the clock. *)
Record Site : Type := {
  rows : list RowSpec;
  container : result unit;
  details : string;
  accept_form : bool;
  reject_form : bool;
  clicks : result unit;
  clock : Q
}.

Inductive Handle : Type :=
| HRow (i : nat)
| HCell (i j : nat)
| HLink (i : nat)
| HForm
| HButton.

Definition advance (w : Site) : Site :=
  {| rows := rows w; container := container w; details := details w;
     accept_form := accept_form w; reject_form := reject_form w;
     clicks := clicks w; clock := clock w + 1 |}.

Definition row_cells (w : Site) (e : Handle) (selector : string) : result (list Handle) :=
  match e with
  | HRow i =>
      match rows w !! i with
      | None => Raise PlaywrightError
      | Some r =>
          if String.eqb selector "td[colspan]" then Ok (map (HCell i) (seq 100 (colspan r)))
          else if String.eqb selector "td.table__data"
               then Ok (map (HCell i) (seq 0 (length (texts r))))
               else Ok []
      end
  | _ => Ok []
  end.

Definition sub_element (w : Site) (e : Handle) (selector : string) : result (option Handle) :=
  match e with
  | HCell i _ => Ok (match rows w !! i with
                     | Some r => match href r with Some _ => Some (HLink i) | None => None end
                     | None => None
                     end)
  | HForm => Ok (Some HButton)
  | _ => Ok None
  end.

Definition cell_inner_text (w : Site) (e : Handle) : result string :=
  match e with
  | HCell i j => match rows w !! i with
                 | Some r => Ok (nth j (texts r) EmptyString)
                 | None => Raise PlaywrightError
                 end
  | _ => Ok EmptyString
  end.

Definition link_attribute (w : Site) (e : Handle) (name : string) : result string :=
  match e with
  | HLink i => match rows w !! i with
               | Some r => Ok (default EmptyString (href r))
               | None => Raise PlaywrightError
               end
  | _ => Raise PlaywrightError
  end.

Definition find_form (w : Site) (selector : string) : result (option Handle) :=
  if String.prefix "form[action*='/interpreter-jobs/" selector
  then Ok (if accept_form w then Some HForm else None)
  else if String.eqb selector "form[action*='matched/reject']"
       then Ok (if reject_form w then Some HForm else None)
       else Ok None.

#[global] Instance browser : Browser Site Handle := {|
  page_goto := fun _ _ w => (Ok tt, w);
  page_content := fun w => Ok (details w);
  page_wait_for_selector := fun _ w => (container w, w);
  page_wait_for_load_state := fun w => (Ok tt, w);
  page_query_selector := fun selector w => find_form w selector;
  page_query_selector_all := fun _ w => Ok (map HRow (seq 0 (length (rows w))));
  page_is_visible := fun _ _ => Ok false;
  page_click := fun _ w => (Ok tt, w);
  page_fill := fun _ _ w => (Ok tt, w);
  elem_query_selector := fun e selector w => sub_element w e selector;
  elem_query_selector_all := fun e selector w => row_cells w e selector;
  elem_inner_text := fun e w => cell_inner_text w e;
  elem_get_attribute := fun e name w => link_attribute w e name;
  elem_click := fun _ w => (clicks w, w);
  _human_pause := fun w => w;
  time_time := fun w => (clock w, advance w);
  datetime_now_isoformat := fun w => ("2024-01-01T00:00:00", w);
  _extract_interpreter_details_text := fun html => Ok html
|}.

(** A matched job with every field filled in. *)
Definition matched_row (ref : string) : RowSpec :=
  {| colspan := 0;
     texts := [ref; "01/01/2024"; "02/01/2024"; "10:00"; "30 min"; "Spanish"; "Matched"; "View"];
     href := Some "/interpreter-jobs/101" |}.

Definition site (rs : list RowSpec) (detail_text : string) : Site :=
  {| rows := rs; container := Ok tt; details := detail_text;
     accept_form := true; reject_form := true; clicks := Ok tt; clock := 0 |}.

Definition start (w : Site) : State Site :=
  {| world := w; tracker := None; trace := [] |}.

(** The rejection reasons stored in a tracker. *)
Definition reasons (s : State Site) : list (option pyval) :=
  match tracker s with
  | Some t => map (fun job => job !! "rejection_reason") (Tracker.rejected_jobs t)
  | None => []
  end.

(** A row with eight data cells and no spanning cell whose first cell
    holds blanks only. *)
Definition blank_ref_row : RowSpec :=
  {| colspan := 0;
     texts := ["   "; "01/01/2024"; "02/01/2024"; "10:00"; "30 min"; "Spanish"; "Matched"; "View"];
     href := Some "/interpreter-jobs/101" |}.

(** A row of three cells and the empty-state row. *)
Definition short_row : RowSpec :=
  {| colspan := 0; texts := ["102/B"; "01/01/2024"; "Matched"]; href := None |}.
Definition empty_state_row : RowSpec :=
  {| colspan := 1; texts := []; href := None |}.

(** The site whose list container never shows up. *)
Definition unready (w : Site) : Site :=
  {| rows := rows w; container := Raise PlaywrightTimeoutError; details := details w;
     accept_form := accept_form w; reject_form := reject_form w;
     clicks := clicks w; clock := clock w |}.

(** The site without accept or reject controls, and the one whose clicks
    raise. *)
Definition bare (w : Site) : Site :=
  {| rows := rows w; container := container w; details := details w;
     accept_form := false; reject_form := false;
     clicks := clicks w; clock := clock w |}.
Definition stuck (w : Site) : Site :=
  {| rows := rows w; container := container w; details := details w;
     accept_form := accept_form w; reject_form := reject_form w;
     clicks := Raise PlaywrightError; clock := clock w |}.

(** The jobs a run of [extract_jobs] returned, the empty list when it
    raised. *)
Definition jobs_of (r : result (list (gmap string string))) : list (gmap string string) :=
  match r with Ok jobs => jobs | Raise _ => [] end.

(** The boards of the worked examples. *)
Definition telephone_board : State Site :=
  start (site [matched_row "101/A"] "Telephone interpreting, 30 min").
Definition busy_board : State Site :=
  start (site (map matched_row ["1/A"; "2/A"; "3/A"; "4/A"; "5/A"; "6/A"; "7/A"])
           "Telephone interpreting, 30 min").
Definition both_board : State Site :=
  start (site [matched_row "101/A"] "Telephone interpreting or Face-to-Face, to be agreed").
Definition onsite_board : State Site :=
  start (site [matched_row "101/A"] "Onsite visit required").
Definition face_to_face_board : State Site :=
  start (site [matched_row "101/A"] "Face-to-Face interpreting required").
Definition blank_board : State Site :=
  start (site [blank_ref_row] EmptyString).
Definition mixed_board : State Site :=
  start (site [matched_row "101/A"; short_row; empty_state_row] EmptyString).
Definition unready_board : State Site :=
  start (unready (site [matched_row "101/A"] EmptyString)).
Definition bare_board : State Site :=
  start (bare (site [matched_row "101/A"] EmptyString)).
Definition stuck_board : State Site :=
  start (stuck (site [matched_row "101/A"] EmptyString)).

(** The job [extract_jobs] makes of [matched_row "101/A"]. *)
Definition matched_job : gmap string string :=
  <["ref" := "101/A"]> (<["submitted" := "01/01/2024"]>
  (<["appt_date" := "02/01/2024"]> (<["appt_time" := "10:00"]>
  (<["duration" := "30 min"]> (<["language" := "Spanish"]>
  (<["status" := "Matched"]> (<["view_url" := "/interpreter-jobs/101"]> ∅))))))).

End Scripted.

(** ** A second scripted page: a listing with row texts and accept buttons *)

Module Listing.

(** The page: the cell texts of each row, whether rows carry an accept
    button, whether the "no jobs" banner shows, and what the wait for the
    table and the wait for the load state answer. *)
Record Page : Type := {
  lines : list (list string);
  accept_buttons : bool;
  banner : bool;
  table : result unit;
  load_state : result unit
}.

(** The text of a row: its cell texts, blank separated. *)
Definition row_text (texts : list string) : string := String.concat " " texts.

Definition sub_element (w : Page) (e : Scripted.Handle) (selector : string)
    : result (option Scripted.Handle) :=
  match e with
  | Scripted.HRow i =>
      match lines w !! i with
      | None => Raise PlaywrightError
      | Some texts =>
          if String.eqb selector "td.table__data.status"
          then Ok (if (7 <=? length texts)%nat then Some (Scripted.HCell i 6) else None)
          else if String.prefix ".btn.btn--primary.table__btn" selector
               then Ok (if accept_buttons w then Some Scripted.HButton else None)
               else Ok None
      end
  | _ => Ok None
  end.

Definition row_cells (w : Page) (e : Scripted.Handle) (selector : string)
    : result (list Scripted.Handle) :=
  match e with
  | Scripted.HRow i =>
      match lines w !! i with
      | None => Raise PlaywrightError
      | Some texts =>
          if String.eqb selector "td.table__data"
          then Ok (map (Scripted.HCell i) (seq 0 (length texts)))
          else Ok []
      end
  | _ => Ok []
  end.

Definition inner_text (w : Page) (e : Scripted.Handle) : result string :=
  match e with
  | Scripted.HRow i =>
      match lines w !! i with
      | Some texts => Ok (row_text texts)
      | None => Raise PlaywrightError
      end
  | Scripted.HCell i j =>
      match lines w !! i with
      | Some texts => Ok (nth j texts EmptyString)
      | None => Raise PlaywrightError
      end
  | _ => Ok EmptyString
  end.

Definition find (w : Page) (selector : string) : result (option Scripted.Handle) :=
  if String.eqb selector "text=There are no interpreter jobs"
  then Ok (if banner w then Some Scripted.HForm else None)
  else Ok None.

#[global] Instance browser : Browser Page Scripted.Handle := {|
  page_goto := fun _ _ w => (Ok tt, w);
  page_content := fun _ => Ok EmptyString;
  page_wait_for_selector := fun _ w => (table w, w);
  page_wait_for_load_state := fun w => (load_state w, w);
  page_query_selector := fun selector w => find w selector;
  page_query_selector_all := fun _ w => Ok (map Scripted.HRow (seq 0 (length (lines w))));
  page_is_visible := fun _ _ => Ok false;
  page_click := fun _ w => (Ok tt, w);
  page_fill := fun _ _ w => (Ok tt, w);
  elem_query_selector := fun e selector w => sub_element w e selector;
  elem_query_selector_all := fun e selector w => row_cells w e selector;
  elem_inner_text := fun e w => inner_text w e;
  elem_get_attribute := fun _ _ _ => Raise PlaywrightError;
  elem_click := fun _ w => (Ok tt, w);
  _human_pause := fun w => w;
  time_time := fun w => (0%Q, w);
  datetime_now_isoformat := fun w => ("2024-01-01T00:00:00", w);
  _extract_interpreter_details_text := fun html => Ok html
|}.

(** A matched remote job, a face-to-face job and a job still submitted. *)
Definition remote_line (ref : string) : list string :=
  [ref; "01/01/2024"; "02/01/2024"; "10:00"; "30 min"; "Spanish"; "Matched"; "Remote Accept"].
Definition face_line (ref : string) : list string :=
  [ref; "01/01/2024"; "02/01/2024"; "10:00"; "30 min"; "Spanish"; "Matched";
   "Remote or Face to Face"].
Definition submitted_line (ref : string) : list string :=
  [ref; "01/01/2024"; "02/01/2024"; "10:00"; "30 min"; "Spanish"; "Submitted"; "Remote"].

Definition start (w : Page) : State Page :=
  {| world := w; tracker := None; trace := [] |}.

(** Ten jobs of which eight are remote and matched, on a page that
    settles after each click, on one that does not, and on one whose table
    never shows up. *)
Definition ten_lines : list (list string) :=
  [remote_line "1/A"; face_line "2/A"; remote_line "3/A"; remote_line "4/A";
   submitted_line "5/A"; remote_line "6/A"; remote_line "7/A"; remote_line "8/A";
   remote_line "9/A"; remote_line "10/A"].
Definition settled_board : State Page :=
  start {| lines := ten_lines; accept_buttons := true; banner := false;
           table := Ok tt; load_state := Ok tt |}.
Definition unsettled_board : State Page :=
  start {| lines := ten_lines; accept_buttons := true; banner := false;
           table := Ok tt; load_state := Raise PlaywrightTimeoutError |}.
Definition late_board : State Page :=
  start {| lines := ten_lines; accept_buttons := true; banner := false;
           table := Raise PlaywrightTimeoutError; load_state := Ok tt |}.

End Listing.

(** ** results_tracker.py: detailed statistics *)

Module Stats.

(** What the statistics code can end in: a value, a [KeyError] on the
    named key, or the [AttributeError] of calling [split] on a float. *)
Inductive outcome (A : Type) : Type :=
| Done (a : A)
| RaiseKeyError (key : string)
| RaiseAttributeError.
Arguments Done {A} a.
Arguments RaiseKeyError {A} key.
Arguments RaiseAttributeError {A}.

(** Equality of two values used as dictionary keys. *)
Definition key_eqb (a b : pyval) : bool :=
  match a, b with
  | VStr s, VStr t => String.eqb s t
  | VFloat p, VFloat q => Qeq_bool p q
  | _, _ => false
  end.

(** [d[k] = d.get(k, 0) + 1] on a dictionary kept in insertion order. *)
Fixpoint bump (k : pyval) (d : list (pyval * Z)) : list (pyval * Z) :=
  match d with
  | [] => [(k, 1%Z)]
  | (k', n) :: rest =>
      if key_eqb k' k then (k', (n + 1)%Z) :: rest else (k', n) :: bump k rest
  end.

(** [job.get(key, fallback)] *)
Definition job_get (job : gmap string pyval) (key : string) (fallback : pyval) : pyval :=
  default fallback (job !! key).

(** The loop [for job in jobs: v = job.get(key, 'Unknown'); d[v] = d.get(v, 0) + 1]. *)
Definition count_by (key : string) (jobs : list (gmap string pyval)) : list (pyval * Z) :=
  fold_left (fun d job => bump (job_get job key (VStr "Unknown")) d) jobs [].

(** [s.split(':')[0]] *)
Fixpoint split_colon_0 (s : string) : string :=
  match s with
  | EmptyString => EmptyString
  | String c r => if Ascii.eqb c ":"%char then EmptyString else String c (split_colon_0 r)
  end.

Inductive period : Type := Morning | Afternoon | Evening | Night.

(** The [if 6 <= hour < 12 ... elif ... else] chain. *)
Definition period_of (hour : Z) : period :=
  if ((6 <=? hour) && (hour <? 12))%Z then Morning
  else if ((12 <=? hour) && (hour <? 17))%Z then Afternoon
  else if ((17 <=? hour) && (hour <? 22))%Z then Evening
  else Night.

(** The dictionary [{'morning': .., 'afternoon': .., 'evening': .., 'night': ..}]. *)
Record Periods : Type := {
  morning : Z;
  afternoon : Z;
  evening : Z;
  night : Z
}.

Definition add_period (p : period) (t : Periods) : Periods :=
  match p with
  | Morning => {| morning := morning t + 1; afternoon := afternoon t;
                  evening := evening t; night := night t |}
  | Afternoon => {| morning := morning t; afternoon := afternoon t + 1;
                    evening := evening t; night := night t |}
  | Evening => {| morning := morning t; afternoon := afternoon t;
                  evening := evening t + 1; night := night t |}
  | Night => {| morning := morning t; afternoon := afternoon t;
                evening := evening t; night := night t + 1 |}
  end.

Definition periods_items (t : Periods) : list (string * Z) :=
  [("morning", morning t); ("afternoon", afternoon t);
   ("evening", evening t); ("night", night t)].

Section WithBuiltins.

(** Python's [int(text)], [None] standing for [ValueError], and
    [round(x, 2)]. *)
Variable py_int : string -> option Z.
Variable py_round2 : Q -> Q.

(** What the body of the time-period loop does with one job:
    [int(job.get('appt_time', '00:00').split(':')[0])]. *)
Inductive hour_outcome : Type :=
| Hour (h : Z)
| NoHour
| NoSplit.

Definition job_hour (job : gmap string pyval) : hour_outcome :=
  match job_get job "appt_time" (VStr "00:00") with
  | VStr text =>
      match py_int (split_colon_0 text) with
      | Some h => Hour h
      | None => NoHour
      end
  | VFloat _ => NoSplit
  end.

(** The time-period loop: a [ValueError] is passed over, the
    [AttributeError] is not caught. *)
Fixpoint time_periods_of (jobs : list (gmap string pyval)) (t : Periods) : outcome Periods :=
  match jobs with
  | [] => Done t
  | job :: rest =>
      match job_hour job with
      | Hour h => time_periods_of rest (add_period (period_of h) t)
      | NoHour => time_periods_of rest t
      | NoSplit => RaiseAttributeError
      end
  end.

(** The dictionary [get_detailed_stats] returns; [session_duration_hours]
    is [None] when the key is absent. *)
Record DetailedStats : Type := {
  ds_total_accepted : Z;
  ds_total_rejected : Z;
  ds_total_jobs : Z;
  ds_languages : list (pyval * Z);
  ds_time_periods : list (string * Z);
  ds_rejection_reasons : list (pyval * Z);
  ds_average_per_hour : Q;
  ds_session_duration_hours : option Q;
  ds_check_cycles : Z
}.

(** [get_detailed_stats]; [now] is its one clock reading, made only when
    the tracker holds a job. *)
Definition get_detailed_stats (self : Tracker.ResultsTracker) (now : Q)
    : outcome DetailedStats :=
  match Tracker.accepted_jobs self, Tracker.rejected_jobs self with
  | [], [] =>
      Done {| ds_total_accepted := 0; ds_total_rejected := 0; ds_total_jobs := 0;
              ds_languages := []; ds_time_periods := []; ds_rejection_reasons := [];
              ds_average_per_hour := 0; ds_session_duration_hours := None;
              ds_check_cycles := Tracker.check_cycles self |}
  | _, _ =>
      let languages := count_by "language" (Tracker.accepted_jobs self) in
      match time_periods_of (Tracker.accepted_jobs self)
              {| morning := 0; afternoon := 0; evening := 0; night := 0 |} with
      | RaiseKeyError key => RaiseKeyError key
      | RaiseAttributeError => RaiseAttributeError
      | Done time_periods =>
          let rejection_reasons := count_by "rejection_reason" (Tracker.rejected_jobs self) in
          let session_duration_hours := ((now - Tracker.session_start_time self) / 3600)%Q in
          let total_jobs := (Tracker.total_accepted self + Tracker.total_rejected self)%Z in
          let average_per_hour :=
            if Qle_bool session_duration_hours 0 then 0%Q
            else (inject_Z total_jobs / session_duration_hours)%Q in
          Done {| ds_total_accepted := Tracker.total_accepted self;
                  ds_total_rejected := Tracker.total_rejected self;
                  ds_total_jobs := total_jobs;
                  ds_languages := languages;
                  ds_time_periods := periods_items time_periods;
                  ds_rejection_reasons := rejection_reasons;
                  ds_average_per_hour := py_round2 average_per_hour;
                  ds_session_duration_hours := Some (py_round2 session_duration_hours);
                  ds_check_cycles := Tracker.check_cycles self |}
      end
  end.

(** [print_detailed_stats]: the lines it prints are left out; what stays
    is the one subscript that can fail, [stats['session_duration_hours']]. *)
Definition print_detailed_stats (self : Tracker.ResultsTracker) (now : Q) : outcome unit :=
  match get_detailed_stats self now with
  | RaiseKeyError key => RaiseKeyError key
  | RaiseAttributeError => RaiseAttributeError
  | Done stats =>
      match ds_session_duration_hours stats with
      | None => RaiseKeyError "session_duration_hours"
      | Some _ => Done tt
      end
  end.

End WithBuiltins.

(** The total of the counts of a dictionary. *)
Definition total (d : list (pyval * Z)) : Z :=
  fold_right (fun kv acc => (snd kv + acc)%Z) 0%Z d.

End Stats.

(** ** data_processor.py: the quick check; filter_handler.py; atoz_bot.py *)

(** ["matched" in job.get("status", <empty>).lower()] *)
Definition is_matched (job : gmap string string) : bool :=
  PyStr.contains "matched" (PyStr.lower (job_get_default job "status")).

Section QuickCheck.

Context {W Elem : Type} `{Browser W Elem}.

(** The inner [try] of [check_jobs_for_category]: whether the job is
    appended; any exception passes the job over. *)
Definition category_matches (selected_category : string) (job : gmap string string)
    : M W bool :=
  try_except
    (view_url <- lift (getitem job "view_url") ;;
     act (page_goto view_url "networkidle") ;;
     html <- obs page_content ;;
     details <- lift (_extract_interpreter_details_text html) ;;
     let details_text := PyStr.lower details in
     ret (PyStr.contains (PyStr.lower selected_category) details_text))
    (ret false).

Fixpoint check_jobs_loop (selected_category : string) (jobs : list (gmap string string))
    (matching_jobs : list (gmap string string)) : M W (list (gmap string string)) :=
  match jobs with
  | [] => ret matching_jobs
  | job :: rest =>
      if negb (is_matched job) then check_jobs_loop selected_category rest matching_jobs
      else if negb (PyStr.truthy (job_get_default job "view_url"))
           then check_jobs_loop selected_category rest matching_jobs
           else
             hit <- category_matches selected_category job ;;
             check_jobs_loop selected_category rest
               (if hit then matching_jobs ++ [job] else matching_jobs)
  end.

(** [check_jobs_for_category(page, selected_category)]; [None] and the
    empty string are the falsy categories. *)
Definition check_jobs_for_category (selected_category : option string)
    : M W (list (gmap string string)) :=
  try_except
    (jobs <- extract_jobs ;;
     match selected_category with
     | None | Some EmptyString => ret (List.filter is_matched jobs)
     | Some category => check_jobs_loop category jobs []
     end)
    (ret []).

(** [quick_job_check_cycle(page, jobs_url, selected_category)] *)
Definition quick_job_check_cycle (jobs_url : string) (selected_category : option string)
    : M W Z :=
  try_except
    (act (page_goto jobs_url "networkidle") ;;
     matching_jobs <- check_jobs_for_category selected_category ;;
     ret (Z.of_nat (length matching_jobs)))
    (ret 0%Z).

(** The status text [get_matched_rows] reads off a row. *)
Definition row_status_text (row : Elem) : M W string :=
  status_cell <- or_else (obs (elem_query_selector row "td.table__data.status"))
                         (obs (elem_query_selector row "td.table__data .status")) ;;
  match status_cell with
  | Some cell =>
      text <- obs (elem_inner_text cell) ;;
      ret (PyStr.lower (PyStr.strip text))
  | None => ret EmptyString
  end.

Fixpoint matched_rows_loop (rows : list Elem) (matched_rows : list Elem) : M W (list Elem) :=
  match rows with
  | [] => ret matched_rows
  | row :: rest =>
      status_text <- row_status_text row ;;
      matched_rows_loop rest
        (if PyStr.contains "matched" status_text then matched_rows ++ [row] else matched_rows)
  end.

(** [get_matched_rows(page)] of filter_handler.py *)
Definition get_matched_rows : M W (list Elem) :=
  ready <- try_except_timeout
             (act (page_wait_for_selector "section.content__table table tbody") ;; ret true)
             (ret false) ;;
  if negb ready then ret []
  else
    rows <- obs (page_query_selector_all "tbody tr.table__row") ;;
    matched_rows_loop rows [].

(** [initialize_tracker(report_interval, rejected_report_interval)] *)
Definition initialize_tracker (report_interval rejected_report_interval : Q)
    : M W Tracker.ResultsTracker :=
  fun s =>
    let (t1, w1) := time_time (world s) in
    let (t2, w2) := time_time w1 in
    let (t3, w3) := time_time w2 in
    let t := Tracker.init report_interval rejected_report_interval t1 t2 t3 in
    (Ok t, set_tracker (set_world s w3) t).

End QuickCheck.

Section AcceptOnPage.

Context {W Elem : Type} `{Browser W Elem}.
Variable cfg : Config.

(** The inner [try] of [accept_jobs_on_page]: the new value of
    [accepted]; any exception leaves it as it was. *)
Definition accept_row (row : Elem) (accepted : Z) : M W Z :=
  try_except
    (text <- obs (elem_inner_text row) ;;
     let row_text := PyStr.lower text in
     if negb (PyStr.contains "remote" row_text) || PyStr.contains "face to face" row_text
     then ret accepted
     else
       cells <- obs (elem_query_selector_all row "td.table__data") ;;
       if (length cells <? 8)%nat then ret accepted
       else
         match cells with
         | c0 :: c1 :: c2 :: c3 :: c4 :: c5 :: c6 :: _ :: _ =>
             ref_val <- cell_text c0 ;;
             submitted_val <- cell_text c1 ;;
             appt_date_val <- cell_text c2 ;;
             appt_time_val <- cell_text c3 ;;
             duration_val <- cell_text c4 ;;
             language_val <- cell_text c5 ;;
             status <- cell_text c6 ;;
             let status_text := PyStr.lower status in
             let required_present :=
               forallb PyStr.truthy
                 [ref_val; submitted_val; appt_date_val; appt_time_val;
                  duration_val; language_val] in
             if negb required_present then ret accepted
             else if negb (PyStr.contains "matched" status_text) then ret accepted
             else
               accept_btn <- obs (elem_query_selector row
                 ".btn.btn--primary.table__btn, button:has-text('Accept'), a:has-text('Accept')") ;;
               match accept_btn with
               | None => ret accepted
               | Some accept_btn =>
                   act (elem_click accept_btn) ;;
                   ghost (AcceptClicked ref_val) ;;
                   handle_24_hour_modal ;;
                   handle_cancel_modal ;;
                   act page_wait_for_load_state ;;
                   ret (accepted + 1)%Z
               end
         | _ => ret accepted
         end)
    (ret accepted).

Fixpoint accept_rows (rows : list Elem) (accepted : Z) : M W Z :=
  match rows with
  | [] => ret accepted
  | row :: rest =>
      if (MAX_ACCEPT_PER_RUN cfg <=? accepted)%Z then ret accepted
      else
        accepted' <- accept_row row accepted ;;
        accept_rows rest accepted'
  end.

(** [accept_jobs_on_page(page)].  A timeout can only come from the three
    page calls before the loop, when [accepted] is still 0. *)
Definition accept_jobs_on_page : M W Z :=
  try_except_timeout
    (act (page_wait_for_selector "section.content__table table tbody") ;;
     banner <- obs (page_query_selector "text=There are no interpreter jobs") ;;
     match banner with
     | Some _ => ret 0%Z
     | None =>
         rows <- obs (page_query_selector_all "tbody tr.table__row") ;;
         accept_rows rows 0
     end)
    (ret 0%Z).

End AcceptOnPage.

(** ** Vocabulary of the statements *)

(** The stored time stamp under [key] is strictly later than [bound]. *)
Definition stamp_gt (key : string) (bound : Q) (job : gmap string pyval) : Prop :=
  match job !! key with
  | Some (VFloat ts) => (bound < ts)%Q
  | _ => False
  end.

#[global] Instance stamp_gt_dec key bound job : Decision (stamp_gt key bound job).
Proof.
  unfold stamp_gt. destruct (job !! key) as [[s|ts]|].
  - right; tauto.
  - destruct (Qlt_le_dec bound ts); [left | right]; [assumption | lra].
  - right; tauto.
Defined.

(** The counters agree with the lists. *)
Definition counted (self : Tracker.ResultsTracker) : Prop :=
  Tracker.total_accepted self = Z.of_nat (length (Tracker.accepted_jobs self)) /\
  Tracker.total_rejected self = Z.of_nat (length (Tracker.rejected_jobs self)).

(** The number of accept clicks recorded in a trace. *)
Definition accept_actions (tr : list event) : Z :=
  Z.of_nat (length (filter (fun e => is_accept e = true) tr)).

(** The steps that fetch the details text of a job: navigation, page
    content, BeautifulSoup lookup. *)
Definition fetch_details {W Elem : Type} `{Browser W Elem} (view_url : string) : M W string :=
  act (page_goto view_url "networkidle") ;;
  html <- obs page_content ;;
  lift (_extract_interpreter_details_text html).

(** What [extract_jobs] makes of a row in world [w]: [None] when the row
    has a spanning cell or fewer than eight data cells, a job otherwise,
    whose [ref] is the trimmed text of the first data cell. *)
Definition row_outcome {W Elem : Type} `{Browser W Elem}
    (w : W) (row : Elem) (o : option (gmap string string)) : Prop :=
  match o with
  | None =>
      (exists cell cells, elem_query_selector_all row "td[colspan]" w = Ok (cell :: cells)) \/
      (elem_query_selector_all row "td[colspan]" w = Ok [] /\
       exists cells, elem_query_selector_all row "td.table__data" w = Ok cells /\
                     (length cells < 8)%nat)
  | Some job =>
      elem_query_selector_all row "td[colspan]" w = Ok [] /\
      exists cells c0 text,
        elem_query_selector_all row "td.table__data" w = Ok cells /\
        (8 <= length cells)%nat /\
        cells !! 0%nat = Some c0 /\
        elem_inner_text c0 w = Ok text /\
        job !! "ref" = Some (PyStr.strip text)
  end.

(** The accept control of a job cannot be located: no form, or a form
    without either button. *)
Definition accept_control_missing {W Elem : Type} `{Browser W Elem}
    (w : W) (ref : string) : Prop :=
  let selector :=
    "form[action*='/interpreter-jobs/" ++ PyStr.strip (PyStr.split_slash_0 ref) ++ "/matched']" in
  page_query_selector selector w = Ok None \/
  exists form,
    page_query_selector selector w = Ok (Some form) /\
    elem_query_selector form "button.btn.btn--primary" w = Ok None /\
    elem_query_selector form "button[type='submit']" w = Ok None.

(** No reject control can be located: neither the form nor the fallback
    button. *)
Definition reject_control_missing {W Elem : Type} `{Browser W Elem} (w : W) : Prop :=
  page_query_selector "form[action*='matched/reject']" w = Ok None /\
  page_query_selector "input.btn.btn--reject, .btn.btn--reject" w = Ok None.

(** The rejected jobs of the global tracker. *)
Definition rejected_of {W : Type} (s : State W) : list (gmap string pyval) :=
  match tracker s with
  | Some t => Tracker.rejected_jobs t
  | None => []
  end.

(** A computation relates every state it starts from to the state it
    ends in. *)
Definition respects {W A : Type} (R : State W -> State W -> Prop) (m : M W A) : Prop :=
  forall s, R s (snd (m s)).

(** The two states record the same number of accept clicks. *)
Definition same_accepts {W : Type} (s s' : State W) : Prop :=
  accept_actions (trace s') = accept_actions (trace s).

(** The stored reason of a rejected job is the one of [persistent_bot_cycle]. *)
Definition fixed_reason (job : gmap string pyval) : Prop :=
  job !! "rejection_reason" = Some (VStr "Face-to-face job (not telephone translation)").

(** The second state has the rejected jobs of the first, followed by jobs
    stored with that reason. *)
Definition rejections_fixed {W : Type} (s s' : State W) : Prop :=
  exists new, rejected_of s' = (rejected_of s ++ new)%list /\ Forall fixed_reason new.

(** A computation whose result and number of added accept clicks satisfy
    [post]. *)
Definition bounded {W A : Type} (m : M W A) (post : result A -> Z -> Prop) : Prop :=
  forall s,
    post (fst (m s)) (accept_actions (trace (snd (m s))) - accept_actions (trace s))%Z.

(** What one iteration of a cycle does to [accepted] and to the number of
    accept clicks [d]: at most one click; when the iteration ends normally
    [accepted] has grown by the number of clicks. *)
Definition iteration_post (accepted : Z) (r : result Z) (d : Z) : Prop :=
  (0 <= d <= 1)%Z /\
  match r with
  | Ok accepted' => accepted' = (accepted + d)%Z
  | Raise _ => True
  end.

(** The entries the two [add] methods store. *)
Definition accepted_entry (job : gmap string pyval) (now_iso : string) (now : Q)
    : gmap string pyval :=
  <["accepted_timestamp" := VFloat now]> (<["accepted_at" := VStr now_iso]> job).

Definition rejected_entry (job : gmap string pyval) (reason now_iso : string) (now : Q)
    : gmap string pyval :=
  <["rejection_reason" := VStr reason]>
    (<["rejected_timestamp" := VFloat now]> (<["rejected_at" := VStr now_iso]> job)).

(** What a sequence of tracker calls asks to be stored and counted. *)
Fixpoint accepted_of_calls (cs : list Tracker.call) : list (gmap string pyval) :=
  match cs with
  | [] => []
  | Tracker.AddAcceptedJob job now_iso now :: rest =>
      accepted_entry job now_iso now :: accepted_of_calls rest
  | _ :: rest => accepted_of_calls rest
  end.

Fixpoint rejected_of_calls (cs : list Tracker.call) : list (gmap string pyval) :=
  match cs with
  | [] => []
  | Tracker.AddRejectedJob job reason now_iso now :: rest =>
      rejected_entry job reason now_iso now :: rejected_of_calls rest
  | _ :: rest => rejected_of_calls rest
  end.

Fixpoint cycles_of_calls (cs : list Tracker.call) : Z :=
  match cs with
  | [] => 0
  | Tracker.IncrementCheckCycle _ :: rest => 1 + cycles_of_calls rest
  | _ :: rest => cycles_of_calls rest
  end.

(** The clock reading of the last successful [set_login_status] among the
    calls, [before] when there is none. *)
Fixpoint last_login (before : option Q) (cs : list Tracker.call) : option Q :=
  match cs with
  | [] => before
  | Tracker.SetLoginStatus _ true t_login _ :: rest => last_login (Some t_login) rest
  | _ :: rest => last_login before rest
  end.

(** Every stored time stamp under [key] is at most [bound]. *)
Definition stamp_le (key : string) (bound : Q) (job : gmap string pyval) : Prop :=
  exists ts, job !! key = Some (VFloat ts) /\ (ts <= bound)%Q.

(** The accepted jobs whose hour the time-period loop could read. *)
Definition with_hour (py_int : string -> option Z) (jobs : list (gmap string pyval)) : Z :=
  Z.of_nat (length (List.filter
                      (fun job => match Stats.job_hour py_int job with
                                  | Stats.Hour _ => true
                                  | _ => false
                                  end) jobs)).

Definition periods_total (t : Stats.Periods) : Z :=
  (Stats.morning t + Stats.afternoon t + Stats.evening t + Stats.night t)%Z.

(** The number of reject clicks recorded in a trace, and the counters of
    the global tracker (zero before it exists). *)
Definition reject_actions (tr : list event) : Z :=
  Z.of_nat (length (filter (fun e => is_accept e = false) tr)).

Definition accepted_total {W : Type} (s : State W) : Z :=
  match tracker s with Some t => Tracker.total_accepted t | None => 0%Z end.

Definition rejected_total {W : Type} (s : State W) : Z :=
  match tracker s with Some t => Tracker.total_rejected t | None => 0%Z end.

(** Reject clicks less recorded rejections. *)
Definition unrecorded_rejections {W : Type} (s : State W) : Z :=
  (reject_actions (trace s) - rejected_total s)%Z.

(** The accept clicks recorded so far. *)
Definition accept_clicks {W : Type} (s : State W) : Z := accept_actions (trace s).

(** A sound tracker stays sound. *)
Definition stays_sound {W : Type} (s s' : State W) : Prop :=
  match tracker s with
  | Some t => Tracker.stamped t /\ counted t
  | None => True
  end ->
  match tracker s' with
  | Some t => Tracker.stamped t /\ counted t
  | None => True
  end.

(** The two states agree on a measure. *)
Definition same {W : Type} (mu : State W -> Z) (s s' : State W) : Prop := mu s' = mu s.

(** A computation whose result and change of a measure satisfy [post]. *)
Definition tally {W A : Type} (mu : State W -> Z) (m : M W A)
    (post : result A -> Z -> Prop) : Prop :=
  forall s, post (fst (m s)) (mu (snd (m s)) - mu s)%Z.

(** The global tracker, when it exists, keeps its two invariants. *)
Definition tracker_sound {W : Type} (s : State W) : Prop :=
  match tracker s with
  | Some t => Tracker.stamped t /\ counted t
  | None => True
  end.

(** The tracker is left as it was. *)
Definition same_tracker {W : Type} (s s' : State W) : Prop := tracker s' = tracker s.

(** Nothing but the world has changed. *)
Definition only_world {W : Type} (s s' : State W) : Prop :=
  tracker s' = tracker s /\ trace s' = trace s.

(** The value of a run that returned, [fallback] when it raised. *)
Definition returned {A : Type} (fallback : A) (r : result A) : A :=
  match r with Ok a => a | Raise _ => fallback end.

(** The statistics of a call that returned, zeros otherwise. *)
Definition stats_of (o : Stats.outcome Stats.DetailedStats) : Stats.DetailedStats :=
  match o with
  | Stats.Done stats => stats
  | _ => {| Stats.ds_total_accepted := 0; Stats.ds_total_rejected := 0;
            Stats.ds_total_jobs := 0; Stats.ds_languages := [];
            Stats.ds_time_periods := []; Stats.ds_rejection_reasons := [];
            Stats.ds_average_per_hour := 0; Stats.ds_session_duration_hours := None;
            Stats.ds_check_cycles := 0 |}
  end.

(** ** More scripted pages for worked examples *)

(** A tracker holding one accepted and one rejected job. *)
Definition sample_tracker : Tracker.ResultsTracker :=
  Tracker.add_rejected_job
    (Tracker.add_accepted_job (Tracker.init 5 43200 0 0 0)
       (<["language" := VStr "Spanish"]> (<["appt_time" := VStr "10:30"]> ∅))
       "2024-01-01T00:00:01" 1)
    (<["language" := VStr "French"]> ∅)
    "Face-to-face job (not telephone translation)" "2024-01-01T00:00:02" 2.

(** A board whose only job is still submitted, and one whose detail pages
    name neither the wanted job type nor an excluded one. *)
Definition submitted_row : Scripted.RowSpec :=
  {| Scripted.colspan := 0;
     Scripted.texts :=
       ["103/C"; "01/01/2024"; "02/01/2024"; "10:00"; "30 min"; "Spanish"; "Submitted"; "View"];
     Scripted.href := Some "/interpreter-jobs/103" |}.
Definition submitted_board : State Scripted.Site :=
  Scripted.start (Scripted.site [submitted_row; submitted_row] "Telephone interpreting").
Definition video_board : State Scripted.Site :=
  Scripted.start (Scripted.site [Scripted.matched_row "101/A"] "Video interpreting, 30 min").

(** Its detailed statistics, with a reading of the hour that answers 10
    and a rounding that keeps its argument. *)
Definition sample_stats : Stats.DetailedStats :=
  stats_of (Stats.get_detailed_stats (fun _ => Some 10%Z) (fun q => q) sample_tracker 3).

(** What the start of a cycle extracts from [submitted_board]. *)
Definition submitted_extracted : result (list (gmap string string)) * State Scripted.Site :=
  (act (page_goto "/interpreter-jobs" "networkidle") ;; extract_jobs) submitted_board.

(** The configuration with no user name set. *)
Definition anonymous_config : Config :=
  {| job_type := job_type default_config;
     exclude_types := exclude_types default_config;
     required_fields := required_fields default_config;
     MAX_ACCEPT_PER_RUN := MAX_ACCEPT_PER_RUN default_config;
     ATOZ_BASE_URL := ATOZ_BASE_URL default_config;
     ATOZ_USERNAME := EmptyString;
     ATOZ_PASSWORD := EmptyString |}.

(** A listing whose waits always come back: every row carries an accept
    button, the table is there and the page settles after each click. *)
Module Calm.

Record Board : Type := { lines : list (list string) }.

Definition page (w : Board) : Listing.Page :=
  {| Listing.lines := lines w; Listing.accept_buttons := true; Listing.banner := false;
     Listing.table := Ok tt; Listing.load_state := Ok tt |}.

#[global] Instance browser : Browser Board Scripted.Handle := {|
  page_goto := fun _ _ w => (Ok tt, w);
  page_content := fun _ => Ok EmptyString;
  page_wait_for_selector := fun _ w => (Ok tt, w);
  page_wait_for_load_state := fun w => (Ok tt, w);
  page_query_selector := fun selector w => Listing.find (page w) selector;
  page_query_selector_all :=
    fun _ w => Ok (map Scripted.HRow (seq 0 (length (lines w))));
  page_is_visible := fun _ _ => Ok false;
  page_click := fun _ w => (Ok tt, w);
  page_fill := fun _ _ w => (Ok tt, w);
  elem_query_selector := fun e selector w => Listing.sub_element (page w) e selector;
  elem_query_selector_all := fun e selector w => Listing.row_cells (page w) e selector;
  elem_inner_text := fun e w => Listing.inner_text (page w) e;
  elem_get_attribute := fun _ _ _ => Raise PlaywrightError;
  elem_click := fun _ w => (Ok tt, w);
  _human_pause := fun w => w;
  time_time := fun w => (0%Q, w);
  datetime_now_isoformat := fun w => ("2024-01-01T00:00:00", w);
  _extract_interpreter_details_text := fun html => Ok html
|}.

Definition board : State Board :=
  {| world := {| lines := Listing.ten_lines |}; tracker := None; trace := [] |}.

End Calm.

(** * Properties *)

(** ** Results tracker *)

Section TrackerFacts.

Import Tracker.

Lemma jobs_since_filter key bound jobs :
  Forall (has_stamp key) jobs ->
  jobs_since key bound jobs = Ok (filter (stamp_gt key bound) jobs).
Proof.
  induction 1 as [|job rest [ts Hts] _ IH]; [reflexivity|].
  cbn [jobs_since]. unfold stamp_after. rewrite Hts, IH.
  rewrite filter_cons.
  destruct (decide _) as [Hd|Hd]; unfold stamp_gt in Hd; rewrite Hts in Hd;
    destruct (Qle_bool ts bound) eqn:E; cbn [negb]; try reflexivity.
  - apply Qle_bool_iff in E. lra.
  - exfalso. apply Hd. destruct (Qlt_le_dec bound ts) as [|Hle]; [assumption|].
    apply Qle_bool_iff in Hle. congruence.
Qed.

Lemma init_stamped ri rri t1 t2 t3 : stamped (init ri rri t1 t2 t3).
Proof. split; constructor. Qed.

Lemma init_counted ri rri t1 t2 t3 : counted (init ri rri t1 t2 t3).
Proof. split; reflexivity. Qed.

Lemma add_accepted_has_stamp (job : gmap string pyval) now_iso now :
  has_stamp "accepted_timestamp"
    (<["accepted_timestamp" := VFloat now]> (<["accepted_at" := VStr now_iso]> job)).
Proof. exists now. apply lookup_insert_eq. Qed.

Lemma add_rejected_has_stamp (job : gmap string pyval) reason now_iso now :
  has_stamp "rejected_timestamp"
    (<["rejection_reason" := VStr reason]>
       (<["rejected_timestamp" := VFloat now]> (<["rejected_at" := VStr now_iso]> job))).
Proof.
  exists now. rewrite lookup_insert_ne by discriminate. apply lookup_insert_eq.
Qed.

(** A report on a stamped tracker does not raise. *)
Lemma report_results_stamped self t_check t_update :
  stamped self ->
  report_results self t_check t_update =
    Ok (if should_report self t_check then set_last_report_time self t_update else self).
Proof.
  intros [Ha Hr]. unfold report_results, get_unified_summary.
  destruct (should_report self t_check); cbn [negb]; [|reflexivity].
  rewrite (jobs_since_filter _ _ _ Ha), (jobs_since_filter _ _ _ Hr). reflexivity.
Qed.

Lemma report_rejected_jobs_stamped self t_check t_update :
  stamped self ->
  report_rejected_jobs self t_check t_update =
    Ok (if should_report_rejected self t_check
        then set_last_rejected_report_time self t_update else self).
Proof.
  intros [Ha Hr]. unfold report_rejected_jobs, get_rejected_summary.
  destruct (should_report_rejected self t_check); cbn [negb]; [|reflexivity].
  rewrite (jobs_since_filter _ _ _ Hr). reflexivity.
Qed.

(** Every call keeps the two invariants, and none raises on a stamped
    tracker. *)
Lemma step_invariant self c :
  stamped self -> counted self ->
  exists self', step self c = Ok self' /\ stamped self' /\ counted self'.
Proof.
  intros Hs Hc. pose proof Hs as [Ha Hr]. pose proof Hc as [Ca Cr].
  destruct c; cbn [step].
  - eexists; split; [reflexivity|]. split; [split|split]; cbn.
    + apply Forall_app; split; [assumption|].
      constructor; [apply add_accepted_has_stamp | constructor].
    + assumption.
    + rewrite length_app; cbn. lia.
    + assumption.
  - eexists; split; [reflexivity|]. split; [split|split]; cbn.
    + assumption.
    + apply Forall_app; split; [assumption|].
      constructor; [apply add_rejected_has_stamp | constructor].
    + assumption.
    + rewrite length_app; cbn. lia.
  - eexists; split; [reflexivity|]. split; [split|split]; assumption.
  - eexists; split; [reflexivity|]. split; [split|split]; assumption.
  - eexists; split; [reflexivity|]. split; [split|split]; assumption.
  - rewrite report_results_stamped by assumption.
    eexists; split; [reflexivity|].
    destruct (should_report self t_check); split; (split; assumption).
  - rewrite report_rejected_jobs_stamped by assumption.
    eexists; split; [reflexivity|].
    destruct (should_report_rejected self t_check); split; (split; assumption).
Qed.

Lemma run_invariant cs : forall self,
  stamped self -> counted self ->
  exists self', run self cs = Ok self' /\ stamped self' /\ counted self'.
Proof.
  induction cs as [|c cs IH]; intros self Hs Hc; cbn [run].
  - exists self; auto.
  - destruct (step_invariant self c Hs Hc) as (self1 & -> & Hs1 & Hc1).
    apply IH; assumption.
Qed.

(** No call lowers a counter. *)
Lemma step_monotone self c self' :
  step self c = Ok self' ->
  (total_accepted self <= total_accepted self')%Z /\
  (total_rejected self <= total_rejected self')%Z.
Proof.
  destruct c; cbn [step]; intros Hstep.
  1-5: injection Hstep as <-; cbn; lia.
  - unfold report_results in Hstep.
    destruct (should_report self t_check); cbn [negb] in Hstep.
    + destruct (get_unified_summary self); [|discriminate].
      injection Hstep as <-; cbn; lia.
    + injection Hstep as <-; lia.
  - unfold report_rejected_jobs in Hstep.
    destruct (should_report_rejected self t_check); cbn [negb] in Hstep.
    + destruct (get_rejected_summary self); [|discriminate].
      injection Hstep as <-; cbn; lia.
    + injection Hstep as <-; lia.
Qed.

(** C3.  From a freshly initialised tracker, any sequence of tracker
    calls (the two [add] methods among them) runs to the end; in the
    tracker it reaches, [total_accepted] is the length of
    [accepted_jobs] and [total_rejected] the length of [rejected_jobs];
    and no single call of any tracker method lowers either counter. *)
Theorem counters_match_lists_and_never_decrease :
  forall (ri rri t1 t2 t3 : Q) (cs : list call),
    (exists self,
        run (init ri rri t1 t2 t3) cs = Ok self /\
        total_accepted self = Z.of_nat (length (accepted_jobs self)) /\
        total_rejected self = Z.of_nat (length (rejected_jobs self))) /\
    (forall self c,
        match step self c with
        | Ok self' =>
            (total_accepted self <= total_accepted self')%Z /\
            (total_rejected self <= total_rejected self')%Z
        | Raise _ => True
        end).
Proof.
  intros. split.
  - destruct (run_invariant cs _ (init_stamped ri rri t1 t2 t3) (init_counted ri rri t1 t2 t3))
      as (self & Hrun & _ & Ca & Cr).
    exists self. auto.
  - intros self c. destruct (step self c) eqn:E; [|exact I].
    eapply step_monotone; eassumption.
Qed.

(** C4.  With a positive report interval, a report that is due (on a
    tracker whose jobs carry their time stamps) goes through and stores its
    clock reading; [should_report] read at that same instant is false; and
    for any tracker and any clock reading [should_report] is true exactly
    when the time elapsed since [last_report_time] is at least
    [report_interval]. *)
Theorem should_report_after_report
    (self : ResultsTracker) (t_check t_update : Q)
    (Hpos : (0 < report_interval self)%Q)
    (Hstamped : stamped self)
    (Hdue : should_report self t_check = true) :
  exists self',
    report_results self t_check t_update = Ok self' /\
    last_report_time self' = t_update /\
    should_report self' t_update = false /\
    (forall (t : ResultsTracker) (now : Q),
        should_report t now = true <->
        (report_interval t <= now - last_report_time t)%Q).
Proof.
  exists (set_last_report_time self t_update).
  rewrite report_results_stamped by assumption. rewrite Hdue.
  split; [reflexivity|]. split; [reflexivity|]. split.
  - unfold should_report; cbn.
    destruct (Qle_bool _ _) eqn:E; [|reflexivity].
    apply Qle_bool_iff in E. lra.
  - intros t now. unfold should_report. apply Qle_bool_iff.
Qed.

Lemma should_report_after_report_witness :
  exists self',
    report_results (init 5 43200 0 0 0) 6 6 = Ok self' /\
    last_report_time self' = 6%Q /\
    should_report self' 6 = false /\
    (forall (t : ResultsTracker) (now : Q),
        should_report t now = true <->
        (report_interval t <= now - last_report_time t)%Q).
Proof.
  apply (should_report_after_report (init 5 43200 0 0 0) 6 6).
  - reflexivity.
  - split; constructor.
  - reflexivity.
Defined.

(** C9.  A call that goes through changes the report time stamps only as
    follows: [add_accepted_job], [add_rejected_job] and
    [increment_check_cycle] (and [set_login_status], [update_activity])
    leave [last_report_time] and [last_rejected_report_time] as they were;
    [report_results] stores its clock reading in [last_report_time] when
    the report is due and changes nothing otherwise, and never touches
    [last_rejected_report_time]; [report_rejected_jobs] does the same the
    other way round. *)
Theorem report_times_move_only_on_due_report
    (self : ResultsTracker) (c : call) (self' : ResultsTracker)
    (Hstep : step self c = Ok self') :
  match c with
  | AddAcceptedJob _ _ _ | AddRejectedJob _ _ _ _ | IncrementCheckCycle _
  | SetLoginStatus _ _ _ _ | UpdateActivity _ =>
      last_report_time self' = last_report_time self /\
      last_rejected_report_time self' = last_rejected_report_time self
  | ReportResults t_check t_update =>
      last_report_time self' =
        (if should_report self t_check then t_update else last_report_time self) /\
      last_rejected_report_time self' = last_rejected_report_time self
  | ReportRejectedJobs t_check t_update =>
      last_report_time self' = last_report_time self /\
      last_rejected_report_time self' =
        (if should_report_rejected self t_check then t_update
         else last_rejected_report_time self)
  end.
Proof.
  destruct c; cbn [step] in Hstep.
  1-5: injection Hstep as <-; split; reflexivity.
  - unfold report_results in Hstep.
    destruct (should_report self t_check); cbn [negb] in Hstep.
    + destruct (get_unified_summary self); [|discriminate].
      injection Hstep as <-; split; reflexivity.
    + injection Hstep as <-; split; reflexivity.
  - unfold report_rejected_jobs in Hstep.
    destruct (should_report_rejected self t_check); cbn [negb] in Hstep.
    + destruct (get_rejected_summary self); [|discriminate].
      injection Hstep as <-; split; reflexivity.
    + injection Hstep as <-; split; reflexivity.
Qed.

Lemma report_times_move_only_on_due_report_witness :
  last_report_time (increment_check_cycle (init 5 43200 1 2 3) 9) = 1%Q /\
  last_rejected_report_time (increment_check_cycle (init 5 43200 1 2 3) 9) = 2%Q.
Proof.
  exact (report_times_move_only_on_due_report
           (init 5 43200 1 2 3) (IncrementCheckCycle 9)
           (increment_check_cycle (init 5 43200 1 2 3) 9) eq_refl).
Defined.

Lemma filter_stamp_at_bound (job : gmap string pyval) now_iso bound :
  filter (stamp_gt "accepted_timestamp" bound)
    [<["accepted_timestamp" := VFloat bound]> (<["accepted_at" := VStr now_iso]> job)] = [].
Proof.
  rewrite filter_cons, filter_nil.
  destruct (decide _) as [Hd|Hd]; [|reflexivity].
  unfold stamp_gt in Hd. rewrite lookup_insert_eq in Hd. lra.
Qed.

(** C10.  On a tracker whose accepted jobs carry their time stamps,
    [get_results_summary] returns a summary whose [jobs_since_last_report]
    are exactly the accepted jobs with [accepted_timestamp] strictly later
    than [last_report_time], and [accepted_since_last_report] is their
    number.  A job accepted at a clock reading equal to [last_report_time]
    raises [total_accepted] by one and leaves [accepted_since_last_report]
    as it was. *)
Theorem accepted_since_last_report_is_strict
    (self : ResultsTracker) (Hstamped : stamped self) :
  exists sm,
    get_results_summary self = Ok sm /\
    jobs_since_last_report sm =
      filter (stamp_gt "accepted_timestamp" (last_report_time self)) (accepted_jobs self) /\
    accepted_since_last_report sm = Z.of_nat (length (jobs_since_last_report sm)) /\
    rs_total_accepted sm = total_accepted self /\
    forall (job : gmap string pyval) (now_iso : string),
      exists sm',
        get_results_summary (add_accepted_job self job now_iso (last_report_time self)) = Ok sm' /\
        accepted_since_last_report sm' = accepted_since_last_report sm /\
        rs_total_accepted sm' = (rs_total_accepted sm + 1)%Z.
Proof.
  destruct Hstamped as [Ha Hr].
  unfold get_results_summary.
  rewrite (jobs_since_filter _ _ _ Ha).
  eexists; split; [reflexivity|]. cbn.
  repeat split.
  intros job now_iso.
  rewrite jobs_since_filter.
  - eexists; split; [reflexivity|]. cbn.
    rewrite filter_app, filter_stamp_at_bound, app_nil_r. split; reflexivity.
  - apply Forall_app; split; [assumption|].
    constructor; [apply add_accepted_has_stamp | constructor].
Qed.

Lemma accepted_since_last_report_is_strict_witness :
  exists sm,
    get_results_summary (add_accepted_job (init 5 43200 0 0 0) ∅ "t" 1) = Ok sm /\
    jobs_since_last_report sm =
      filter (stamp_gt "accepted_timestamp" 0)
             (accepted_jobs (add_accepted_job (init 5 43200 0 0 0) ∅ "t" 1)) /\
    accepted_since_last_report sm = Z.of_nat (length (jobs_since_last_report sm)) /\
    rs_total_accepted sm = 1%Z /\
    forall (job : gmap string pyval) (now_iso : string),
      exists sm',
        get_results_summary
          (add_accepted_job (add_accepted_job (init 5 43200 0 0 0) ∅ "t" 1) job now_iso 0)
          = Ok sm' /\
        accepted_since_last_report sm' = accepted_since_last_report sm /\
        rs_total_accepted sm' = (rs_total_accepted sm + 1)%Z.
Proof.
  apply (accepted_since_last_report_is_strict
           (add_accepted_job (init 5 43200 0 0 0) ∅ "t" 1)).
  split; cbn.
  - constructor; [|constructor]. exists 1%Q. reflexivity.
  - constructor.
Defined.

End TrackerFacts.

(** ** Job extractor, classifier and action executor *)

Section DataProcessorFacts.

Context {W Elem : Type} `{Browser W Elem}.

(** Case analysis on the next scrutinee of a monadic run. *)
Ltac run_step H :=
  match type of H with
  | context [match ?x with _ => _ end] => destruct x eqn:?
  | context [if ?x then _ else _] => destruct x eqn:?
  end; try discriminate.

(** Case analysis on the next page query of a monadic run. *)
Ltac run_query H :=
  match type of H with
  | context [elem_inner_text ?c (world ?s)] =>
      destruct (elem_inner_text c (world s)) eqn:?
  | context [elem_query_selector ?c ?sel (world ?s)] =>
      destruct (elem_query_selector c sel (world s)) as [[?|]|] eqn:?
  | context [elem_get_attribute ?c ?a (world ?s)] =>
      destruct (elem_get_attribute c a (world s)) eqn:?
  end; cbv beta iota in H; try discriminate.

Ltac unfold_m :=
  unfold bind, ret, raise, obs, act, lift, tick, ghost, try_except, try_except_timeout in *.

(** C7.  When the wait for the list container ends in Playwright's
    timeout, [extract_jobs] returns the empty list; it does not raise, and
    it asks the page nothing else. *)
Theorem extract_jobs_timeout_returns_empty
    (s : State W) (w' : W)
    (Htimeout : page_wait_for_selector "section.content__table table tbody" (world s)
                = (Raise PlaywrightTimeoutError, w')) :
  extract_jobs s = (Ok [], set_world s w').
Proof.
  unfold extract_jobs. unfold_m. rewrite Htimeout. reflexivity.
Qed.

Lemma extract_row_outcome row s o s' :
  extract_row row s = (Ok o, s') -> s' = s /\ row_outcome (world s) row o.
Proof.
  unfold extract_row, cell_text. unfold_m. intros Hrun.
  destruct (elem_query_selector_all row "td[colspan]" (world s)) as [[|cell cs]|] eqn:Hcol;
    try discriminate.
  2:{ injection Hrun as <- <-. split; [reflexivity|]. left. eauto. }
  destruct (elem_query_selector_all row "td.table__data" (world s)) as [cells|] eqn:Hcells;
    try discriminate.
  destruct (length cells <? 8)%nat eqn:Hlen.
  { injection Hrun as <- <-. split; [reflexivity|]. right. split; [assumption|].
    exists cells. split; [assumption|]. apply Nat.ltb_lt. assumption. }
  apply Nat.ltb_ge in Hlen.
  destruct cells as [|c0 [|c1 [|c2 [|c3 [|c4 [|c5 [|c6 [|c7 more]]]]]]]];
    cbn in Hlen; try lia.
  destruct (elem_inner_text c0 (world s)) as [text|] eqn:Htext; try discriminate.
  cbv beta iota in Hrun.
  repeat run_query Hrun.
  all: injection Hrun as <- <-; (split; [reflexivity|]); (split; [assumption|]).
  all: eexists _, c0, text; repeat split; try eassumption; try reflexivity.
  all: try (cbn; lia).
  all: apply lookup_insert_eq.
Qed.

Lemma extract_rows_outcome rows : forall acc s jobs s',
  extract_rows rows acc s = (Ok jobs, s') ->
  s' = s /\
  exists outs, Forall2 (row_outcome (world s)) rows outs /\ jobs = (acc ++ omap id outs)%list.
Proof.
  induction rows as [|row rows IH]; intros acc s jobs s' Hrun; cbn [extract_rows] in Hrun.
  - unfold ret in Hrun. injection Hrun as <- <-. split; [reflexivity|].
    exists []. split; [constructor|]. cbn. rewrite app_nil_r. reflexivity.
  - unfold bind in Hrun.
    destruct (extract_row row s) as [[o|e] s1] eqn:Hrow; [|discriminate].
    apply extract_row_outcome in Hrow as [-> Hout].
    apply IH in Hrun as [-> (outs & Houts & ->)]. split; [reflexivity|].
    exists (o :: outs). split; [constructor; assumption|].
    destruct o as [job|]; cbn; [rewrite <- app_assoc|]; reflexivity.
Qed.


(** The action executor never raises: whatever the page does, both
    actions return a boolean. *)
Lemma accept_from_board_returns ref s :
  exists b, fst (accept_from_board ref s) = Ok b.
Proof.
  unfold accept_from_board, try_except, ret.
  destruct (accept_from_board_body ref s) as [[b|e] s1]; cbn; eauto.
Qed.

Lemma reject_on_detail_returns s :
  exists b, fst (reject_on_detail s) = Ok b.
Proof.
  unfold reject_on_detail, try_except, ret.
  destruct (reject_on_detail_body s) as [[b|e] s1]; cbn; eauto.
Qed.

Lemma accept_from_board_false_when_missing ref s :
  accept_control_missing (world s) ref -> fst (accept_from_board ref s) = Ok false.
Proof.
  unfold accept_control_missing, accept_from_board, accept_from_board_body, or_else.
  unfold_m.
  intros [Hform | (form & Hform & Hb1 & Hb2)]; rewrite Hform; cbn; [reflexivity|].
  rewrite Hb1, Hb2. reflexivity.
Qed.

Lemma reject_on_detail_false_when_missing s :
  reject_control_missing (world s) -> fst (reject_on_detail s) = Ok false.
Proof.
  unfold reject_control_missing, reject_on_detail, reject_on_detail_body.
  unfold_m. intros [Hform Hbtn]. rewrite Hform, Hbtn. reflexivity.
Qed.

(** C8.  [accept_from_board] and [reject_on_detail] always return a
    boolean, never an exception.  [accept_from_board] returns [False] when
    the accept form or its button cannot be found, and when any page
    operation of its body raises; [reject_on_detail] returns [False] when
    neither the reject form nor the fallback button can be found, and when
    any page operation of its body raises. *)
Theorem accept_and_reject_return_false_on_failure (s : State W) (ref : string) :
  (exists b, fst (accept_from_board ref s) = Ok b) /\
  (exists b, fst (reject_on_detail s) = Ok b) /\
  (accept_control_missing (world s) ref \/
   (exists e, fst (accept_from_board_body ref s) = Raise e) ->
   fst (accept_from_board ref s) = Ok false) /\
  (reject_control_missing (world s) \/
   (exists e, fst (reject_on_detail_body s) = Raise e) ->
   fst (reject_on_detail s) = Ok false).
Proof.
  split; [apply accept_from_board_returns|].
  split; [apply reject_on_detail_returns|].
  split.
  - intros [Hmiss | [e He]]; [apply accept_from_board_false_when_missing; assumption|].
    unfold accept_from_board, try_except, ret.
    destruct (accept_from_board_body ref s) as [[b|e'] s1]; cbn in *; [discriminate|reflexivity].
  - intros [Hmiss | [e He]]; [apply reject_on_detail_false_when_missing; assumption|].
    unfold reject_on_detail, try_except, ret.
    destruct (reject_on_detail_body s) as [[b|e'] s1]; cbn in *; [discriminate|reflexivity].
Qed.

Lemma is_telephone_job_body_fetch view_url job_type exclude_types s :
  is_telephone_job_body view_url job_type exclude_types s =
  (details <- fetch_details view_url ;;
   let details_text := PyStr.lower details in
   if negb (PyStr.truthy details_text) then ret false
   else if any_excluded exclude_types details_text then ret false
   else ret (PyStr.contains (PyStr.lower job_type) details_text)) s.
Proof.
  unfold is_telephone_job_body, fetch_details. unfold_m.
  destruct (page_goto view_url "networkidle" (world s)) as [[[]|e] w1]; cbn; [|reflexivity].
  destruct (page_content w1); cbn; [|reflexivity].
  destruct (_extract_interpreter_details_text a); reflexivity.
Qed.

(** The classifier refuses a details text that names an excluded type,
    whatever else it contains. *)
Lemma is_telephone_job_false_when_excluded
    (s : State W) (view_url job_type : string) (exclude_types : list string)
    (details : string) :
  fst (fetch_details view_url s) = Ok details ->
  (exists ex, In ex exclude_types /\
              PyStr.contains (PyStr.lower ex) (PyStr.lower details) = true) ->
  fst (is_telephone_job view_url job_type exclude_types s) = Ok false.
Proof.
  intros Hfetch Hexcluded.
  unfold is_telephone_job, try_except.
  rewrite is_telephone_job_body_fetch. unfold bind.
  destruct (fetch_details view_url s) as [[d|e] s1]; cbn in Hfetch; [|discriminate].
  injection Hfetch as ->. cbv beta zeta.
  destruct (negb (PyStr.truthy (PyStr.lower details))); [reflexivity|].
  assert (Hany : any_excluded exclude_types (PyStr.lower details) = true).
  { unfold any_excluded. apply existsb_exists. destruct Hexcluded as (ex & Hin & Hc). eauto. }
  rewrite Hany. reflexivity.
Qed.

(** A job whose [ref] is blank does not get past the required-field check
    when [ref] is a required field. *)
Lemma blank_ref_is_no_candidate cfg (job : gmap string string) :
  In "ref" (required_fields cfg) ->
  job !! "ref" = Some EmptyString ->
  is_candidate cfg job = false.
Proof.
  intros Hin Href. unfold is_candidate.
  destruct (negb (PyStr.contains "matched" _)); [reflexivity|].
  assert (Hset : is_all_params_set job (required_fields cfg) = false).
  { unfold is_all_params_set. apply not_true_is_false. intros Hall.
    rewrite forallb_forall in Hall. specialize (Hall _ Hin).
    rewrite Href in Hall. discriminate. }
  rewrite Hset. destruct (required_fields cfg); [destruct Hin | reflexivity].
Qed.

End DataProcessorFacts.

(** ** Frame rules: what the steps of a cycle leave alone *)

Section Frames.

Context {W Elem : Type} `{Browser W Elem}.
Variable R : State W -> State W -> Prop.
Hypothesis R_refl : forall s, R s s.
Hypothesis R_trans : forall s1 s2 s3, R s1 s2 -> R s2 s3 -> R s1 s3.
Hypothesis R_world : forall s w, R s (set_world s w).

Lemma respects_ret {A} (a : A) : respects R (ret a).
Proof. intros s. apply R_refl. Qed.

Lemma respects_raise {A} e : respects R (@raise W A e).
Proof. intros s. apply R_refl. Qed.

Lemma respects_lift {A} (r : result A) : respects R (lift r).
Proof. intros s. apply R_refl. Qed.

Lemma respects_obs {A} (f : W -> result A) : respects R (obs f).
Proof. intros s. apply R_refl. Qed.

Lemma respects_act {A} (f : W -> result A * W) : respects R (act f).
Proof. intros s. unfold act. destruct (f (world s)); cbn. apply R_world. Qed.

Lemma respects_tick {A} (f : W -> A * W) : respects R (tick f).
Proof. intros s. unfold tick. destruct (f (world s)); cbn. apply R_world. Qed.

Lemma respects_bind {A B} (m : M W A) (k : A -> M W B) :
  respects R m -> (forall a, respects R (k a)) -> respects R (bind m k).
Proof.
  intros Hm Hk s. unfold bind. specialize (Hm s).
  destruct (m s) as [[a|e] s1]; cbn in *; [|assumption].
  eapply R_trans; [eassumption | apply Hk].
Qed.

Lemma respects_try_except {A} (body handler : M W A) :
  respects R body -> respects R handler -> respects R (try_except body handler).
Proof.
  intros Hb Hh s. unfold try_except. specialize (Hb s).
  destruct (body s) as [[a|e] s1]; cbn in *; [assumption|].
  eapply R_trans; [eassumption | apply Hh].
Qed.

Lemma respects_try_except_timeout {A} (body handler : M W A) :
  respects R body -> respects R handler -> respects R (try_except_timeout body handler).
Proof.
  intros Hb Hh s. unfold try_except_timeout. specialize (Hb s).
  destruct (body s) as [[a|[]] s1]; cbn in *; try assumption.
  eapply R_trans; [eassumption | apply Hh].
Qed.

Lemma respects_human_pause : respects R human_pause.
Proof. intros s. apply R_world. Qed.

(** Decomposition of a computation along its binds and branches. *)
Ltac frame :=
  repeat first
    [ apply respects_ret | apply respects_raise | apply respects_lift
    | apply respects_obs | apply respects_act | apply respects_tick
    | apply respects_human_pause
    | apply respects_bind; [|intros]
    | apply respects_try_except | apply respects_try_except_timeout
    | match goal with
      | |- respects _ (if ?b then _ else _) => destruct b
      | |- respects _ (match ?x with _ => _ end) => destruct x
      | |- respects _ (let _ := _ in _) => cbv zeta
      end
    | assumption ].

Lemma respects_extract_row row : respects R (extract_row row).
Proof. unfold extract_row, cell_text. frame. Qed.

Lemma respects_extract_rows rows : forall acc, respects R (extract_rows rows acc).
Proof.
  induction rows as [|row rows IH]; intros acc; cbn [extract_rows].
  - frame.
  - apply respects_bind; [apply respects_extract_row | intros; apply IH].
Qed.

Lemma respects_extract_jobs : respects R extract_jobs.
Proof. unfold extract_jobs. frame. apply respects_extract_rows. Qed.

Lemma respects_is_telephone_job view_url job_type exclude_types :
  respects R (is_telephone_job view_url job_type exclude_types).
Proof. unfold is_telephone_job, is_telephone_job_body. frame. Qed.

Lemma respects_get_interpreter_details_text view_url :
  respects R (get_interpreter_details_text view_url).
Proof. unfold get_interpreter_details_text. frame. Qed.

Lemma respects_navigate_to_job_board base_url :
  respects R (navigate_to_job_board base_url).
Proof. unfold navigate_to_job_board. frame. Qed.

Lemma respects_perform_login base_url username password :
  respects R (perform_login base_url username password).
Proof. unfold perform_login. frame. Qed.

Lemma respects_try_login cfg : respects R (try_login cfg).
Proof. unfold try_login. frame. Qed.

Lemma respects_handle_24_hour_modal : respects R handle_24_hour_modal.
Proof. unfold handle_24_hour_modal. frame. Qed.

Lemma respects_handle_cancel_modal : respects R handle_cancel_modal.
Proof. unfold handle_cancel_modal. frame. Qed.

(** The reject action, when a recorded reject click is harmless. *)
Lemma respects_reject_on_detail :
  (forall s, R s (add_event s RejectClicked)) -> respects R reject_on_detail.
Proof.
  intros Hev. assert (Hg : respects R (ghost RejectClicked)) by (intros s; apply Hev).
  unfold reject_on_detail, reject_on_detail_body. frame.
Qed.

(** The accept action, when a recorded accept click is harmless. *)
Lemma respects_accept_from_board ref :
  (forall s id, R s (add_event s (AcceptClicked id))) -> respects R (accept_from_board ref).
Proof.
  intros Hev.
  assert (Hg : forall id, respects R (ghost (AcceptClicked id))) by (intros id s; apply Hev).
  unfold accept_from_board, accept_from_board_body, or_else. frame. apply Hg.
Qed.

(** One iteration of [persistent_bot_cycle], when no recorded click and
    neither tracker call does harm. *)
Lemma respects_persistent_bot_job cfg job accepted :
  (forall s e, R s (add_event s e)) ->
  (forall j, respects R (add_accepted_job j)) ->
  (forall j, respects R (add_rejected_job j rejection_reason)) ->
  respects R (persistent_bot_job cfg job accepted).
Proof.
  intros Hev Hacc Hrej.
  pose proof (respects_reject_on_detail (fun s => Hev s RejectClicked)) as Hreject.
  pose proof (fun ref => respects_accept_from_board ref (fun s id => Hev s (AcceptClicked id)))
    as Haccept.
  pose proof respects_is_telephone_job as Htel.
  pose proof respects_get_interpreter_details_text as Hdet.
  pose proof respects_navigate_to_job_board as Hnav.
  pose proof respects_handle_24_hour_modal as Hm1.
  pose proof respects_handle_cancel_modal as Hm2.
  unfold persistent_bot_job.
  repeat first
    [ apply Htel | apply Hdet | apply Hnav | apply Hm1 | apply Hm2
    | apply Hreject | apply Haccept | apply Hacc | apply Hrej
    | apply respects_ret | apply respects_lift | apply respects_act
    | apply respects_bind; [|intros]
    | match goal with
      | |- respects _ (if ?b then _ else _) => destruct b
      | |- respects _ (let _ := _ in _) => cbv zeta
      end ].
Qed.

Lemma respects_persistent_bot_loop cfg :
  (forall s e, R s (add_event s e)) ->
  (forall j, respects R (add_accepted_job j)) ->
  (forall j, respects R (add_rejected_job j rejection_reason)) ->
  forall jobs accepted s, R s (snd (persistent_bot_loop cfg jobs accepted s)).
Proof.
  intros Hev Hacc Hrej.
  induction jobs as [|job jobs IH]; intros accepted s; cbn [persistent_bot_loop].
  - apply R_refl.
  - destruct (MAX_ACCEPT_PER_RUN cfg <=? accepted)%Z; [apply R_refl|].
    pose proof (respects_persistent_bot_job cfg job accepted Hev Hacc Hrej s) as Hjob.
    destruct (persistent_bot_job cfg job accepted s) as [[a'|e] s1]; cbn in *.
    + eapply R_trans; [eassumption | apply IH].
    + assumption.
Qed.

Lemma respects_persistent_bot_cycle cfg jobs_url :
  (forall s e, R s (add_event s e)) ->
  (forall j, respects R (add_accepted_job j)) ->
  (forall j, respects R (add_rejected_job j rejection_reason)) ->
  respects R (persistent_bot_cycle cfg jobs_url).
Proof.
  intros Hev Hacc Hrej s. unfold persistent_bot_cycle.
  assert (Hpre : respects R (act (page_goto jobs_url "networkidle") ;; extract_jobs)).
  { apply respects_bind; [apply respects_act | intros; apply respects_extract_jobs]. }
  specialize (Hpre s).
  destruct ((act (page_goto jobs_url "networkidle") ;; extract_jobs) s) as [[jobs|e] s1];
    cbn in Hpre; [|assumption].
  pose proof (respects_persistent_bot_loop cfg Hev Hacc Hrej jobs 0%Z s1) as Hloop.
  destruct (persistent_bot_loop cfg jobs 0 s1) as [[a e] s2]; cbn in *.
  eapply R_trans; eassumption.
Qed.

End Frames.

(** ** The cycle: rejection reasons *)

Section RejectionFacts.

Context {W Elem : Type} `{Browser W Elem}.

Lemma rejections_fixed_refl (s : State W) : rejections_fixed s s.
Proof. exists []. split; [symmetry; apply app_nil_r | constructor]. Qed.

Lemma rejections_fixed_trans (s1 s2 s3 : State W) :
  rejections_fixed s1 s2 -> rejections_fixed s2 s3 -> rejections_fixed s1 s3.
Proof.
  intros (n1 & E1 & F1) (n2 & E2 & F2). exists (n1 ++ n2)%list. split.
  - rewrite E2, E1. symmetry. apply app_assoc.
  - apply Forall_app; split; assumption.
Qed.

Lemma rejections_fixed_world (s : State W) w : rejections_fixed s (set_world s w).
Proof. exists []. split; [symmetry; apply app_nil_r | constructor]. Qed.

Lemma rejections_fixed_event (s : State W) e : rejections_fixed s (add_event s e).
Proof. exists []. split; [symmetry; apply app_nil_r | constructor]. Qed.

Lemma respects_rejections_add_accepted_job job :
  respects rejections_fixed (add_accepted_job job).
Proof.
  intros s. unfold add_accepted_job, get_tracker, put_tracker, bind, tick.
  destruct (tracker s) as [t|] eqn:Ht.
  - destruct (datetime_now_isoformat (world s)) as [iso w1].
    destruct (time_time _) as [now w2]. cbn.
    exists []. unfold rejected_of. rewrite Ht. cbn.
    split; [symmetry; apply app_nil_r | constructor].
  - destruct (time_time (world s)) as [t1 w1]. destruct (time_time w1) as [t2 w2].
    destruct (time_time w2) as [t3 w3].
    destruct (datetime_now_isoformat _) as [iso w4].
    destruct (time_time _) as [now w5]. cbn.
    exists []. unfold rejected_of. rewrite Ht. cbn.
    split; [reflexivity | constructor].
Qed.

Lemma fixed_reason_stored (job : gmap string pyval) now_iso now :
  fixed_reason
    (<["rejection_reason" := VStr rejection_reason]>
       (<["rejected_timestamp" := VFloat now]> (<["rejected_at" := VStr now_iso]> job))).
Proof. unfold fixed_reason, rejection_reason. apply lookup_insert_eq. Qed.

Lemma respects_rejections_add_rejected_job job :
  respects rejections_fixed (add_rejected_job job rejection_reason).
Proof.
  intros s. unfold add_rejected_job, get_tracker, put_tracker, bind, tick.
  destruct (tracker s) as [t|] eqn:Ht.
  - destruct (datetime_now_isoformat (world s)) as [iso w1].
    destruct (time_time _) as [now w2]. cbn.
    eexists [_]. unfold rejected_of. rewrite Ht. cbn.
    split; [reflexivity|]. constructor; [apply fixed_reason_stored | constructor].
  - destruct (time_time (world s)) as [t1 w1]. destruct (time_time w1) as [t2 w2].
    destruct (time_time w2) as [t3 w3].
    destruct (datetime_now_isoformat _) as [iso w4].
    destruct (time_time _) as [now w5]. cbn.
    eexists [_]. unfold rejected_of. rewrite Ht. cbn.
    split; [reflexivity|]. constructor; [apply fixed_reason_stored | constructor].
Qed.

(** C5, as the code has it.  Whatever the page shows and whichever
    excluded type a details text contains, every rejected job that a run of
    [persistent_bot_cycle] stores in the tracker carries the one reason
    "Face-to-face job (not telephone translation)". *)
Theorem recorded_rejection_reason_is_fixed
    (cfg : Config) (jobs_url : string) (s : State W) :
  exists new,
    rejected_of (snd (persistent_bot_cycle cfg jobs_url s)) = (rejected_of s ++ new)%list /\
    Forall (fun job => job !! "rejection_reason"
                       = Some (VStr "Face-to-face job (not telephone translation)")) new.
Proof.
  change (rejections_fixed s (snd (persistent_bot_cycle cfg jobs_url s))).
  apply respects_persistent_bot_cycle.
  - apply rejections_fixed_refl.
  - apply rejections_fixed_trans.
  - apply rejections_fixed_world.
  - apply rejections_fixed_event.
  - apply respects_rejections_add_accepted_job.
  - apply respects_rejections_add_rejected_job.
Qed.

End RejectionFacts.

(** ** The cycle: the cap on accept actions *)

Section CapFacts.

Context {W Elem : Type} `{Browser W Elem}.

Lemma accept_actions_snoc tr e :
  accept_actions (tr ++ [e]) = (accept_actions tr + (if is_accept e then 1 else 0))%Z.
Proof.
  unfold accept_actions. rewrite filter_app, length_app, filter_cons, filter_nil.
  destruct (decide (is_accept e = true)) as [->|Hn]; cbn.
  - lia.
  - destruct (is_accept e); [congruence|]. cbn. lia.
Qed.

Lemma same_accepts_refl (s : State W) : same_accepts s s.
Proof. reflexivity. Qed.

Lemma same_accepts_trans (s1 s2 s3 : State W) :
  same_accepts s1 s2 -> same_accepts s2 s3 -> same_accepts s1 s3.
Proof. unfold same_accepts. congruence. Qed.

Lemma same_accepts_world (s : State W) w : same_accepts s (set_world s w).
Proof. reflexivity. Qed.

Lemma same_accepts_reject (s : State W) : same_accepts s (add_event s RejectClicked).
Proof. unfold same_accepts. cbn. rewrite accept_actions_snoc. cbn. lia. Qed.

(** The tracker call of the accept path does not raise. *)
Lemma add_accepted_job_returns job (s : State W) : fst (add_accepted_job job s) = Ok tt.
Proof.
  unfold add_accepted_job, get_tracker, put_tracker, bind, tick.
  destruct (tracker s).
  - destruct (datetime_now_isoformat (world s)). destruct (time_time _). reflexivity.
  - destruct (time_time (world s)) as [t1 w1]. destruct (time_time w1) as [t2 w2].
    destruct (time_time w2) as [t3 w3]. cbn.
    destruct (datetime_now_isoformat _). destruct (time_time _). reflexivity.
Qed.

Lemma respects_accepts_add_accepted_job job :
  respects same_accepts (add_accepted_job job).
Proof.
  intros s. unfold same_accepts. f_equal.
  unfold add_accepted_job, get_tracker, put_tracker, bind, tick.
  destruct (tracker s).
  - destruct (datetime_now_isoformat (world s)). destruct (time_time _). reflexivity.
  - destruct (time_time (world s)) as [t1 w1]. destruct (time_time w1) as [t2 w2].
    destruct (time_time w2) as [t3 w3]. cbn.
    destruct (datetime_now_isoformat _). destruct (time_time _). reflexivity.
Qed.

Lemma respects_accepts_add_rejected_job job reason :
  respects same_accepts (add_rejected_job job reason).
Proof.
  intros s. unfold same_accepts. f_equal.
  unfold add_rejected_job, get_tracker, put_tracker, bind, tick.
  destruct (tracker s).
  - destruct (datetime_now_isoformat (world s)). destruct (time_time _). reflexivity.
  - destruct (time_time (world s)) as [t1 w1]. destruct (time_time w1) as [t2 w2].
    destruct (time_time w2) as [t3 w3]. cbn.
    destruct (datetime_now_isoformat _). destruct (time_time _). reflexivity.
Qed.

(** Rules for [bounded]. *)
Lemma bounded_ret {A} (a : A) (post : result A -> Z -> Prop) :
  post (Ok a) 0%Z -> bounded (@ret W A a) post.
Proof. intros Hp s. cbn. rewrite Z.sub_diag. assumption. Qed.

Lemma bounded_bind {A B} (m : M W A) (k : A -> M W B) (pre : result A -> Z -> Prop)
    (post : result B -> Z -> Prop) :
  bounded m pre ->
  (forall a d, pre (Ok a) d -> bounded (k a) (fun r d' => post r (d + d')%Z)) ->
  (forall e d, pre (Raise e) d -> post (Raise e) d) ->
  bounded (bind m k) post.
Proof.
  intros Hm Hk He s. unfold bind. specialize (Hm s).
  destruct (m s) as [[a|e] s1]; cbn in *.
  - specialize (Hk a _ Hm s1). cbn in Hk.
    match goal with
    | |- post _ ?x =>
        match type of Hk with post _ ?y => replace x with y by lia end
    end. assumption.
  - apply He. assumption.
Qed.

Lemma bounded_quiet {A} (m : M W A) :
  respects same_accepts m -> bounded m (fun _ d => d = 0%Z).
Proof. intros Hm s. specialize (Hm s). unfold same_accepts in Hm. lia. Qed.

Lemma bounded_bind_quiet {A B} (m : M W A) (k : A -> M W B) (post : result B -> Z -> Prop) :
  respects same_accepts m ->
  (forall a, bounded (k a) post) ->
  (forall e, post (Raise e) 0%Z) ->
  bounded (bind m k) post.
Proof.
  intros Hm Hk He. eapply bounded_bind; [apply bounded_quiet; exact Hm | |].
  - intros a d -> s. cbn. rewrite Z.add_0_l. apply Hk.
  - intros e d ->. apply He.
Qed.

(** The accept action returns [True] exactly when it records one accept
    click, and [False] when it records none. *)
Lemma bounded_accept_from_board ref :
  bounded (accept_from_board ref)
    (fun r d => (r = Ok true /\ d = 1%Z) \/ (r = Ok false /\ d = 0%Z)).
Proof.
  intros s. unfold accept_from_board, accept_from_board_body, or_else.
  unfold bind, ret, obs, act, ghost, try_except.
  repeat match goal with
    | |- context [match ?x with _ => _ end] =>
        lazymatch x with
        | context [match _ with _ => _ end] => fail
        | _ => destruct x eqn:?
        end
    end; cbn; rewrite ?Z.sub_diag, ?accept_actions_snoc; cbn; auto.
  all: left; split; [reflexivity | lia].
Qed.

Create HintDb cap.
#[local] Hint Resolve same_accepts_refl same_accepts_trans same_accepts_world
  same_accepts_reject : cap.

(** Steps that record no accept click. *)
Ltac quiet :=
  repeat first
    [ apply respects_is_telephone_job
    | apply respects_get_interpreter_details_text
    | apply respects_navigate_to_job_board
    | apply respects_handle_24_hour_modal
    | apply respects_handle_cancel_modal
    | apply respects_reject_on_detail
    | apply respects_accepts_add_accepted_job
    | apply respects_accepts_add_rejected_job
    | apply respects_extract_jobs
    | apply respects_try_login
    | apply respects_ret | apply respects_lift | apply respects_act
    | apply respects_bind
    | match goal with
      | |- respects _ (if ?b then _ else _) => destruct b
      | |- respects _ (let _ := _ in _) => cbv zeta
      end
    | progress intros
    | solve [eauto with cap] ].

Ltac bound_quiet := apply bounded_bind_quiet; [quiet | intros | unfold iteration_post; lia].

Lemma persistent_bot_job_bounded cfg job accepted :
  bounded (persistent_bot_job cfg job accepted) (iteration_post accepted).
Proof.
  unfold persistent_bot_job.
  destruct (negb (is_candidate cfg job)).
  { apply bounded_ret. unfold iteration_post. lia. }
  bound_quiet. bound_quiet.
  match goal with |- bounded (if negb ?telephone then _ else _) _ => destruct telephone end;
    cbn [negb].
  - bound_quiet. bound_quiet.
    eapply bounded_bind; [apply bounded_accept_from_board | |].
    + intros ok d [[E ->]|[E ->]]; injection E as ->; cbn [negb].
      * do 4 (apply bounded_bind_quiet; [quiet | intros | unfold iteration_post; lia]).
        apply bounded_ret. unfold iteration_post. lia.
      * apply bounded_ret. unfold iteration_post. lia.
    + intros e d [[E _]|[E _]]; discriminate.
  - do 3 bound_quiet. apply bounded_ret. unfold iteration_post. lia.
Qed.

Lemma run_once_job_bounded cfg job accepted :
  bounded (run_once_job cfg job accepted) (iteration_post accepted).
Proof.
  unfold run_once_job.
  destruct (negb (is_candidate cfg job)).
  { apply bounded_ret. unfold iteration_post. lia. }
  bound_quiet. bound_quiet.
  match goal with |- bounded (if negb ?telephone then _ else _) _ => destruct telephone end;
    cbn [negb].
  - bound_quiet. bound_quiet.
    eapply bounded_bind; [apply bounded_accept_from_board | |].
    + intros ok d [[E ->]|[E ->]]; injection E as ->; cbn [negb].
      * do 3 (apply bounded_bind_quiet; [quiet | intros | unfold iteration_post; lia]).
        apply bounded_ret. unfold iteration_post. lia.
      * apply bounded_ret. unfold iteration_post. lia.
    + intros e d [[E _]|[E _]]; discriminate.
  - do 3 bound_quiet. apply bounded_ret. unfold iteration_post. lia.
Qed.

(** The loops: the clicks added never exceed what is left of the cap. *)
Lemma persistent_bot_loop_bounded cfg jobs : forall accepted (s : State W),
  (accept_actions (trace (snd (persistent_bot_loop cfg jobs accepted s)))
   - accept_actions (trace s)
   <= Z.max 0 (MAX_ACCEPT_PER_RUN cfg - accepted))%Z.
Proof.
  induction jobs as [|job jobs IH]; intros accepted s; cbn [persistent_bot_loop].
  - cbn. lia.
  - destruct (Z.leb_spec (MAX_ACCEPT_PER_RUN cfg) accepted) as [Hle|Hlt]; [cbn; lia|].
    pose proof (persistent_bot_job_bounded cfg job accepted s) as [Hd Hr].
    destruct (persistent_bot_job cfg job accepted s) as [[a'|e] s1]; cbn in *.
    + specialize (IH a' s1). lia.
    + lia.
Qed.

Lemma run_once_loop_bounded cfg jobs : forall accepted,
  bounded (run_once_loop cfg jobs accepted)
    (fun _ d => (d <= Z.max 0 (MAX_ACCEPT_PER_RUN cfg - accepted))%Z).
Proof.
  induction jobs as [|job jobs IH]; intros accepted; cbn [run_once_loop].
  - apply bounded_ret. lia.
  - destruct (Z.leb_spec (MAX_ACCEPT_PER_RUN cfg) accepted) as [Hle|Hlt].
    { apply bounded_ret. lia. }
    eapply bounded_bind; [apply run_once_job_bounded | |].
    + intros a' d [Hd ->] s. specialize (IH (accepted + d)%Z s). cbn in IH. lia.
    + intros e d [Hd _]. lia.
Qed.

Lemma bind_ends_with {A B} (m : M W A) (k : A -> M W B) (b : B) (s : State W) :
  (forall x s', fst (k x s') = Ok b \/ exists e, fst (k x s') = Raise e) ->
  fst (bind m k s) = Ok b \/ exists e, fst (bind m k s) = Raise e.
Proof.
  intros Hk. unfold bind. destruct (m s) as [[x|e] s1]; [apply Hk | cbn; eauto].
Qed.

(** An iteration whose classifier call returns [False] records no accept
    click and, when it ends normally, leaves [accepted] as it was. *)
Lemma persistent_bot_job_not_accepted cfg job accepted view_url (s : State W) :
  job !! "view_url" = Some view_url ->
  fst (is_telephone_job view_url (job_type cfg) (exclude_types cfg) s) = Ok false ->
  accept_actions (trace (snd (persistent_bot_job cfg job accepted s)))
  = accept_actions (trace s) /\
  (fst (persistent_bot_job cfg job accepted s) = Ok accepted \/
   exists e, fst (persistent_bot_job cfg job accepted s) = Raise e).
Proof.
  intros Hurl Htel.
  remember (persistent_bot_job cfg job accepted s) as out eqn:E.
  unfold persistent_bot_job in E.
  destruct (negb (is_candidate cfg job)); [subst out; cbn; auto|].
  unfold bind at 1, lift at 1, getitem at 1 in E. rewrite Hurl in E.
  unfold bind at 1 in E.
  assert (Hq : respects same_accepts
                 (is_telephone_job view_url (job_type cfg) (exclude_types cfg))) by quiet.
  specialize (Hq s). unfold same_accepts in Hq.
  destruct (is_telephone_job view_url (job_type cfg) (exclude_types cfg) s) as [r s1].
  cbn in Htel, Hq. subst r. cbn [negb] in E.
  match type of E with
  | out = ?rest s1 =>
      assert (Hm : respects same_accepts rest) by quiet;
      specialize (Hm s1); unfold same_accepts in Hm;
      assert (Hr : fst (rest s1) = Ok accepted \/ exists e, fst (rest s1) = Raise e)
        by (do 3 (apply bind_ends_with; intros); cbn; auto)
  end.
  subst out. split; [congruence | assumption].
Qed.

Lemma run_once_job_not_accepted cfg job accepted view_url (s : State W) :
  job !! "view_url" = Some view_url ->
  fst (is_telephone_job view_url (job_type cfg) (exclude_types cfg) s) = Ok false ->
  accept_actions (trace (snd (run_once_job cfg job accepted s)))
  = accept_actions (trace s) /\
  (fst (run_once_job cfg job accepted s) = Ok accepted \/
   exists e, fst (run_once_job cfg job accepted s) = Raise e).
Proof.
  intros Hurl Htel.
  remember (run_once_job cfg job accepted s) as out eqn:E.
  unfold run_once_job in E.
  destruct (negb (is_candidate cfg job)); [subst out; cbn; auto|].
  unfold bind at 1, lift at 1, getitem at 1 in E. rewrite Hurl in E.
  unfold bind at 1 in E.
  assert (Hq : respects same_accepts
                 (is_telephone_job view_url (job_type cfg) (exclude_types cfg))) by quiet.
  specialize (Hq s). unfold same_accepts in Hq.
  destruct (is_telephone_job view_url (job_type cfg) (exclude_types cfg) s) as [r s1].
  cbn in Htel, Hq. subst r. cbn [negb] in E.
  match type of E with
  | out = ?rest s1 =>
      assert (Hm : respects same_accepts rest) by quiet;
      specialize (Hm s1); unfold same_accepts in Hm;
      assert (Hr : fst (rest s1) = Ok accepted \/ exists e, fst (rest s1) = Raise e)
        by (do 3 (apply bind_ends_with; intros); cbn; auto)
  end.
  subst out. split; [congruence | assumption].
Qed.



End CapFacts.

(** ** Worked examples on the scripted site *)

(** The scenarios of the classifier and of the cap: a telephone job is
    accepted; of seven telephone jobs five are accepted; a job accepted at
    the very clock reading of the last report is counted in the total and
    not in the jobs since the last report. *)
Example telephone_job_is_accepted :
  fst (persistent_bot_cycle default_config "/interpreter-jobs" Scripted.telephone_board)
  = Ok 1%Z /\
  trace (snd (persistent_bot_cycle default_config "/interpreter-jobs" Scripted.telephone_board))
  = [AcceptClicked "101"] /\
  fst (extract_jobs Scripted.telephone_board) = Ok [Scripted.matched_job].
Proof. vm_compute. repeat split. Qed.

Example seven_eligible_jobs_five_accepted :
  fst (persistent_bot_cycle default_config "/interpreter-jobs" Scripted.busy_board) = Ok 5%Z /\
  accept_actions
    (trace (snd (persistent_bot_cycle default_config "/interpreter-jobs" Scripted.busy_board)))
  = 5%Z /\
  fst (run_once default_config "/interpreter-jobs" Scripted.busy_board) = Ok 5%Z.
Proof. vm_compute. repeat split. Qed.

Example clock_at_last_report_is_not_since :
  Tracker.total_accepted
    (Tracker.add_accepted_job
       (Tracker.add_accepted_job (Tracker.init 5 43200 10 10 10) ∅ "iso" 10) ∅ "iso" 11)
  = 2%Z /\
  (match Tracker.get_results_summary
           (Tracker.add_accepted_job
              (Tracker.add_accepted_job (Tracker.init 5 43200 10 10 10) ∅ "iso" 10) ∅ "iso" 11)
   with
   | Ok sm => Tracker.accepted_since_last_report sm
   | Raise _ => (-1)%Z
   end) = 1%Z.
Proof. vm_compute. repeat split. Qed.



(** The stored reason is the same text for an "Onsite" job and for a
    "Face-to-Face" job, and names neither excluded type as configured. *)
Lemma rejection_reason_ignores_matched_type :
  Scripted.reasons
    (snd (persistent_bot_cycle default_config "/interpreter-jobs" Scripted.onsite_board))
  = [Some (VStr "Face-to-face job (not telephone translation)")] /\
  PyStr.contains "Onsite" "Face-to-face job (not telephone translation)" = false /\
  Scripted.reasons
    (snd (persistent_bot_cycle default_config "/interpreter-jobs" Scripted.face_to_face_board))
  = [Some (VStr "Face-to-face job (not telephone translation)")] /\
  PyStr.contains "Face-to-Face" "Face-to-face job (not telephone translation)" = false.
Proof. vm_compute. repeat split. Qed.



Lemma extract_jobs_timeout_returns_empty_witness :
  extract_jobs Scripted.unready_board
  = (Ok [], set_world Scripted.unready_board (world Scripted.unready_board)).
Proof.
  apply (extract_jobs_timeout_returns_empty Scripted.unready_board
           (world Scripted.unready_board)).
  reflexivity.
Defined.

Lemma accept_and_reject_return_false_on_failure_witness :
  (fst (accept_from_board "101/A" Scripted.bare_board) = Ok false /\
   fst (reject_on_detail Scripted.bare_board) = Ok false) /\
  (fst (accept_from_board "101/A" Scripted.stuck_board) = Ok false /\
   fst (reject_on_detail Scripted.stuck_board) = Ok false).
Proof.
  split.
  - destruct (accept_and_reject_return_false_on_failure Scripted.bare_board "101/A")
      as (_ & _ & Haccept & Hreject).
    split.
    + apply Haccept. left. left. reflexivity.
    + apply Hreject. left. split; reflexivity.
  - destruct (accept_and_reject_return_false_on_failure Scripted.stuck_board "101/A")
      as (_ & _ & Haccept & Hreject).
    split.
    + apply Haccept. right. exists PlaywrightError. reflexivity.
    + apply Hreject. right. exists PlaywrightError. reflexivity.
Defined.

(** * Further properties *)

(** ** Results tracker: history, timers, summaries *)

Section TrackerHistory.

Import Tracker.

Lemma run_app self cs1 : forall cs2,
  run self (cs1 ++ cs2) =
  match run self cs1 with
  | Ok self1 => run self1 cs2
  | Raise e => Raise e
  end.
Proof.
  revert self. induction cs1 as [|c cs1 IH]; intros self cs2; cbn [run app]; [reflexivity|].
  destruct (step self c); [apply IH | reflexivity].
Qed.

Lemma step_history self c self' :
  step self c = Ok self' ->
  accepted_jobs self' = (accepted_jobs self ++ accepted_of_calls [c])%list /\
  rejected_jobs self' = (rejected_jobs self ++ rejected_of_calls [c])%list /\
  check_cycles self' = (check_cycles self + cycles_of_calls [c])%Z /\
  login_time self' = last_login (login_time self) [c].
Proof.
  destruct c; cbn [step]; intros Hstep.
  1-5: injection Hstep as <-; cbn; rewrite ?app_nil_r, ?Z.add_0_r; repeat split;
       try reflexivity.
  - unfold report_results in Hstep.
    destruct (should_report self t_check); cbn [negb] in Hstep.
    + destruct (get_unified_summary self); [|discriminate].
      injection Hstep as <-; cbn; rewrite ?app_nil_r, ?Z.add_0_r; repeat split.
    + injection Hstep as <-; cbn; rewrite ?app_nil_r, ?Z.add_0_r; repeat split.
  - unfold report_rejected_jobs in Hstep.
    destruct (should_report_rejected self t_check); cbn [negb] in Hstep.
    + destruct (get_rejected_summary self); [|discriminate].
      injection Hstep as <-; cbn; rewrite ?app_nil_r, ?Z.add_0_r; repeat split.
    + injection Hstep as <-; cbn; rewrite ?app_nil_r, ?Z.add_0_r; repeat split.
Qed.

Lemma calls_cons c cs :
  accepted_of_calls (c :: cs) = (accepted_of_calls [c] ++ accepted_of_calls cs)%list /\
  rejected_of_calls (c :: cs) = (rejected_of_calls [c] ++ rejected_of_calls cs)%list /\
  cycles_of_calls (c :: cs) = (cycles_of_calls [c] + cycles_of_calls cs)%Z /\
  (forall before, last_login before (c :: cs) = last_login (last_login before [c]) cs).
Proof.
  destruct c; cbn; repeat split; try lia; intros; try reflexivity.
  destruct success; reflexivity.
Qed.

Lemma run_history cs : forall self self',
  run self cs = Ok self' ->
  accepted_jobs self' = (accepted_jobs self ++ accepted_of_calls cs)%list /\
  rejected_jobs self' = (rejected_jobs self ++ rejected_of_calls cs)%list /\
  check_cycles self' = (check_cycles self + cycles_of_calls cs)%Z /\
  login_time self' = last_login (login_time self) cs.
Proof.
  induction cs as [|c cs IH]; intros self self' Hrun.
  - cbn in Hrun. injection Hrun as <-. cbn.
    rewrite !app_nil_r, Z.add_0_r. repeat split.
  - cbn [run] in Hrun. destruct (step self c) as [self1|] eqn:Hstep; [|discriminate].
    apply step_history in Hstep as (Ha1 & Hr1 & Hc1 & Hl1).
    apply IH in Hrun as (Ha & Hr & Hc & Hl).
    destruct (calls_cons c cs) as (Ea & Er & Ec & El).
    rewrite Ha, Hr, Hc, Hl, Ha1, Hr1, Hc1, Hl1, Ea, Er, Ec, El.
    rewrite <- !app_assoc. repeat split. lia.
Qed.

(** X1.  From a freshly initialised tracker every sequence of tracker
    calls runs to the end, and the two histories it leaves are exactly the
    jobs of the [add_accepted_job] and of the [add_rejected_job] calls, in
    call order, each with its stamps: no call removes, reorders or rewrites
    a stored job. *)
Theorem history_is_the_add_calls :
  forall (ri rri t1 t2 t3 : Q) (cs : list call),
    exists self,
      run (init ri rri t1 t2 t3) cs = Ok self /\
      accepted_jobs self = accepted_of_calls cs /\
      rejected_jobs self = rejected_of_calls cs.
Proof.
  intros.
  destruct (run_invariant cs _ (init_stamped ri rri t1 t2 t3) (init_counted ri rri t1 t2 t3))
    as (self & Hrun & _).
  exists self. split; [assumption|].
  apply run_history in Hrun as (Ha & Hr & _). cbn in Ha, Hr. auto.
Qed.

(** X2.  After any sequence of tracker calls from a fresh tracker,
    [check_cycles] is the number of [increment_check_cycle] calls and
    [login_time] is the clock reading of the last successful
    [set_login_status]: a failed login leaves an earlier login time in
    place, and no other method touches either field. *)
Theorem cycles_and_login_time_follow_the_calls :
  forall (ri rri t1 t2 t3 : Q) (cs : list call),
    exists self,
      run (init ri rri t1 t2 t3) cs = Ok self /\
      check_cycles self = cycles_of_calls cs /\
      login_time self = last_login None cs.
Proof.
  intros.
  destruct (run_invariant cs _ (init_stamped ri rri t1 t2 t3) (init_counted ri rri t1 t2 t3))
    as (self & Hrun & _).
  exists self. split; [assumption|].
  apply run_history in Hrun as (_ & _ & Hc & Hl). cbn in Hc, Hl. auto.
Qed.

(** X3.  The entry [add_accepted_job] appends carries the two stamps of
    the call, which replace any value the job had under those keys, and
    every other key of the job unchanged; likewise [add_rejected_job] with
    its three keys. *)
Theorem stored_entry_merges_job_and_stamps
    (self : ResultsTracker) (job : gmap string pyval) (reason now_iso : string) (now : Q) :
  (exists entry,
      last (accepted_jobs (add_accepted_job self job now_iso now)) = Some entry /\
      entry !! "accepted_timestamp" = Some (VFloat now) /\
      entry !! "accepted_at" = Some (VStr now_iso) /\
      forall key, key <> "accepted_timestamp" -> key <> "accepted_at" ->
                  entry !! key = job !! key) /\
  (exists entry,
      last (rejected_jobs (add_rejected_job self job reason now_iso now)) = Some entry /\
      entry !! "rejected_timestamp" = Some (VFloat now) /\
      entry !! "rejected_at" = Some (VStr now_iso) /\
      entry !! "rejection_reason" = Some (VStr reason) /\
      forall key, key <> "rejected_timestamp" -> key <> "rejected_at" ->
                  key <> "rejection_reason" -> entry !! key = job !! key).
Proof.
  split.
  - exists (accepted_entry job now_iso now). cbn. rewrite last_snoc.
    split; [reflexivity|]. unfold accepted_entry.
    split; [apply lookup_insert_eq|].
    split; [rewrite lookup_insert_ne by discriminate; apply lookup_insert_eq|].
    intros key H1 H2. rewrite !lookup_insert_ne by congruence. reflexivity.
  - exists (rejected_entry job reason now_iso now). cbn. rewrite last_snoc.
    split; [reflexivity|]. unfold rejected_entry.
    split; [rewrite lookup_insert_ne by discriminate; apply lookup_insert_eq|].
    split; [rewrite !lookup_insert_ne by discriminate; apply lookup_insert_eq|].
    split; [apply lookup_insert_eq|].
    intros key H1 H2 H3. rewrite !lookup_insert_ne by congruence. reflexivity.
Qed.

End TrackerHistory.

Section TrackerTimers.

Import Tracker.

(** X4.  The rejected-jobs timer is a timer of its own.  With a positive
    [rejected_report_interval], a due [report_rejected_jobs] on a stamped
    tracker stores its clock reading, after which [should_report_rejected]
    is false at that reading, while [should_report] answers as before at
    every reading; and a [report_results] that goes through never changes
    the answer of [should_report_rejected]. *)
Theorem rejected_timer_is_independent
    (self : ResultsTracker) (t_check t_update : Q)
    (Hpos : (0 < rejected_report_interval self)%Q)
    (Hstamped : stamped self)
    (Hdue : should_report_rejected self t_check = true) :
  exists self',
    report_rejected_jobs self t_check t_update = Ok self' /\
    last_rejected_report_time self' = t_update /\
    should_report_rejected self' t_update = false /\
    (forall now, should_report self' now = should_report self now) /\
    (forall tc tu self'' now,
        report_results self tc tu = Ok self'' ->
        should_report_rejected self'' now = should_report_rejected self now).
Proof.
  exists (set_last_rejected_report_time self t_update).
  rewrite report_rejected_jobs_stamped by assumption. rewrite Hdue.
  split; [reflexivity|]. split; [reflexivity|]. split; [|split].
  - unfold should_report_rejected; cbn.
    destruct (Qle_bool _ _) eqn:E; [|reflexivity].
    apply Qle_bool_iff in E. lra.
  - reflexivity.
  - intros tc tu self'' now Hrep.
    rewrite report_results_stamped in Hrep by assumption.
    injection Hrep as <-. destruct (should_report self tc); reflexivity.
Qed.

Lemma rejected_timer_is_independent_witness :
  exists self',
    report_rejected_jobs (init 5 43200 0 0 0) 43200 43201 = Ok self' /\
    last_rejected_report_time self' = 43201%Q /\
    should_report_rejected self' 43201 = false /\
    (forall now, should_report self' now = should_report (init 5 43200 0 0 0) now) /\
    (forall tc tu self'' now,
        report_results (init 5 43200 0 0 0) tc tu = Ok self'' ->
        should_report_rejected self'' now = should_report_rejected (init 5 43200 0 0 0) now).
Proof.
  apply (rejected_timer_is_independent (init 5 43200 0 0 0) 43200 43201).
  - reflexivity.
  - split; constructor.
  - reflexivity.
Defined.

Lemma length_filter_le {A} (P : A -> Prop) `{forall x, Decision (P x)} (l : list A) :
  (length (filter P l) <= length l)%nat.
Proof.
  induction l as [|x l IH]; [reflexivity|].
  rewrite filter_cons. destruct (decide (P x)); cbn; lia.
Qed.

(** X5.  On a tracker that keeps its invariants (every tracker reached
    through the methods does), the three summaries are returned, each
    "since last report" list is a sublist of the stored history, and each
    "since last report" count lies between zero and the matching total. *)
Theorem since_last_report_is_within_totals
    (self : ResultsTracker) (Hstamped : stamped self) (Hcounted : counted self) :
  exists sm rj us,
    get_results_summary self = Ok sm /\
    get_rejected_summary self = Ok rj /\
    get_unified_summary self = Ok us /\
    sublist (jobs_since_last_report sm) (accepted_jobs self) /\
    sublist (jobs_since_last_rejected_report rj) (rejected_jobs self) /\
    (0 <= accepted_since_last_report sm <= total_accepted self)%Z /\
    (0 <= rejected_since_last_report rj <= total_rejected self)%Z /\
    us_accepted_since_last_report us = accepted_since_last_report sm /\
    (0 <= us_rejected_since_last_report us <= total_rejected self)%Z.
Proof.
  destruct Hstamped as [Ha Hr]. destruct Hcounted as [Ca Cr].
  unfold get_results_summary, get_rejected_summary, get_unified_summary.
  rewrite (jobs_since_filter _ (last_report_time self) _ Ha).
  rewrite (jobs_since_filter _ (last_rejected_report_time self) _ Hr).
  rewrite (jobs_since_filter _ (last_report_time self) _ Hr).
  eexists _, _, _. repeat split; cbn.
  - apply sublist_filter.
  - apply sublist_filter.
  - lia.
  - rewrite Ca. apply inj_le, length_filter_le.
  - lia.
  - rewrite Cr. apply inj_le, length_filter_le.
  - lia.
  - rewrite Cr. apply inj_le, length_filter_le.
Qed.

Lemma since_last_report_is_within_totals_witness :
  exists sm rj us,
    get_results_summary (add_accepted_job (init 5 43200 0 0 0) ∅ "t" 1) = Ok sm /\
    get_rejected_summary (add_accepted_job (init 5 43200 0 0 0) ∅ "t" 1) = Ok rj /\
    get_unified_summary (add_accepted_job (init 5 43200 0 0 0) ∅ "t" 1) = Ok us /\
    sublist (jobs_since_last_report sm)
            (accepted_jobs (add_accepted_job (init 5 43200 0 0 0) ∅ "t" 1)) /\
    sublist (jobs_since_last_rejected_report rj)
            (rejected_jobs (add_accepted_job (init 5 43200 0 0 0) ∅ "t" 1)) /\
    (0 <= accepted_since_last_report sm <= 1)%Z /\
    (0 <= rejected_since_last_report rj <= 0)%Z /\
    us_accepted_since_last_report us = accepted_since_last_report sm /\
    (0 <= us_rejected_since_last_report us <= 0)%Z.
Proof.
  apply (since_last_report_is_within_totals (add_accepted_job (init 5 43200 0 0 0) ∅ "t" 1)).
  - split; cbn.
    + constructor; [|constructor]. exists 1%Q. reflexivity.
    + constructor.
  - split; reflexivity.
Defined.

Lemma filter_stamp_le key bound jobs :
  Forall (stamp_le key bound) jobs -> filter (stamp_gt key bound) jobs = [].
Proof.
  induction 1 as [|job rest (ts & Hts & Hle) _ IH]; [reflexivity|].
  rewrite filter_cons, IH.
  destruct (decide _) as [Hd|Hd]; [|reflexivity].
  unfold stamp_gt in Hd. rewrite Hts in Hd. lra.
Qed.

Lemma stamp_le_has_stamp key bound jobs :
  Forall (stamp_le key bound) jobs -> Forall (has_stamp key) jobs.
Proof.
  intros Hall. eapply Forall_impl; [exact Hall|].
  intros job (ts & Hts & _). exists ts. assumption.
Qed.

(** X6.  A report starts a new "since last report" window.  When no
    stored accepted job is stamped later than the clock reading a due
    [report_results] stores (the clock has not run backwards), the
    summary taken right after the report counts no accepted job since the
    last report, while the totals are unchanged. *)
Theorem report_empties_since_last_report
    (self : ResultsTracker) (t_check t_update : Q)
    (Hold : Forall (stamp_le "accepted_timestamp" t_update) (accepted_jobs self))
    (Hrej : Forall (has_stamp "rejected_timestamp") (rejected_jobs self))
    (Hdue : should_report self t_check = true) :
  exists self' sm,
    report_results self t_check t_update = Ok self' /\
    get_results_summary self' = Ok sm /\
    jobs_since_last_report sm = [] /\
    accepted_since_last_report sm = 0%Z /\
    rs_total_accepted sm = total_accepted self /\
    accepted_jobs self' = accepted_jobs self.
Proof.
  assert (Hst : stamped self) by (split; [eapply stamp_le_has_stamp; eassumption | assumption]).
  rewrite report_results_stamped by assumption. rewrite Hdue.
  exists (set_last_report_time self t_update).
  unfold get_results_summary. cbn.
  rewrite jobs_since_filter by (eapply stamp_le_has_stamp; eassumption).
  rewrite filter_stamp_le by assumption.
  eexists. repeat split.
Qed.

Lemma report_empties_since_last_report_witness :
  exists self' sm,
    report_results (add_accepted_job (init 5 43200 0 0 0) ∅ "t" 2) 6 7 = Ok self' /\
    get_results_summary self' = Ok sm /\
    jobs_since_last_report sm = [] /\
    accepted_since_last_report sm = 0%Z /\
    rs_total_accepted sm = 1%Z /\
    accepted_jobs self' = accepted_jobs (add_accepted_job (init 5 43200 0 0 0) ∅ "t" 2).
Proof.
  apply (report_empties_since_last_report (add_accepted_job (init 5 43200 0 0 0) ∅ "t" 2) 6 7).
  - cbn. constructor; [|constructor]. exists 2%Q. split; [reflexivity | lra].
  - constructor.
  - reflexivity.
Defined.

Lemma jobs_since_ok key bound jobs :
  (exists kept, jobs_since key bound jobs = Ok kept) <-> Forall (has_stamp key) jobs.
Proof.
  split.
  - induction jobs as [|job rest IH]; intros [kept Hk]; [constructor|].
    cbn [jobs_since] in Hk. unfold stamp_after in Hk.
    destruct (job !! key) as [[text|ts]|] eqn:Hjob; try discriminate.
    destruct (jobs_since key bound rest) as [kept'|] eqn:Hrest; [|discriminate].
    constructor; [exists ts; assumption | apply IH; eauto].
  - intros Hall. rewrite jobs_since_filter by assumption. eauto.
Qed.

(** X7.  The summaries fail exactly on a malformed history.
    [get_results_summary] returns a summary if and only if every stored
    accepted job carries a float [accepted_timestamp]; and a report that
    is due on a tracker holding an accepted job without it raises instead
    of reporting, so [last_report_time] is not advanced. *)
Theorem summaries_need_stamps (self : ResultsTracker) :
  ((exists sm, get_results_summary self = Ok sm) <->
   Forall (has_stamp "accepted_timestamp") (accepted_jobs self)) /\
  (forall t_check t_update,
      should_report self t_check = true ->
      ~ Forall (has_stamp "accepted_timestamp") (accepted_jobs self) ->
      exists e, report_results self t_check t_update = Raise e).
Proof.
  split.
  - rewrite <- (jobs_since_ok "accepted_timestamp" (last_report_time self)).
    unfold get_results_summary.
    destruct (jobs_since _ _ _) as [kept|e]; split; intros [x Hx]; eauto; discriminate.
  - intros t_check t_update Hdue Hbad.
    unfold report_results, get_unified_summary. rewrite Hdue. cbn [negb].
    destruct (jobs_since "accepted_timestamp" _ _) as [kept|e] eqn:E; [|eauto].
    exfalso. apply Hbad. eapply jobs_since_ok. eauto.
Qed.

Lemma summaries_need_stamps_witness :
  exists e,
    report_results
      {| report_interval := 5; rejected_report_interval := 43200;
         last_report_time := 0; last_rejected_report_time := 0;
         accepted_jobs := [{["ref" := VStr "101/A"]}]; rejected_jobs := [];
         total_accepted := 1; total_rejected := 0; session_start_time := 0;
         check_cycles := 0; login_status := "Not attempted";
         login_time := None; last_activity_time := None |} 6 6 = Raise e.
Proof.
  apply (proj2 (summaries_need_stamps _) 6%Q 6%Q).
  - reflexivity.
  - intros Hall. inversion Hall as [|job rest [ts Hts] _]; subst.
    vm_compute in Hts. discriminate.
Defined.

End TrackerTimers.

(** ** Results tracker: detailed statistics *)

Section StatsFacts.

Import Tracker Stats.
Variable py_int : string -> option Z.
Variable py_round2 : Q -> Q.

Lemma total_bump k d : total (bump k d) = (total d + 1)%Z.
Proof.
  induction d as [|[k' n] d IH]; cbn; [lia|].
  destruct (key_eqb k' k); cbn; [lia|]. unfold total in IH. rewrite IH. lia.
Qed.

Lemma bump_positive k d :
  Forall (fun kv => (1 <= snd kv)%Z) d -> Forall (fun kv => (1 <= snd kv)%Z) (bump k d).
Proof.
  induction 1 as [|[k' n] d Hn Hd IH]; cbn.
  - constructor; [cbn; lia | constructor].
  - destruct (key_eqb k' k); constructor; cbn in *; try lia; assumption.
Qed.

Lemma count_by_fold key jobs : forall d,
  Forall (fun kv => (1 <= snd kv)%Z) d ->
  total (fold_left (fun d job => bump (job_get job key (VStr "Unknown")) d) jobs d)
  = (total d + Z.of_nat (length jobs))%Z /\
  Forall (fun kv => (1 <= snd kv)%Z)
    (fold_left (fun d job => bump (job_get job key (VStr "Unknown")) d) jobs d).
Proof.
  induction jobs as [|job jobs IH]; intros d Hd; cbn [fold_left length].
  - split; [lia | assumption].
  - destruct (IH (bump (job_get job key (VStr "Unknown")) d) (bump_positive _ _ Hd))
      as [Ht Hp].
    split; [|assumption]. rewrite Ht, total_bump. lia.
Qed.

Lemma count_by_total key jobs :
  total (count_by key jobs) = Z.of_nat (length jobs) /\
  Forall (fun kv => (1 <= snd kv)%Z) (count_by key jobs).
Proof.
  assert (Hnil : Forall (fun kv : pyval * Z => (1 <= snd kv)%Z) []) by constructor.
  destruct (count_by_fold key jobs [] Hnil) as [Ht Hp].
  unfold count_by. split; [rewrite Ht; cbn; lia | assumption].
Qed.

Lemma periods_total_add p t : periods_total (add_period p t) = (periods_total t + 1)%Z.
Proof. destruct p; unfold periods_total; cbn; lia. Qed.

Lemma time_periods_of_spec jobs : forall t,
  match time_periods_of py_int jobs t with
  | Done t' =>
      periods_total t' = (periods_total t + with_hour py_int jobs)%Z /\
      ~ Exists (fun job => job_hour py_int job = NoSplit) jobs
  | RaiseAttributeError => Exists (fun job => job_hour py_int job = NoSplit) jobs
  | RaiseKeyError _ => False
  end.
Proof.
  induction jobs as [|job jobs IH]; intros t; cbn [time_periods_of].
  - split; [unfold with_hour; cbn; lia | intros Hex; inversion Hex].
  - unfold with_hour. cbn [List.filter].
    destruct (job_hour py_int job) as [h| |] eqn:Hh.
    + specialize (IH (add_period (period_of h) t)).
      destruct (time_periods_of py_int jobs _) as [t'| |].
      * destruct IH as [Ht Hn]. rewrite periods_total_add in Ht. split.
        -- unfold with_hour in Ht. cbn [length]. lia.
        -- intros Hex. inversion Hex; subst; [congruence | auto].
      * assumption.
      * apply Exists_cons_tl. assumption.
    + specialize (IH t).
      destruct (time_periods_of py_int jobs _) as [t'| |].
      * destruct IH as [Ht Hn]. split; [exact Ht|].
        intros Hex. inversion Hex; subst; [congruence | auto].
      * assumption.
      * apply Exists_cons_tl. assumption.
    + apply Exists_cons_hd. assumption.
Qed.

(** X8.  [print_detailed_stats] cannot report on a tracker that holds no
    job: [get_detailed_stats] then returns its short dictionary, without
    [session_duration_hours], and printing raises [KeyError] on that key.
    With at least one stored job that key is present, and no [KeyError]
    is raised. *)
Theorem print_detailed_stats_needs_a_job (self : ResultsTracker) (now : Q) :
  print_detailed_stats py_int py_round2 self now = RaiseKeyError "session_duration_hours"
  <-> accepted_jobs self = [] /\ rejected_jobs self = [].
Proof.
  unfold print_detailed_stats, get_detailed_stats.
  pose proof (time_periods_of_spec (accepted_jobs self)
                {| morning := 0; afternoon := 0; evening := 0; night := 0 |}) as Hp.
  destruct (accepted_jobs self) as [|a acc] eqn:Ha;
    destruct (rejected_jobs self) as [|r rej] eqn:Hr;
    try (cbn; split; [reflexivity | intros; reflexivity]).
  all: destruct (time_periods_of py_int _ _); cbn;
    split; try discriminate; try tauto; intros [? ?]; discriminate.
Qed.

(** X9.  When [get_detailed_stats] returns, the counts of its language
    distribution add up to the number of accepted jobs and the counts of
    its rejection-reason distribution to the number of rejected jobs (a job
    without the key is counted under 'Unknown'), and every count listed is
    at least one. *)
Theorem distributions_count_every_job
    (self : ResultsTracker) (now : Q) (stats : DetailedStats)
    (Hstats : get_detailed_stats py_int py_round2 self now = Done stats) :
  total (ds_languages stats) = Z.of_nat (length (accepted_jobs self)) /\
  total (ds_rejection_reasons stats) = Z.of_nat (length (rejected_jobs self)) /\
  Forall (fun kv => (1 <= snd kv)%Z) (ds_languages stats) /\
  Forall (fun kv => (1 <= snd kv)%Z) (ds_rejection_reasons stats).
Proof.
  unfold get_detailed_stats in Hstats.
  destruct (count_by_total "language" (accepted_jobs self)) as [Hl Hlp].
  destruct (count_by_total "rejection_reason" (rejected_jobs self)) as [Hr Hrp].
  destruct (accepted_jobs self) as [|a acc] eqn:Ha;
    destruct (rejected_jobs self) as [|r rej] eqn:Hrj.
  { injection Hstats as <-. cbn. repeat split; constructor. }
  all: destruct (time_periods_of py_int _ _); try discriminate;
    injection Hstats as <-; cbn [ds_languages ds_rejection_reasons]; auto.
Qed.

(** X10.  The time-period statistics.  [get_detailed_stats] raises
    [AttributeError] exactly when some accepted job has an [appt_time]
    that is not a string; it never raises [KeyError]; and when it returns
    for a tracker holding a job, the four period counts add up to the
    number of accepted jobs whose hour [int] could read: a job with an
    unreadable hour is left out, no job is counted twice. *)
Theorem time_periods_count_readable_hours (self : ResultsTracker) (now : Q) :
  match get_detailed_stats py_int py_round2 self now with
  | RaiseAttributeError =>
      Exists (fun job => job_hour py_int job = NoSplit) (accepted_jobs self)
  | RaiseKeyError _ => False
  | Done stats =>
      ~ Exists (fun job => job_hour py_int job = NoSplit) (accepted_jobs self) /\
      ((accepted_jobs self = [] /\ rejected_jobs self = [] /\ ds_time_periods stats = []) \/
       exists t, ds_time_periods stats = periods_items t /\
                 periods_total t = with_hour py_int (accepted_jobs self) /\
                 (periods_total t <= Z.of_nat (length (accepted_jobs self)))%Z)
  end.
Proof.
  unfold get_detailed_stats.
  pose proof (time_periods_of_spec (accepted_jobs self)
                {| morning := 0; afternoon := 0; evening := 0; night := 0 |}) as Hp.
  assert (Hle : (with_hour py_int (accepted_jobs self)
                 <= Z.of_nat (length (accepted_jobs self)))%Z).
  { unfold with_hour. apply inj_le, List.filter_length_le. }
  destruct (accepted_jobs self) as [|a acc] eqn:Ha;
    destruct (rejected_jobs self) as [|r rej] eqn:Hr.
  { split; [intros Hex; inversion Hex | left; auto]. }
  all: destruct (time_periods_of py_int _ _) as [t| |]; try assumption.
  all: destruct Hp as [Ht Hn]; split; [assumption|]; right; exists t.
  all: change (periods_total {| morning := 0; afternoon := 0; evening := 0; night := 0 |})
         with 0%Z in Ht.
  all: split; [reflexivity|]; split; lia.
Qed.

End StatsFacts.

(** ** Classifier and required fields *)

Section ClassifierFacts.

Context {W Elem : Type} `{Browser W Elem}.

Lemma strip_truthy v : PyStr.truthy (PyStr.strip v) = true -> PyStr.truthy v = true.
Proof. destruct v; [discriminate | reflexivity]. Qed.

Lemma truthy_not_empty v : PyStr.truthy v = true <-> v <> EmptyString.
Proof. destruct v; cbn; split; congruence. Qed.


Lemma any_excluded_false exclude_types text :
  any_excluded exclude_types text = false <->
  forall ex, In ex exclude_types -> PyStr.contains (PyStr.lower ex) text = false.
Proof.
  unfold any_excluded. split.
  - intros Hnone ex Hin. destruct (PyStr.contains (PyStr.lower ex) text) eqn:E; [|reflexivity].
    assert (Hex : existsb (fun ex => PyStr.contains (PyStr.lower ex) text) exclude_types = true)
      by (apply existsb_exists; eauto).
    congruence.
  - intros Hall. apply not_true_is_false. intros Hex.
    apply existsb_exists in Hex as (ex & Hin & Hc). rewrite (Hall ex Hin) in Hc. discriminate.
Qed.

Lemma reject_test_is_any_excluded exclude_types text :
  existsb (fun ex => PyStr.contains ex text) (map PyStr.lower exclude_types)
  = any_excluded exclude_types text.
Proof.
  unfold any_excluded. induction exclude_types as [|ex rest IH]; cbn; [reflexivity|].
  rewrite IH. reflexivity.
Qed.


End ClassifierFacts.

(** ** Frame rules for the remaining page code *)

Section MoreFrames.

Context {W Elem : Type} `{Browser W Elem}.
Variable R : State W -> State W -> Prop.
Hypothesis R_refl : forall s, R s s.
Hypothesis R_trans : forall s1 s2 s3, R s1 s2 -> R s2 s3 -> R s1 s3.
Hypothesis R_world : forall s w, R s (set_world s w).

(** Decomposition along binds and branches, the side conditions taken
    from the context. *)
Ltac frames :=
  repeat first
    [ assumption
    | progress intros
    | apply respects_ret | apply respects_lift | apply respects_obs
    | apply respects_act | apply respects_tick | apply respects_human_pause
    | apply respects_extract_jobs | apply respects_is_telephone_job
    | apply respects_get_interpreter_details_text
    | apply respects_navigate_to_job_board | apply respects_try_login
    | apply respects_handle_24_hour_modal | apply respects_handle_cancel_modal
    | apply respects_reject_on_detail | apply respects_accept_from_board
    | apply respects_bind | apply respects_try_except | apply respects_try_except_timeout
    | match goal with
      | |- respects _ (if ?b then _ else _) => destruct b
      | |- respects _ (match ?x with _ => _ end) => destruct x
      | |- respects _ (let _ := _ in _) => cbv zeta
      end ].

Lemma respects_category_matches category job : respects R (category_matches category job).
Proof. unfold category_matches. frames. Qed.

Lemma respects_check_jobs_loop category jobs : forall matching,
  respects R (check_jobs_loop category jobs matching).
Proof.
  induction jobs as [|job jobs IH]; intros matching; cbn [check_jobs_loop]; [frames|].
  destruct (negb (is_matched job)); [apply IH|].
  destruct (negb (PyStr.truthy (job_get_default job "view_url"))); [apply IH|].
  apply respects_bind; [assumption | apply respects_category_matches | intros; apply IH].
Qed.

Lemma respects_check_jobs_for_category category :
  respects R (check_jobs_for_category category).
Proof.
  unfold check_jobs_for_category.
  apply respects_try_except; [assumption | | frames].
  apply respects_bind; [assumption | frames |].
  intros jobs. destruct category as [[|c category]|];
    first [apply respects_ret; assumption | apply respects_check_jobs_loop].
Qed.

Lemma respects_quick_job_check_cycle jobs_url category :
  respects R (quick_job_check_cycle jobs_url category).
Proof.
  unfold quick_job_check_cycle.
  apply respects_try_except; [assumption | | frames].
  apply respects_bind; [assumption | frames | intros].
  apply respects_bind; [assumption | apply respects_check_jobs_for_category | frames].
Qed.

Lemma respects_row_status_text row : respects R (row_status_text row).
Proof. unfold row_status_text, or_else. frames. Qed.

Lemma respects_matched_rows_loop rows : forall matched,
  respects R (matched_rows_loop rows matched).
Proof.
  induction rows as [|row rows IH]; intros matched; cbn [matched_rows_loop]; [frames|].
  apply respects_bind; [assumption | apply respects_row_status_text | intros; apply IH].
Qed.

Lemma respects_get_matched_rows : respects R get_matched_rows.
Proof.
  unfold get_matched_rows.
  apply respects_bind; [assumption | frames | intros ready].
  destruct (negb ready); [frames|].
  apply respects_bind; [assumption | frames | intros; apply respects_matched_rows_loop].
Qed.

(** The code that clicks, when no recorded click does harm. *)
Hypothesis R_event : forall s e, R s (add_event s e).

Lemma respects_ghost e : respects R (ghost e).
Proof. intros s. apply R_event. Qed.

Lemma respects_run_once_job cfg job accepted : respects R (run_once_job cfg job accepted).
Proof.
  pose proof (fun s => R_event s RejectClicked) as Hrej.
  pose proof (fun s id => R_event s (AcceptClicked id)) as Hacc.
  unfold run_once_job. frames.
Qed.

Lemma respects_run_once_loop cfg jobs : forall accepted,
  respects R (run_once_loop cfg jobs accepted).
Proof.
  induction jobs as [|job jobs IH]; intros accepted; cbn [run_once_loop]; [frames|].
  destruct (MAX_ACCEPT_PER_RUN cfg <=? accepted)%Z; [frames|].
  apply respects_bind; [assumption | apply respects_run_once_job | intros; apply IH].
Qed.

Lemma respects_run_once cfg jobs_url : respects R (run_once cfg jobs_url).
Proof.
  unfold run_once.
  do 4 (apply respects_bind; [assumption | frames | intros]).
  apply respects_run_once_loop.
Qed.

Lemma respects_accept_row row accepted : respects R (accept_row row accepted).
Proof.
  pose proof respects_ghost as Hg.
  unfold accept_row, cell_text.
  apply respects_try_except; [assumption | | frames].
  repeat first
    [ assumption
    | progress intros
    | apply Hg
    | apply respects_ret | apply respects_obs | apply respects_act
    | apply respects_handle_24_hour_modal | apply respects_handle_cancel_modal
    | apply respects_bind
    | match goal with
      | |- respects _ (if ?b then _ else _) => destruct b
      | |- respects _ (match ?x with _ => _ end) => destruct x
      | |- respects _ (let _ := _ in _) => cbv zeta
      end ].
Qed.

Lemma respects_accept_rows cfg rows : forall accepted,
  respects R (accept_rows cfg rows accepted).
Proof.
  induction rows as [|row rows IH]; intros accepted; cbn [accept_rows]; [frames|].
  destruct (MAX_ACCEPT_PER_RUN cfg <=? accepted)%Z; [frames|].
  apply respects_bind; [assumption | apply respects_accept_row | intros; apply IH].
Qed.

Lemma respects_accept_jobs_on_page cfg : respects R (accept_jobs_on_page cfg).
Proof.
  unfold accept_jobs_on_page.
  apply respects_try_except_timeout; [assumption | | frames].
  apply respects_bind; [assumption | frames | intros].
  apply respects_bind; [assumption | frames | intros banner].
  destruct banner; [frames|].
  apply respects_bind; [assumption | frames | intros; apply respects_accept_rows].
Qed.

End MoreFrames.

(** ** Counting along a computation *)

Section Tally.

Context {W : Type}.
Variable mu : State W -> Z.
Hypothesis mu_world : forall s w, mu (set_world s w) = mu s.

Lemma same_refl : forall s, same mu s s.
Proof. reflexivity. Qed.

Lemma same_trans : forall s1 s2 s3, same mu s1 s2 -> same mu s2 s3 -> same mu s1 s3.
Proof. unfold same. congruence. Qed.

Lemma same_world : forall s w, same mu s (set_world s w).
Proof. intros. apply mu_world. Qed.

Lemma tally_ret {A} (a : A) (post : result A -> Z -> Prop) :
  post (Ok a) 0%Z -> tally mu (ret a) post.
Proof. intros Hp s. cbn. rewrite Z.sub_diag. assumption. Qed.

Lemma tally_bind {A B} (m : M W A) (k : A -> M W B) (pre : result A -> Z -> Prop)
    (post : result B -> Z -> Prop) :
  tally mu m pre ->
  (forall a d, pre (Ok a) d -> tally mu (k a) (fun r d' => post r (d + d')%Z)) ->
  (forall e d, pre (Raise e) d -> post (Raise e) d) ->
  tally mu (bind m k) post.
Proof.
  intros Hm Hk He s. unfold bind. specialize (Hm s).
  destruct (m s) as [[a|e] s1]; cbn in *.
  - specialize (Hk a _ Hm s1). cbn in Hk.
    match goal with
    | |- post _ ?x =>
        match type of Hk with post _ ?y => replace x with y by lia end
    end. assumption.
  - apply He. assumption.
Qed.

Lemma tally_quiet {A} (m : M W A) :
  respects (same mu) m -> tally mu m (fun _ d => d = 0%Z).
Proof. intros Hm s. specialize (Hm s). unfold same in Hm. lia. Qed.

Lemma tally_bind_quiet {A B} (m : M W A) (k : A -> M W B) (post : result B -> Z -> Prop) :
  respects (same mu) m ->
  (forall a, tally mu (k a) post) ->
  (forall e, post (Raise e) 0%Z) ->
  tally mu (bind m k) post.
Proof.
  intros Hm Hk He. eapply tally_bind; [apply tally_quiet; exact Hm | |].
  - intros a d -> s. cbn. rewrite Z.add_0_l. apply Hk.
  - intros e d ->. apply He.
Qed.

Lemma tally_try_ret {A} (body : M W A) (b : A) (pre post : result A -> Z -> Prop) :
  tally mu body pre ->
  (forall a d, pre (Ok a) d -> post (Ok a) d) ->
  (forall e d, pre (Raise e) d -> post (Ok b) d) ->
  tally mu (try_except body (ret b)) post.
Proof.
  intros Hb Hok Hraise s. unfold try_except, ret. specialize (Hb s).
  destruct (body s) as [[a|e] s1]; cbn in *; eauto.
Qed.

Lemma tally_weaken {A} (m : M W A) (pre post : result A -> Z -> Prop) :
  tally mu m pre -> (forall r d, pre r d -> post r d) -> tally mu m post.
Proof. intros Hm Himp s. apply Himp, Hm. Qed.

End Tally.

(** ** The cycle and the tracker: what is counted was clicked *)

Section Bookkeeping.

Context {W Elem : Type} `{Browser W Elem}.

Lemma accepted_total_world (s : State W) w : accepted_total (set_world s w) = accepted_total s.
Proof. reflexivity. Qed.

Lemma accepted_refl (s : State W) : same accepted_total s s.
Proof. reflexivity. Qed.

Lemma accepted_trans (s1 s2 s3 : State W) :
  same accepted_total s1 s2 -> same accepted_total s2 s3 -> same accepted_total s1 s3.
Proof. apply same_trans. Qed.

Lemma accepted_world (s : State W) w : same accepted_total s (set_world s w).
Proof. reflexivity. Qed.

Lemma accepted_event (s : State W) e : same accepted_total s (add_event s e).
Proof. reflexivity. Qed.

Lemma tally_accepted_add_accepted_job job :
  tally accepted_total (add_accepted_job job) (fun r d => r = Ok tt /\ d = 1%Z).
Proof.
  intros s. unfold add_accepted_job, get_tracker, put_tracker, bind, tick, accepted_total.
  destruct (tracker s) as [t|] eqn:Ht.
  - destruct (datetime_now_isoformat (world s)). destruct (time_time _). cbn.
    rewrite ?Ht. split; [reflexivity | lia].
  - destruct (time_time (world s)) as [t1 w1]. destruct (time_time w1) as [t2 w2].
    destruct (time_time w2) as [t3 w3]. cbn.
    destruct (datetime_now_isoformat _). destruct (time_time _). cbn.
    rewrite ?Ht. split; [reflexivity | lia].
Qed.

Lemma respects_accepted_add_rejected_job job reason :
  respects (same accepted_total) (add_rejected_job job reason).
Proof.
  intros s. unfold same, add_rejected_job, get_tracker, put_tracker, bind, tick, accepted_total.
  destruct (tracker s) as [t|] eqn:Ht.
  - destruct (datetime_now_isoformat (world s)). destruct (time_time _). reflexivity.
  - destruct (time_time (world s)) as [t1 w1]. destruct (time_time w1) as [t2 w2].
    destruct (time_time w2) as [t3 w3]. cbn.
    destruct (datetime_now_isoformat _). destruct (time_time _). reflexivity.
Qed.

Create HintDb book_accepted.
#[local] Hint Resolve accepted_refl accepted_trans accepted_world accepted_event
  : book_accepted.

Ltac quiet_accepted :=
  repeat first
    [ apply respects_is_telephone_job
    | apply respects_get_interpreter_details_text
    | apply respects_navigate_to_job_board
    | apply respects_handle_24_hour_modal
    | apply respects_handle_cancel_modal
    | apply respects_reject_on_detail
    | apply respects_accept_from_board
    | apply respects_accepted_add_rejected_job
    | apply respects_extract_jobs
    | apply respects_ret | apply respects_lift | apply respects_act
    | apply respects_bind
    | match goal with
      | |- respects _ (if ?b then _ else _) => destruct b
      | |- respects _ (let _ := _ in _) => cbv zeta
      end
    | progress intros
    | solve [eauto with book_accepted] ].

Ltac step_accepted := apply tally_bind_quiet; [quiet_accepted | intros | cbn; lia].

Lemma persistent_bot_job_records cfg job accepted :
  tally accepted_total (persistent_bot_job cfg job accepted)
    (fun r d => match r with
                | Ok accepted' => d = (accepted' - accepted)%Z
                | Raise _ => d = 0%Z
                end).
Proof.
  unfold persistent_bot_job.
  destruct (negb (is_candidate cfg job)).
  { apply tally_ret. lia. }
  step_accepted. step_accepted.
  match goal with |- tally _ (if negb ?telephone then _ else _) _ => destruct telephone end;
    cbn [negb].
  - do 3 step_accepted.
    match goal with |- tally _ (if negb ?ok then _ else _) _ => destruct ok end; cbn [negb].
    + do 3 step_accepted.
      eapply tally_bind; [apply tally_accepted_add_accepted_job | |].
      * intros u d [_ ->]. apply tally_ret. lia.
      * intros e d [E _]. discriminate.
    + apply tally_ret. lia.
  - do 3 step_accepted. apply tally_ret. lia.
Qed.

(** The loop of [persistent_bot_cycle]: the tracker total grows by the
    growth of [accepted]; [accepted] stays within the cap; the accept
    clicks are the growth of [accepted], or one more when an iteration
    raised after its click. *)
Lemma persistent_bot_loop_records cfg jobs : forall accepted (s : State W),
  let out := persistent_bot_loop cfg jobs accepted s in
  (accepted_total (snd out) - accepted_total s = fst (fst out) - accepted)%Z /\
  (accepted <= fst (fst out) <= Z.max accepted (MAX_ACCEPT_PER_RUN cfg))%Z /\
  (0 <= accept_actions (trace (snd out)) - accept_actions (trace s)
        - (fst (fst out) - accepted) <= 1)%Z.
Proof.
  induction jobs as [|job jobs IH]; intros accepted s; cbn [persistent_bot_loop].
  - cbn. lia.
  - destruct (Z.leb_spec (MAX_ACCEPT_PER_RUN cfg) accepted) as [Hle|Hlt]; [cbn; lia|].
    pose proof (persistent_bot_job_records cfg job accepted s) as Hrec.
    pose proof (persistent_bot_job_bounded cfg job accepted s) as [Hd Hr].
    destruct (persistent_bot_job cfg job accepted s) as [[a'|e] s1]; cbn in Hrec, Hd, Hr.
    + specialize (IH a' s1). cbn zeta in IH.
      destruct (persistent_bot_loop cfg jobs a' s1) as [[a e] s2]; cbn in *. lia.
    + cbn. lia.
Qed.


Lemma reject_actions_snoc tr e :
  reject_actions (tr ++ [e]) = (reject_actions tr + (if is_accept e then 0 else 1))%Z.
Proof.
  unfold reject_actions. rewrite filter_app, length_app, filter_cons, filter_nil.
  destruct (decide (is_accept e = false)) as [->|Hn]; cbn.
  - lia.
  - destruct (is_accept e); [|congruence]. cbn. lia.
Qed.

Lemma unrecorded_refl (s : State W) : same unrecorded_rejections s s.
Proof. reflexivity. Qed.

Lemma unrecorded_trans (s1 s2 s3 : State W) :
  same unrecorded_rejections s1 s2 -> same unrecorded_rejections s2 s3 ->
  same unrecorded_rejections s1 s3.
Proof. apply same_trans. Qed.

Lemma unrecorded_world (s : State W) w : same unrecorded_rejections s (set_world s w).
Proof. reflexivity. Qed.

Lemma unrecorded_accept_event (s : State W) id :
  same unrecorded_rejections s (add_event s (AcceptClicked id)).
Proof.
  unfold same, unrecorded_rejections, rejected_total. cbn.
  rewrite reject_actions_snoc. cbn. lia.
Qed.

Lemma respects_unrecorded_add_accepted_job job :
  respects (same unrecorded_rejections) (add_accepted_job job).
Proof.
  intros s. unfold same, unrecorded_rejections, rejected_total.
  unfold add_accepted_job, get_tracker, put_tracker, bind, tick.
  destruct (tracker s) as [t|] eqn:Ht.
  - destruct (datetime_now_isoformat (world s)). destruct (time_time _). cbn. lia.
  - destruct (time_time (world s)) as [t1 w1]. destruct (time_time w1) as [t2 w2].
    destruct (time_time w2) as [t3 w3]. cbn.
    destruct (datetime_now_isoformat _). destruct (time_time _). cbn. lia.
Qed.

Lemma tally_unrecorded_add_rejected_job job reason :
  tally unrecorded_rejections (add_rejected_job job reason)
    (fun r d => r = Ok tt /\ d = (-1)%Z).
Proof.
  intros s. unfold unrecorded_rejections, rejected_total.
  unfold add_rejected_job, get_tracker, put_tracker, bind, tick.
  destruct (tracker s) as [t|] eqn:Ht.
  - destruct (datetime_now_isoformat (world s)). destruct (time_time _). cbn.
    split; [reflexivity | lia].
  - destruct (time_time (world s)) as [t1 w1]. destruct (time_time w1) as [t2 w2].
    destruct (time_time w2) as [t3 w3]. cbn.
    destruct (datetime_now_isoformat _). destruct (time_time _). cbn.
    split; [reflexivity | lia].
Qed.

Lemma tally_unrecorded_reject_on_detail :
  tally unrecorded_rejections reject_on_detail
    (fun r d => (r = Ok true /\ d = 1%Z) \/ (r = Ok false /\ d = 0%Z)).
Proof.
  intros s. unfold unrecorded_rejections, rejected_total.
  unfold reject_on_detail, reject_on_detail_body.
  unfold bind, ret, obs, act, ghost, try_except.
  repeat match goal with
    | |- context [match ?x with _ => _ end] =>
        lazymatch x with
        | context [match _ with _ => _ end] => fail
        | tracker _ => fail
        | _ => destruct x eqn:?
        end
    end; cbn; rewrite ?reject_actions_snoc; cbn;
    first [left; split; [reflexivity | lia] | right; split; [reflexivity | lia]].
Qed.

End Bookkeeping.

Section RejectedBookkeeping.

Context {W Elem : Type} `{Browser W Elem}.

Create HintDb book_rejected.
#[local] Hint Resolve unrecorded_refl unrecorded_trans unrecorded_world
  unrecorded_accept_event : book_rejected.

Ltac quiet_rejected :=
  repeat first
    [ apply respects_is_telephone_job
    | apply respects_get_interpreter_details_text
    | apply respects_navigate_to_job_board
    | apply respects_handle_24_hour_modal
    | apply respects_handle_cancel_modal
    | apply respects_accept_from_board
    | apply respects_unrecorded_add_accepted_job
    | apply respects_extract_jobs
    | apply respects_ret | apply respects_lift | apply respects_act
    | apply respects_bind
    | match goal with
      | |- respects _ (if ?b then _ else _) => destruct b
      | |- respects _ (let _ := _ in _) => cbv zeta
      end
    | progress intros
    | solve [eauto with book_rejected] ].

Lemma tally_respects {A} (mu : State W -> Z) (m : M W A) :
  tally mu m (fun _ d => d = 0%Z) -> respects (same mu) m.
Proof. intros Hm s. specialize (Hm s). unfold same. cbn in Hm. lia. Qed.

(** A reject click and its record balance, whatever follows quietly. *)
Lemma reject_and_record_balance {A} job (r : result A) (after : M W unit) :
  respects (same unrecorded_rejections) after ->
  respects (same unrecorded_rejections)
    (rejected <- reject_on_detail ;;
     (if rejected : bool then
        add_rejected_job job rejection_reason ;;
        lift r ;; ret tt
      else ret tt) ;;
     after).
Proof.
  intros Hafter. apply tally_respects.
  eapply tally_bind; [apply tally_unrecorded_reject_on_detail | |].
  - intros rejected d [[E ->]|[E ->]]; injection E as ->.
    + eapply tally_bind with (pre := fun _ d => d = (-1)%Z).
      * eapply tally_bind; [apply tally_unrecorded_add_rejected_job | |].
        -- intros u d [_ ->].
           apply tally_bind_quiet; [quiet_rejected | intros; apply tally_ret; lia | intros; lia].
        -- intros e d [E _]. discriminate.
      * intros u d ->. eapply tally_weaken; [apply tally_quiet; exact Hafter|].
        cbn. intros; lia.
      * cbn. intros; lia.
    + apply tally_bind_quiet; [quiet_rejected | | intros; lia].
      intros u. eapply tally_weaken; [apply tally_quiet; exact Hafter|].
      cbn. intros; lia.
  - intros e d [[E _]|[E _]]; discriminate.
Qed.

Lemma persistent_bot_job_balanced cfg job accepted :
  respects (same unrecorded_rejections) (persistent_bot_job cfg job accepted).
Proof.
  unfold persistent_bot_job.
  destruct (negb (is_candidate cfg job)); [quiet_rejected|].
  apply respects_bind; [apply unrecorded_trans | quiet_rejected | intros view_url].
  apply respects_bind; [apply unrecorded_trans | quiet_rejected | intros telephone].
  destruct telephone; cbn [negb]; [quiet_rejected|].
  apply respects_bind; [apply unrecorded_trans | quiet_rejected | intros view_url'].
  apply respects_bind; [apply unrecorded_trans | quiet_rejected | intros details].
  cbv zeta.
  apply respects_bind; [apply unrecorded_trans | | quiet_rejected].
  destruct (existsb _ _); [|quiet_rejected].
  apply reject_and_record_balance. quiet_rejected.
Qed.

Lemma persistent_bot_loop_balanced cfg jobs : forall accepted (s : State W),
  same unrecorded_rejections s (snd (persistent_bot_loop cfg jobs accepted s)).
Proof.
  induction jobs as [|job jobs IH]; intros accepted s; cbn [persistent_bot_loop].
  - reflexivity.
  - destruct (MAX_ACCEPT_PER_RUN cfg <=? accepted)%Z; [reflexivity|].
    pose proof (persistent_bot_job_balanced cfg job accepted s) as Hjob.
    destruct (persistent_bot_job cfg job accepted s) as [[a'|e] s1]; cbn in *.
    + eapply unrecorded_trans; [eassumption | apply IH].
    + assumption.
Qed.

(** X14.  In a run of [persistent_bot_cycle] every reject click that went
    through is recorded and nothing else is: the tracker's
    [total_rejected] grows by exactly the number of reject clicks of the
    run, however the run ends. *)
Theorem rejections_recorded_are_rejections_clicked
    (cfg : Config) (jobs_url : string) (s : State W) :
  (rejected_total (snd (persistent_bot_cycle cfg jobs_url s)) - rejected_total s
   = reject_actions (trace (snd (persistent_bot_cycle cfg jobs_url s)))
     - reject_actions (trace s))%Z.
Proof.
  assert (Hcycle : same unrecorded_rejections s (snd (persistent_bot_cycle cfg jobs_url s))).
  { unfold persistent_bot_cycle.
    assert (Hpre : respects (same unrecorded_rejections)
                     (act (page_goto jobs_url "networkidle") ;; extract_jobs))
      by quiet_rejected.
    specialize (Hpre s).
    destruct ((act (page_goto jobs_url "networkidle") ;; extract_jobs) s) as [[jobs|e] s1];
      cbn in Hpre; [|assumption].
    pose proof (persistent_bot_loop_balanced cfg jobs 0 s1) as Hloop.
    destruct (persistent_bot_loop cfg jobs 0 s1) as [[a e] s2]; cbn in *.
    eapply unrecorded_trans; eassumption. }
  unfold same, unrecorded_rejections in Hcycle. lia.
Qed.

End RejectedBookkeeping.

(** ** The quick check and the matched rows: code that only looks *)

Section Onlookers.

Context {W Elem : Type} `{Browser W Elem}.

Lemma only_world_refl (s : State W) : only_world s s.
Proof. split; reflexivity. Qed.

Lemma only_world_trans (s1 s2 s3 : State W) :
  only_world s1 s2 -> only_world s2 s3 -> only_world s1 s3.
Proof. unfold only_world. intros [? ?] [? ?]. split; congruence. Qed.

Lemma only_world_world (s : State W) w : only_world s (set_world s w).
Proof. split; reflexivity. Qed.

(** X15.  [quick_job_check_cycle] only looks: whatever the page does it
    returns a count that is not negative, never an exception, and it
    clicks nothing and leaves the tracker as it was. *)
Theorem quick_check_only_looks
    (jobs_url : string) (selected_category : option string) (s : State W) :
  (exists count, fst (quick_job_check_cycle jobs_url selected_category s) = Ok count /\
                 (0 <= count)%Z) /\
  tracker (snd (quick_job_check_cycle jobs_url selected_category s)) = tracker s /\
  trace (snd (quick_job_check_cycle jobs_url selected_category s)) = trace s.
Proof.
  split.
  - unfold quick_job_check_cycle, try_except, bind, ret.
    destruct (act (page_goto jobs_url "networkidle") s) as [[u|e] s1];
      [|exists 0%Z; cbn; split; [reflexivity | lia]].
    destruct (check_jobs_for_category selected_category s1) as [[found|e] s2]; cbn.
    + eexists. split; [reflexivity | lia].
    + exists 0%Z. split; [reflexivity | lia].
  - apply (respects_quick_job_check_cycle only_world only_world_refl only_world_trans
             only_world_world jobs_url selected_category s).
Qed.

Lemma category_matches_returns category job (s : State W) :
  exists hit, fst (category_matches category job s) = Ok hit.
Proof.
  unfold category_matches, try_except.
  match goal with |- context [match ?body s with _ => _ end] => destruct (body s) as [[b|e] s1] end;
    cbn; eauto.
Qed.

Lemma check_jobs_loop_spec category jobs : forall matching (s : State W),
  exists found,
    fst (check_jobs_loop category jobs matching s) = Ok (matching ++ found)%list /\
    sublist found jobs /\
    Forall (fun job => is_matched job = true) found.
Proof.
  induction jobs as [|job jobs IH]; intros matching s; cbn [check_jobs_loop].
  - exists []. rewrite app_nil_r. repeat split; constructor.
  - destruct (is_matched job) eqn:Hm; cbn [negb].
    2:{ destruct (IH matching s) as (found & Hf & Hs & Ha).
        exists found. repeat split; [assumption | apply sublist_cons; assumption | assumption]. }
    destruct (negb (PyStr.truthy (job_get_default job "view_url"))).
    { destruct (IH matching s) as (found & Hf & Hs & Ha).
      exists found. repeat split; [assumption | apply sublist_cons; assumption | assumption]. }
    unfold bind. destruct (category_matches_returns category job s) as [hit Hhit].
    destruct (category_matches category job s) as [r s1]. cbn in Hhit. subst r.
    destruct hit.
    + destruct (IH (matching ++ [job])%list s1) as (found & Hf & Hs & Ha).
      exists (job :: found). rewrite Hf, <- app_assoc.
      repeat split; [apply sublist_skip; assumption | constructor; assumption].
    + destruct (IH matching s1) as (found & Hf & Hs & Ha).
      exists found. repeat split; [assumption | apply sublist_cons; assumption | assumption].
Qed.

Lemma list_filter_sublist {A} (f : A -> bool) (l : list A) : sublist (List.filter f l) l.
Proof.
  induction l as [|x l IH]; cbn; [constructor|].
  destruct (f x); [apply sublist_skip | apply sublist_cons]; assumption.
Qed.

Lemma list_filter_all {A} (f : A -> bool) (l : list A) :
  Forall (fun x => f x = true) (List.filter f l).
Proof.
  induction l as [|x l IH]; cbn; [constructor|].
  destruct (f x) eqn:E; [constructor|]; assumption.
Qed.

(** X16.  [check_jobs_for_category] never raises.  The jobs it returns
    all have "matched" in their status, and they are a sublist, in the
    order of the page, of what [extract_jobs] returns; without a category
    ([None] or the empty string) they are exactly the matched jobs; and
    when the extraction raises, the answer is the empty list. *)
Theorem check_jobs_for_category_returns_matched_jobs
    (selected_category : option string) (s : State W) :
  exists found,
    fst (check_jobs_for_category selected_category s) = Ok found /\
    Forall (fun job => is_matched job = true) found /\
    match fst (extract_jobs s) with
    | Ok extracted =>
        sublist found extracted /\
        (selected_category = None \/ selected_category = Some EmptyString ->
         found = List.filter is_matched extracted)
    | Raise _ => found = []
    end.
Proof.
  unfold check_jobs_for_category, try_except, bind.
  destruct (extract_jobs s) as [[jobs|e] s1]; cbn [fst].
  2:{ exists []. repeat split; constructor. }
  destruct selected_category as [[|c category]|].
  - exists (List.filter is_matched jobs). cbn.
    repeat split; [apply list_filter_all | apply list_filter_sublist].
  - destruct (check_jobs_loop_spec (String c category) jobs [] s1) as (found & Hf & Hs & Ha).
    destruct (check_jobs_loop (String c category) jobs [] s1) as [r s2].
    cbn in Hf. subst r. exists found. cbn.
    repeat split; try assumption. intros [E|E]; discriminate.
  - exists (List.filter is_matched jobs). cbn.
    repeat split; [apply list_filter_all | apply list_filter_sublist].
Qed.

Lemma row_status_text_state row (s : State W) : snd (row_status_text row s) = s.
Proof.
  unfold row_status_text, or_else, bind, obs, ret.
  repeat match goal with
    | |- context [match ?x with _ => _ end] =>
        lazymatch x with
        | context [match _ with _ => _ end] => fail
        | _ => destruct x eqn:?
        end
    end; reflexivity.
Qed.

Lemma matched_rows_loop_spec rows : forall matched (s : State W) out s',
  matched_rows_loop rows matched s = (Ok out, s') ->
  s' = s /\
  exists found,
    out = (matched ++ found)%list /\
    sublist found rows /\
    Forall (fun row => exists text, fst (row_status_text row s) = Ok text /\
                                    PyStr.contains "matched" text = true) found.
Proof.
  induction rows as [|row rows IH]; intros matched s out s' Hrun; cbn [matched_rows_loop] in Hrun.
  - unfold ret in Hrun. injection Hrun as <- <-. split; [reflexivity|].
    exists []. rewrite app_nil_r. repeat split; constructor.
  - unfold bind in Hrun. pose proof (row_status_text_state row s) as Hst.
    destruct (row_status_text row s) as [[text|e] s1] eqn:Hrow; [|discriminate].
    cbn in Hst. subst s1.
    apply IH in Hrun as [-> (found & -> & Hs & Ha)]. split; [reflexivity|].
    destruct (PyStr.contains "matched" text) eqn:Hc.
    + exists (row :: found). rewrite <- app_assoc.
      repeat split; [apply sublist_skip; assumption|].
      constructor; [|assumption]. exists text. rewrite Hrow. auto.
    + exists found. repeat split; [apply sublist_cons; assumption | assumption].
Qed.


End Onlookers.

(** ** atoz_bot.py: counts and clicks *)

Section PageAccepts.

Context {W Elem : Type} `{Browser W Elem}.

Lemma clicks_refl (s : State W) : same accept_clicks s s.
Proof. reflexivity. Qed.

Lemma clicks_trans (s1 s2 s3 : State W) :
  same accept_clicks s1 s2 -> same accept_clicks s2 s3 -> same accept_clicks s1 s3.
Proof. apply same_trans. Qed.

Lemma clicks_world (s : State W) w : same accept_clicks s (set_world s w).
Proof. reflexivity. Qed.

Lemma clicks_reject (s : State W) : same accept_clicks s (add_event s RejectClicked).
Proof. unfold same, accept_clicks. cbn. rewrite accept_actions_snoc. cbn. lia. Qed.

Create HintDb clicks.
#[local] Hint Resolve clicks_refl clicks_trans clicks_world clicks_reject : clicks.

Ltac quiet_clicks :=
  repeat first
    [ apply respects_handle_24_hour_modal
    | apply respects_handle_cancel_modal
    | apply respects_navigate_to_job_board
    | apply respects_try_login
    | apply respects_extract_jobs
    | apply respects_ret | apply respects_obs | apply respects_act
    | apply respects_bind
    | progress intros
    | solve [eauto with clicks] ].

Ltac step_clicks :=
  apply tally_bind_quiet; [solve [quiet_clicks] | intros | solve [cbn; lia]].

Ltac walk :=
  repeat first
    [ apply tally_ret; solve [cbn; lia]
    | step_clicks
    | match goal with
      | |- tally _ (let _ := _ in _) _ => cbv zeta
      | |- tally _ (match ?x with _ => _ end) _ => destruct x
      end ].

Lemma tally_clicks_ghost id :
  tally accept_clicks (ghost (AcceptClicked id) : M W unit)
    (fun r d => r = Ok tt /\ d = 1%Z).
Proof.
  intros s. unfold accept_clicks. cbn. rewrite accept_actions_snoc. cbn.
  split; [reflexivity | lia].
Qed.

(** A step that records nothing and always returns. *)
Lemma tally_bind_calm {A B} (mu : State W -> Z) (m : M W A) (k : A -> M W B)
    (post : result B -> Z -> Prop) :
  respects (same mu) m ->
  (forall s, exists a, fst (m s) = Ok a) ->
  (forall a, tally mu (k a) post) ->
  tally mu (bind m k) post.
Proof.
  intros Hm Hok Hk s. unfold bind. specialize (Hm s). specialize (Hok s).
  destruct (m s) as [[a|e] s1]; cbn in *; [|destruct Hok; discriminate].
  specialize (Hk a s1). unfold same in Hm. rewrite Hm in Hk. exact Hk.
Qed.

Lemma handle_24_hour_modal_returns (s : State W) :
  exists u, fst (handle_24_hour_modal s) = Ok u.
Proof.
  unfold handle_24_hour_modal, try_except.
  match goal with |- context [match ?body s with _ => _ end] => destruct (body s) as [[u|e] s1] end;
    cbn; eauto.
Qed.

Lemma handle_cancel_modal_returns (s : State W) :
  exists u, fst (handle_cancel_modal s) = Ok u.
Proof.
  unfold handle_cancel_modal, try_except.
  match goal with |- context [match ?body s with _ => _ end] => destruct (body s) as [[u|e] s1] end;
    cbn; eauto.
Qed.

(** One row of [accept_jobs_on_page]: it never raises; [accepted] goes up
    by one only after a click; a click may go uncounted. *)
Lemma accept_row_clicks row accepted :
  tally accept_clicks (accept_row row accepted)
    (fun r d => (r = Ok accepted /\ (0 <= d <= 1)%Z) \/
                (r = Ok (accepted + 1)%Z /\ d = 1%Z)).
Proof.
  unfold accept_row, cell_text.
  eapply tally_try_ret with
    (pre := fun r d => match r with
                       | Ok a' => (a' = accepted /\ d = 0%Z) \/
                                  (a' = (accepted + 1)%Z /\ d = 1%Z)
                       | Raise _ => (0 <= d <= 1)%Z
                       end).
  - walk.
    eapply tally_bind; [apply tally_clicks_ghost | | intros ? ? [E _]; discriminate].
    intros u d [_ ->]. walk.
  - intros a d [[-> ->]|[-> ->]]; [left | right]; split; (reflexivity || lia).
  - intros e d Hd. left. split; [reflexivity | lia].
Qed.

(** The same row on a page that settles after each click: every click is
    counted. *)
Lemma accept_row_settled row accepted
    (Hsettles : forall w, fst (page_wait_for_load_state w) = Ok tt) :
  tally accept_clicks (accept_row row accepted)
    (fun r d => r = Ok (accepted + d)%Z /\ (0 <= d <= 1)%Z).
Proof.
  unfold accept_row, cell_text.
  eapply tally_try_ret with
    (pre := fun r d => match r with
                       | Ok a' => a' = (accepted + d)%Z /\ (0 <= d <= 1)%Z
                       | Raise _ => d = 0%Z
                       end).
  - walk.
    eapply tally_bind; [apply tally_clicks_ghost | | intros ? ? [E _]; discriminate].
    intros u d [_ ->].
    apply tally_bind_calm;
      [quiet_clicks | apply handle_24_hour_modal_returns | intros _].
    apply tally_bind_calm;
      [quiet_clicks | apply handle_cancel_modal_returns | intros _].
    apply tally_bind_calm; [quiet_clicks | | intros _; walk].
    intros s. unfold act. specialize (Hsettles (world s)).
    destruct (page_wait_for_load_state (world s)) as [r w]. cbn in *. eauto.
  - intros a d [-> Hd]. split; [reflexivity | assumption].
  - intros e d ->. split; [f_equal; lia | lia].
Qed.

Lemma accept_rows_clicks cfg rows : forall accepted (s : State W),
  exists count,
    fst (accept_rows cfg rows accepted s) = Ok count /\
    (accepted <= count <= Z.max accepted (MAX_ACCEPT_PER_RUN cfg))%Z /\
    (count - accepted
     <= accept_clicks (snd (accept_rows cfg rows accepted s)) - accept_clicks s
     <= Z.of_nat (length rows))%Z.
Proof.
  induction rows as [|row rows IH]; intros accepted s; cbn [accept_rows].
  - exists accepted. split; [reflexivity | cbn; lia].
  - destruct (Z.leb_spec (MAX_ACCEPT_PER_RUN cfg) accepted) as [Hle|Hlt].
    { exists accepted. split; [reflexivity | cbn [ret fst snd length]; lia]. }
    unfold bind. pose proof (accept_row_clicks row accepted s) as Hrow.
    destruct (accept_row row accepted s) as [r s1]. cbn [fst snd] in Hrow.
    destruct Hrow as [[-> Hd]|[-> Hd]].
    + destruct (IH accepted s1) as (count & E & Hc & Hk).
      exists count. split; [exact E|]. cbn [length]. lia.
    + destruct (IH (accepted + 1)%Z s1) as (count & E & Hc & Hk).
      exists count. split; [exact E|]. cbn [length]. lia.
Qed.

Lemma accept_rows_settled cfg rows
    (Hsettles : forall w, fst (page_wait_for_load_state w) = Ok tt) :
  forall accepted (s : State W),
    fst (accept_rows cfg rows accepted s)
    = Ok (accepted + (accept_clicks (snd (accept_rows cfg rows accepted s))
                      - accept_clicks s))%Z.
Proof.
  induction rows as [|row rows IH]; intros accepted s; cbn [accept_rows].
  - cbn. f_equal. lia.
  - destruct (MAX_ACCEPT_PER_RUN cfg <=? accepted)%Z.
    { cbn. f_equal. lia. }
    unfold bind. pose proof (accept_row_settled row accepted Hsettles s) as [Hr Hd].
    destruct (accept_row row accepted s) as [r s1]. cbn [fst snd] in Hr, Hd. subst r.
    rewrite IH. f_equal. lia.
Qed.

(** X18.  [accept_jobs_on_page] counts within the cap and never touches
    the tracker.  When it returns a count, the count lies between zero and
    the cap and is at most the number of accept clicks made, which in turn
    is at most the number of rows of the table: a click whose follow-up
    raised is made but not counted, so the cap bounds the count, not the
    clicks.  It raises only an exception other than Playwright's timeout,
    met before the first row, with nothing clicked. *)
Theorem page_count_is_capped_and_below_the_clicks (cfg : Config) (s : State W) :
  tracker (snd (accept_jobs_on_page cfg s)) = tracker s /\
  match fst (accept_jobs_on_page cfg s) with
  | Ok count =>
      (0 <= count <= Z.max 0 (MAX_ACCEPT_PER_RUN cfg))%Z /\
      (count <= accept_clicks (snd (accept_jobs_on_page cfg s)) - accept_clicks s)%Z /\
      ((accept_clicks (snd (accept_jobs_on_page cfg s)) - accept_clicks s)%Z = 0%Z \/
       exists rows,
         page_query_selector_all "tbody tr.table__row"
           (world (snd (act (page_wait_for_selector "section.content__table table tbody") s)))
         = Ok rows /\
         (accept_clicks (snd (accept_jobs_on_page cfg s)) - accept_clicks s
          <= Z.of_nat (length rows))%Z)
  | Raise e =>
      e <> PlaywrightTimeoutError /\
      accept_clicks (snd (accept_jobs_on_page cfg s)) = accept_clicks s
  end.
Proof.
  split.
  { apply (respects_accept_jobs_on_page same_tracker); intros;
      first [reflexivity | unfold same_tracker in *; congruence]. }
  unfold accept_jobs_on_page, try_except_timeout, bind, obs, act, ret.
  destruct (page_wait_for_selector "section.content__table table tbody" (world s))
    as [[[]|e] w1]; cbn [fst snd world set_world].
  - destruct (page_query_selector "text=There are no interpreter jobs" w1)
      as [[banner|]|e]; cbn [fst snd world set_world].
    + unfold accept_clicks. cbn [trace set_world]. split; [lia|]. split; [lia|]. left. lia.
    + destruct (page_query_selector_all "tbody tr.table__row" w1) as [rows|e] eqn:Hrows;
        cbn [fst snd world set_world].
      * match goal with
        | |- context [accept_rows cfg rows 0 ?st] =>
            destruct (accept_rows_clicks cfg rows 0 st) as (count & E & Hc & Hk);
            destruct (accept_rows cfg rows 0 st) as [r s2]
        end.
        cbn [fst snd] in *. subst r. cbn [fst snd].
        unfold accept_clicks in *. cbn [trace set_world] in Hk.
        split; [lia|]. split; [lia|]. right. exists rows. split; [reflexivity | lia].
      * unfold accept_clicks.
        destruct e; cbn [fst snd trace set_world]; split; try discriminate; try lia;
          split; try lia; left; lia.
    + unfold accept_clicks.
      destruct e; cbn [fst snd trace set_world]; split; try discriminate; try lia;
        split; try lia; left; lia.
  - unfold accept_clicks.
    destruct e; cbn [fst snd trace set_world]; split; try discriminate; try lia;
      split; try lia; left; lia.
Qed.


(** The loop of [run_once]: nothing catches, so when it returns every
    click was counted. *)
Lemma run_once_loop_counts cfg jobs : forall accepted,
  tally accept_clicks (run_once_loop cfg jobs accepted)
    (fun r d => match r with
                | Ok count =>
                    count = (accepted + d)%Z /\
                    (accepted <= count <= Z.max accepted (MAX_ACCEPT_PER_RUN cfg))%Z
                | Raise _ => (0 <= d)%Z
                end).
Proof.
  induction jobs as [|job jobs IH]; intros accepted; cbn [run_once_loop].
  - apply tally_ret. lia.
  - destruct (Z.leb_spec (MAX_ACCEPT_PER_RUN cfg) accepted) as [Hle|Hlt].
    { apply tally_ret. lia. }
    eapply tally_bind with (pre := iteration_post accepted);
      [exact (run_once_job_bounded cfg job accepted) | |].
    + intros a' d [Hd ->] s. specialize (IH (accepted + d)%Z s). cbn beta in IH |- *.
      destruct (fst (run_once_loop cfg jobs (accepted + d) s)); lia.
    + intros e d [Hd _]. lia.
Qed.


End PageAccepts.

(** ** The cycle and the tracker: invariants, jobs passed over *)

Section CycleFacts.

Context {W Elem : Type} `{Browser W Elem}.

Lemma sound_refl (s : State W) : stays_sound s s.
Proof. unfold stays_sound. auto. Qed.

Lemma sound_trans (s1 s2 s3 : State W) :
  stays_sound s1 s2 -> stays_sound s2 s3 -> stays_sound s1 s3.
Proof. unfold stays_sound. intros H12 H23 H1. exact (H23 (H12 H1)). Qed.

Lemma sound_world (s : State W) w : stays_sound s (set_world s w).
Proof. unfold stays_sound. cbn. auto. Qed.

Lemma sound_event (s : State W) e : stays_sound s (add_event s e).
Proof. unfold stays_sound. cbn. auto. Qed.

Lemma respects_sound_add_accepted_job job :
  respects stays_sound (add_accepted_job job : M W unit).
Proof.
  intros s. unfold stays_sound, add_accepted_job, get_tracker, put_tracker, bind, tick.
  destruct (tracker s) as [t|] eqn:Ht.
  - destruct (datetime_now_isoformat (world s)) as [iso w1].
    destruct (time_time _) as [now w2]. cbn. intros [Hst Hc].
    destruct (step_invariant t (Tracker.AddAcceptedJob (VStr <$> job) iso now) Hst Hc)
      as (t' & E & Hs' & Hc').
    cbn in E. injection E as <-. auto.
  - destruct (time_time (world s)) as [t1 w1]. destruct (time_time w1) as [t2 w2].
    destruct (time_time w2) as [t3 w3]. cbn.
    destruct (datetime_now_isoformat _) as [iso w4]. destruct (time_time _) as [now w5].
    cbn. intros _.
    destruct (step_invariant _ (Tracker.AddAcceptedJob (VStr <$> job) iso now)
                (init_stamped Tracker.default_report_interval
                   Tracker.default_rejected_report_interval t1 t2 t3)
                (init_counted Tracker.default_report_interval
                   Tracker.default_rejected_report_interval t1 t2 t3))
      as (t' & E & Hs' & Hc').
    cbn in E. injection E as <-. auto.
Qed.

Lemma respects_sound_add_rejected_job job reason :
  respects stays_sound (add_rejected_job job reason : M W unit).
Proof.
  intros s. unfold stays_sound, add_rejected_job, get_tracker, put_tracker, bind, tick.
  destruct (tracker s) as [t|] eqn:Ht.
  - destruct (datetime_now_isoformat (world s)) as [iso w1].
    destruct (time_time _) as [now w2]. cbn. intros [Hst Hc].
    destruct (step_invariant t (Tracker.AddRejectedJob (VStr <$> job) reason iso now) Hst Hc)
      as (t' & E & Hs' & Hc').
    cbn in E. injection E as <-. auto.
  - destruct (time_time (world s)) as [t1 w1]. destruct (time_time w1) as [t2 w2].
    destruct (time_time w2) as [t3 w3]. cbn.
    destruct (datetime_now_isoformat _) as [iso w4]. destruct (time_time _) as [now w5].
    cbn. intros _.
    destruct (step_invariant _ (Tracker.AddRejectedJob (VStr <$> job) reason iso now)
                (init_stamped Tracker.default_report_interval
                   Tracker.default_rejected_report_interval t1 t2 t3)
                (init_counted Tracker.default_report_interval
                   Tracker.default_rejected_report_interval t1 t2 t3))
      as (t' & E & Hs' & Hc').
    cbn in E. injection E as <-. auto.
Qed.

(** X21.  [persistent_bot_cycle] keeps the tracker well formed.  If the
    global tracker, when it exists, has its counters equal to the lengths
    of its lists and a time stamp on every stored job, then so it has
    after the cycle, however the cycle ends; and the two report calls that
    [run_persistent_bot] makes after a cycle then return, whatever the
    clock reads. *)
Theorem cycle_keeps_the_tracker_sound
    (cfg : Config) (jobs_url : string) (s : State W)
    (Hsound : tracker_sound s) :
  tracker_sound (snd (persistent_bot_cycle cfg jobs_url s)) /\
  forall t, tracker (snd (persistent_bot_cycle cfg jobs_url s)) = Some t ->
    forall t_check t_update,
      (exists t', Tracker.report_results t t_check t_update = Ok t') /\
      (exists t', Tracker.report_rejected_jobs t t_check t_update = Ok t').
Proof.
  assert (Hafter : tracker_sound (snd (persistent_bot_cycle cfg jobs_url s))).
  { apply (respects_persistent_bot_cycle stays_sound sound_refl sound_trans sound_world
             cfg jobs_url sound_event respects_sound_add_accepted_job
             (fun j => respects_sound_add_rejected_job j rejection_reason) s).
    exact Hsound. }
  split; [exact Hafter|].
  intros t Ht t_check t_update. unfold tracker_sound in Hafter. rewrite Ht in Hafter.
  destruct Hafter as [Hst Hc]. split.
  - destruct (step_invariant t (Tracker.ReportResults t_check t_update) Hst Hc)
      as (t' & E & _). eauto.
  - destruct (step_invariant t (Tracker.ReportRejectedJobs t_check t_update) Hst Hc)
      as (t' & E & _). eauto.
Qed.

Lemma persistent_bot_loop_passes cfg jobs accepted (s : State W) :
  Forall (fun job => is_candidate cfg job = false) jobs ->
  persistent_bot_loop cfg jobs accepted s = (accepted, None, s).
Proof.
  induction 1 as [|job jobs Hjob _ IH]; cbn [persistent_bot_loop]; [reflexivity|].
  destruct (MAX_ACCEPT_PER_RUN cfg <=? accepted)%Z; [reflexivity|].
  unfold persistent_bot_job. rewrite Hjob. cbn [negb]. unfold ret. exact IH.
Qed.

Lemma run_once_loop_passes cfg jobs accepted (s : State W) :
  Forall (fun job => is_candidate cfg job = false) jobs ->
  run_once_loop cfg jobs accepted s = (Ok accepted, s).
Proof.
  induction 1 as [|job jobs Hjob _ IH]; cbn [run_once_loop]; [reflexivity|].
  destruct (MAX_ACCEPT_PER_RUN cfg <=? accepted)%Z; [reflexivity|].
  unfold bind, run_once_job. rewrite Hjob. cbn [negb]. unfold ret. exact IH.
Qed.

(** X22.  Jobs that fail the checks made on the board are never looked
    at.  When no extracted job is a candidate (its status lacks "matched",
    or a required field is missing or blank, or it has no view URL),
    [persistent_bot_cycle] returns 0 in the very state the extraction left:
    no detail page is opened, nothing is clicked, nothing is recorded; and
    the loop of [run_once] does the same. *)
Theorem cycles_pass_over_non_candidates
    (cfg : Config) (jobs_url : string) (s : State W)
    (jobs : list (gmap string string)) (s1 : State W)
    (Hjobs : (act (page_goto jobs_url "networkidle") ;; extract_jobs) s = (Ok jobs, s1))
    (Hnone : Forall (fun job => is_candidate cfg job = false) jobs) :
  persistent_bot_cycle cfg jobs_url s = (Ok 0%Z, s1) /\
  run_once_loop cfg jobs 0 s1 = (Ok 0%Z, s1) /\
  tracker s1 = tracker s /\ trace s1 = trace s.
Proof.
  split; [|split].
  - unfold persistent_bot_cycle. rewrite Hjobs.
    rewrite (persistent_bot_loop_passes cfg jobs 0 s1 Hnone). reflexivity.
  - apply run_once_loop_passes. exact Hnone.
  - assert (Hpre : respects only_world
                     (act (page_goto jobs_url "networkidle") ;; extract_jobs)).
    { apply respects_bind; [exact only_world_trans | |intros].
      - apply respects_act. exact only_world_world.
      - apply respects_extract_jobs;
          [exact only_world_refl | exact only_world_trans | exact only_world_world]. }
    specialize (Hpre s). rewrite Hjobs in Hpre. exact Hpre.
Qed.

(** X23.  A job the detail page does not classify is left alone.  When
    [is_telephone_job] answers [False] for a candidate and the details
    text fetched next names no excluded type, the iteration of either
    cycle returns [accepted] unchanged, clicks nothing and records
    nothing: the job is neither accepted nor rejected. *)
Theorem unclassified_job_is_left_alone
    (cfg : Config) (job : gmap string string) (accepted : Z) (s : State W)
    (view_url details : string)
    (Hcandidate : is_candidate cfg job = true)
    (Hurl : job !! "view_url" = Some view_url)
    (Htelephone :
       fst (is_telephone_job view_url (job_type cfg) (exclude_types cfg) s) = Ok false)
    (Hdetails :
       fst (get_interpreter_details_text view_url
              (snd (is_telephone_job view_url (job_type cfg) (exclude_types cfg) s)))
       = Ok details)
    (Hnone : any_excluded (exclude_types cfg) (PyStr.lower details) = false) :
  (fst (persistent_bot_job cfg job accepted s) = Ok accepted /\
   tracker (snd (persistent_bot_job cfg job accepted s)) = tracker s /\
   trace (snd (persistent_bot_job cfg job accepted s)) = trace s) /\
  (fst (run_once_job cfg job accepted s) = Ok accepted /\
   tracker (snd (run_once_job cfg job accepted s)) = tracker s /\
   trace (snd (run_once_job cfg job accepted s)) = trace s).
Proof.
  assert (Htel : respects only_world
                   (is_telephone_job view_url (job_type cfg) (exclude_types cfg)))
    by (apply respects_is_telephone_job;
        [exact only_world_refl | exact only_world_trans | exact only_world_world]).
  assert (Hget : respects only_world (get_interpreter_details_text view_url))
    by (apply respects_get_interpreter_details_text;
        [exact only_world_refl | exact only_world_trans | exact only_world_world]).
  specialize (Htel s).
  unfold persistent_bot_job, run_once_job. rewrite Hcandidate. cbn [negb].
  unfold bind, lift, getitem, ret. rewrite Hurl.
  destruct (is_telephone_job view_url (job_type cfg) (exclude_types cfg) s) as [r s1].
  cbn [fst snd] in *. subst r. cbn [negb]. specialize (Hget s1).
  destruct (get_interpreter_details_text view_url s1) as [r s2].
  cbn [fst snd] in *. subst r. rewrite reject_test_is_any_excluded, Hnone.
  cbn [fst snd]. destruct Htel as [Ht1 Ht2]. destruct Hget as [Hg1 Hg2].
  repeat split; congruence.
Qed.

(** X24.  [try_login] never raises: whatever [perform_login] does, the
    call returns.  It clicks no accept or reject control and leaves the
    tracker alone; and without a user name or without a password it does
    nothing at all. *)
Theorem try_login_never_raises (cfg : Config) (s : State W) :
  fst (try_login cfg s) = Ok tt /\
  tracker (snd (try_login cfg s)) = tracker s /\
  trace (snd (try_login cfg s)) = trace s /\
  (ATOZ_USERNAME cfg = EmptyString \/ ATOZ_PASSWORD cfg = EmptyString ->
   try_login cfg s = (Ok tt, s)).
Proof.
  split; [|split; [|split]].
  - unfold try_login. destruct (negb _); [reflexivity|].
    unfold try_except.
    destruct (perform_login _ _ _ s) as [[[]|e] s1]; reflexivity.
  - apply (respects_try_login only_world only_world_refl only_world_trans
             only_world_world cfg s).
  - apply (respects_try_login only_world only_world_refl only_world_trans
             only_world_world cfg s).
  - intros [E|E]; unfold try_login; rewrite E; cbn.
    + reflexivity.
    + destruct (PyStr.truthy (ATOZ_USERNAME cfg)); reflexivity.
Qed.

Lemma rstrip_by_snoc (p : ascii -> bool) (c : ascii) (s : string) :
  p c = true ->
  PyStr.rstrip_by p (s ++ String c EmptyString) = PyStr.rstrip_by p s.
Proof.
  intros Hc. induction s as [|a s IH].
  - change (PyStr.rstrip_by p (String c EmptyString) = EmptyString).
    cbn. rewrite Hc. reflexivity.
  - change (String a s ++ String c EmptyString)
      with (String a (s ++ String c EmptyString)).
    cbn [PyStr.rstrip_by]. rewrite IH. reflexivity.
Qed.

Lemma snoc_not_empty (r : string) (a : ascii) : r ++ String a EmptyString <> EmptyString.
Proof. destruct r; discriminate. Qed.

Lemma rstrip_by_stripped (p : ascii -> bool) (s : string) :
  forall a r, PyStr.rstrip_by p s = r ++ String a EmptyString -> p a = false.
Proof.
  induction s as [|c s IH]; intros a r Hs; cbn [PyStr.rstrip_by] in Hs.
  - symmetry in Hs. apply snoc_not_empty in Hs. contradiction.
  - destruct (PyStr.rstrip_by p s) as [|c' s'] eqn:E.
    + destruct (p c) eqn:Hc.
      * symmetry in Hs. apply snoc_not_empty in Hs. contradiction.
      * destruct r as [|b r].
        -- change (String c EmptyString = String a EmptyString) in Hs.
           injection Hs as <-. assumption.
        -- change (String c EmptyString = String b (r ++ String a EmptyString)) in Hs.
           injection Hs as _ Hs. symmetry in Hs. apply snoc_not_empty in Hs. contradiction.
    + destruct r as [|b r].
      * change (String c (String c' s') = String a EmptyString) in Hs. discriminate.
      * change (String c (String c' s') = String b (r ++ String a EmptyString)) in Hs.
        injection Hs as _ Hs. eapply IH. eassumption.
Qed.

(** X25.  The URLs built from the base URL do not depend on its trailing
    slashes: [navigate_to_job_board] and [perform_login] do the same with
    [base_url] and with [base_url + '/'], and the base they append to
    never ends in a slash, so the path is joined with a single slash. *)
Theorem base_url_trailing_slash_is_ignored (base_url username password : string) :
  (navigate_to_job_board (base_url ++ "/") : M W unit) = navigate_to_job_board base_url /\
  (perform_login (base_url ++ "/") username password : M W unit)
  = perform_login base_url username password /\
  (forall r, PyStr.rstrip_slash base_url <> r ++ "/").
Proof.
  assert (E : PyStr.rstrip_slash (base_url ++ "/") = PyStr.rstrip_slash base_url)
    by (apply rstrip_by_snoc; reflexivity).
  split; [|split].
  - unfold navigate_to_job_board. rewrite E. reflexivity.
  - unfold perform_login. rewrite E. reflexivity.
  - intros r Hr. apply rstrip_by_stripped in Hr. discriminate.
Qed.

(** X26.  The global tracker is created once.  After a first
    [get_tracker] a second call returns the same tracker and reads no
    clock, and a module-level [add_accepted_job] always leaves a tracker
    behind whose last accepted job is the job passed, under the same
    keys, with the two stamps added. *)
Theorem get_tracker_creates_once (s : State W) (job : gmap string string) :
  get_tracker (snd (get_tracker s)) = (fst (get_tracker s), snd (get_tracker s)) /\
  exists t iso now,
    tracker (snd (add_accepted_job job s)) = Some t /\
    last (Tracker.accepted_jobs t) = Some (accepted_entry (VStr <$> job) iso now).
Proof.
  split.
  - unfold get_tracker. destruct (tracker s) as [t|] eqn:Ht.
    + cbn. rewrite Ht. reflexivity.
    + destruct (time_time (world s)) as [t1 w1]. destruct (time_time w1) as [t2 w2].
      destruct (time_time w2) as [t3 w3]. reflexivity.
  - unfold add_accepted_job, get_tracker, put_tracker, bind, tick.
    destruct (tracker s) as [t|] eqn:Ht.
    + destruct (datetime_now_isoformat (world s)) as [iso w1].
      destruct (time_time _) as [now w2]. cbn.
      eexists _, iso, now. split; [reflexivity|]. cbn. apply last_snoc.
    + destruct (time_time (world s)) as [t1 w1]. destruct (time_time w1) as [t2 w2].
      destruct (time_time w2) as [t3 w3]. cbn.
      destruct (datetime_now_isoformat _) as [iso w4]. destruct (time_time _) as [now w5].
      cbn. eexists _, iso, now. split; [reflexivity|]. cbn. reflexivity.
Qed.

End CycleFacts.

(** ** Worked examples for the further properties *)

Lemma distributions_count_every_job_witness :
  Stats.total (Stats.ds_languages sample_stats)
  = Z.of_nat (length (Tracker.accepted_jobs sample_tracker)) /\
  Stats.total (Stats.ds_rejection_reasons sample_stats)
  = Z.of_nat (length (Tracker.rejected_jobs sample_tracker)) /\
  Forall (fun kv => (1 <= snd kv)%Z) (Stats.ds_languages sample_stats) /\
  Forall (fun kv => (1 <= snd kv)%Z) (Stats.ds_rejection_reasons sample_stats).
Proof.
  apply (distributions_count_every_job (fun _ => Some 10%Z) (fun q => q)
           sample_tracker 3 sample_stats).
  vm_compute. reflexivity.
Defined.

Lemma check_jobs_for_category_returns_matched_jobs_witness :
  fst (check_jobs_for_category None Scripted.mixed_board)
  = Ok (List.filter is_matched (Scripted.jobs_of (fst (extract_jobs Scripted.mixed_board)))).
Proof.
  destruct (check_jobs_for_category_returns_matched_jobs None Scripted.mixed_board)
    as (found & Hfound & _ & Hrest).
  destruct (fst (extract_jobs Scripted.mixed_board)) as [extracted|e] eqn:E.
  - destruct Hrest as [_ Hnone].
    rewrite Hfound, (Hnone (or_introl eq_refl)). reflexivity.
  - vm_compute in E. discriminate.
Defined.



(** X27.  The cap of [accept_jobs_on_page] does not bound its clicks:
    there is a page (ten rows, eight of them remote and matched, whose
    load-state wait times out after every click) on which it clicks eight
    accept buttons with a cap of 5, and returns 0. *)
Lemma page_clicks_can_exceed_the_cap :
  exists s : State Listing.Page,
    fst (accept_jobs_on_page default_config s) = Ok 0%Z /\
    (accept_clicks (snd (accept_jobs_on_page default_config s)) - accept_clicks s = 8)%Z /\
    MAX_ACCEPT_PER_RUN default_config = 5%Z.
Proof. exists Listing.unsettled_board. vm_compute. repeat split. Qed.

Lemma cycle_keeps_the_tracker_sound_witness :
  tracker_sound
    (snd (persistent_bot_cycle default_config "/interpreter-jobs" Scripted.busy_board)) /\
  forall t,
    tracker (snd (persistent_bot_cycle default_config "/interpreter-jobs" Scripted.busy_board))
    = Some t ->
    forall t_check t_update,
      (exists t', Tracker.report_results t t_check t_update = Ok t') /\
      (exists t', Tracker.report_rejected_jobs t t_check t_update = Ok t').
Proof.
  apply (cycle_keeps_the_tracker_sound default_config "/interpreter-jobs"
           Scripted.busy_board).
  exact I.
Defined.

Lemma cycles_pass_over_non_candidates_witness :
  length (Scripted.jobs_of (fst submitted_extracted)) = 2%nat /\
  persistent_bot_cycle default_config "/interpreter-jobs" submitted_board
  = (Ok 0%Z, snd submitted_extracted) /\
  run_once_loop default_config (Scripted.jobs_of (fst submitted_extracted)) 0
    (snd submitted_extracted)
  = (Ok 0%Z, snd submitted_extracted) /\
  tracker (snd submitted_extracted) = tracker submitted_board /\
  trace (snd submitted_extracted) = trace submitted_board.
Proof.
  split; [vm_compute; reflexivity|].
  apply (cycles_pass_over_non_candidates default_config "/interpreter-jobs" submitted_board
           (Scripted.jobs_of (fst submitted_extracted)) (snd submitted_extracted)).
  - vm_compute. reflexivity.
  - let jobs := eval vm_compute in (Scripted.jobs_of (fst submitted_extracted)) in
    change (Forall (fun job => is_candidate default_config job = false) jobs).
    repeat (constructor; [vm_compute; reflexivity|]). constructor.
Defined.

Lemma unclassified_job_is_left_alone_witness :
  (fst (persistent_bot_job default_config Scripted.matched_job 0 video_board) = Ok 0%Z /\
   tracker (snd (persistent_bot_job default_config Scripted.matched_job 0 video_board))
   = tracker video_board /\
   trace (snd (persistent_bot_job default_config Scripted.matched_job 0 video_board))
   = trace video_board) /\
  (fst (run_once_job default_config Scripted.matched_job 0 video_board) = Ok 0%Z /\
   tracker (snd (run_once_job default_config Scripted.matched_job 0 video_board))
   = tracker video_board /\
   trace (snd (run_once_job default_config Scripted.matched_job 0 video_board))
   = trace video_board).
Proof.
  apply (unclassified_job_is_left_alone default_config Scripted.matched_job 0 video_board
           "/interpreter-jobs/101" "Video interpreting, 30 min");
    vm_compute; reflexivity.
Defined.

Lemma try_login_never_raises_witness :
  try_login anonymous_config Scripted.telephone_board = (Ok tt, Scripted.telephone_board).
Proof.
  apply (try_login_never_raises anonymous_config Scripted.telephone_board).
  left. reflexivity.
Defined.
